(** * sheet-to-bq: importing spreadsheet documents into the warehouse

    A shallow embedding of [main.py].  The program is sequential I/O
    orchestration, so it is embedded in a state-and-exception monad:

    - the local scratch directory is a finite map from paths to file
      contents, read and written by the program itself; whether a file can
      be opened for writing, and whether the text written reaches it, is
      answered by the platform;
    - every call to a collaborator (key storage, the credential library,
      the document, values and warehouse services, the clock, the logger)
      appends one event to the run's trace and receives its answer from an
      environment [Env], whose answers may depend on all the calls made so
      far and may be a Python exception;
    - a Python exception is the [Raise] result, [try/except] is a handler
      on it.

    The [csv] module of the Python standard library is modelled as a writer
    and a reader over a dialect record. *)

From Stdlib Require Import Ascii String List Arith Lia.
From stdpp Require Import base option list strings gmap.

Local Open Scope string_scope.
Local Open Scope list_scope.

(** ** Python values used by the program *)

(** Exceptions that the program names, plus the ones its collaborators can
    raise.  Each carries the text that [str(err)] gives. *)
Inductive Exn : Type :=
| Forbidden (msg : string)            (* google.api_core.exceptions.Forbidden *)
| NotFound (msg : string)             (* google.api_core.exceptions.NotFound *)
| FileNotFoundError (msg : string)
| AttributeError (msg : string)
| UnpicklingError (msg : string)
| EOFError (msg : string)
| RefreshError (msg : string)         (* google.auth.exceptions.RefreshError *)
| HTTPException (code : nat)          (* what flask.abort raises *)
| OtherError (msg : string).

Definition exn_str (e : Exn) : string :=
  match e with
  | Forbidden m | NotFound m | FileNotFoundError m | AttributeError m
  | UnpicklingError m | EOFError m | RefreshError m | OtherError m => m
  | HTTPException _ => "HTTPException"
  end.

(** The result of running a piece of Python: a value or a raised exception. *)
Inductive Res (A : Type) : Type :=
| Ok (a : A)
| Raise (e : Exn).
Arguments Ok {A} a.
Arguments Raise {A} e.

(** A credential object as the program observes it: the [token], [valid]
    and [expired] attributes, and an identity for the rest of the object. *)
Record Cred : Type := mkCred {
  cred_id : string;
  token : option string;
  valid : bool;
  expired : bool
}.

(** [_SHEET = collections.namedtuple('Sheet', ('name', 'id'))] *)
Record Sheet : Type := _SHEET { name : string; id : string }.

(** A grid of cell values as the values API returns it. *)
Abbreviation Grid := (list (list string)).

(** Warehouse handles.  The program reads [dataset_id] of a dataset and
    passes table handles on without looking inside. *)
Record Dataset : Type := mkDataset { dataset_id : string }.
Record Table : Type := mkTable { table_ref : string }.

(** [bigquery.LoadJobConfig] with the four attributes the program sets. *)
Inductive SourceFormat := CSV | NEWLINE_DELIMITED_JSON.
Inductive WriteDisposition := WRITE_TRUNCATE | WRITE_APPEND | WRITE_EMPTY.
Record LoadJobConfig : Type := mkLoadJobConfig {
  source_format : SourceFormat;
  skip_leading_rows : nat;
  write_disposition : WriteDisposition;
  autodetect : bool
}.

(** Contents of a local file: a pickled object ([None] is Python's [None])
    or text. *)
Inductive FileData : Type :=
| FPickle (obj : option Cred)
| FText (text : string).

(** [datetime.datetime.now()] *)
Record DateTime : Type := mkDateTime {
  year : nat; month : nat; day : nat;
  hour : nat; minute : nat; second : nat
}.

(** The request value handed to the entry point by the HTTP framework. *)
Inductive Request : Type := FlaskRequest.

(** ** Events: every call that leaves the program *)
Inductive Event : Type :=
| EvGcsGetBlob (bucket blob : string)
| EvGcsDownload (bucket blob path : string)
| EvServiceAccountFile (path : string) (scopes : list string)
| EvRefresh (c : Cred)
| EvBuild (service version : string)
| EvBqClient
| EvBqGetDataset (dataset_name : string)
| EvBqCreateDataset (dataset_name : string)
| EvBqGetTable (full_table_name : string)
| EvBqCreateTable (full_table_name : string)
| EvBqLoad (table : option Table) (data : FileData) (cfg : LoadJobConfig)
| EvDriveList (q : string)
| EvSheetsGet (spreadsheetId range : string)
| EvNow
| EvLogError (msg : string)
| EvLogWarning (msg : string)
| EvLogInfo (msg : string)
| EvPrint (msg : string)
| EvAbort (code : nat).

(** ** The environment: what the collaborators answer

    Each answer is a function of the calls made so far in the run. *)
Record Env : Type := mkEnv {
  gettempdir : string;
  gcs_get_blob : list Event -> string -> string -> Res (option string);
  download_to_filename : list Event -> string -> string -> Res unit;
  from_service_account_file :
    list Event -> FileData -> list string -> Res Cred;
  refresh : list Event -> Cred -> Res Cred;
  build : list Event -> string -> string -> Cred -> Res unit;
  bq_Client : list Event -> Cred -> Res unit;
  get_dataset : list Event -> string -> Res Dataset;
  create_dataset : list Event -> string -> Res Dataset;
  get_table : list Event -> string -> Res Table;
  create_table : list Event -> string -> Res Table;
  load_table_from_file :
    list Event -> option Table -> FileData -> LoadJobConfig -> Res string;
  drive_files_list : list Event -> string -> Res (list Sheet);
  sheets_values_get : list Event -> string -> string -> Res (option Grid);
  (* [open(path, 'w')] and [open(path, 'wb')]: the platform creates or
     truncates the file, or raises (no such directory, a directory in the
     way, no permission) *)
  open_for_writing : list Event -> string -> Res unit;
  (* writing [text] to the open file at [path] and closing it: [None] when
     all of it reached the file, [Some (n, e)] when [e] was raised and the
     first [n] characters reached it *)
  text_written : list Event -> string -> string -> option (nat * Exn);
  now : list Event -> DateTime;
  (* the attributes of a credential object after the calls made so far:
     the service clients refresh the object they were given in place *)
  cred_now : list Event -> Cred -> Cred
}.

(** ** Program state and the monad *)
Record St : Type := mkSt {
  fs : gmap string FileData;
  trace : list Event
}.

Definition M (A : Type) : Type := St -> Res A * St.

Definition ret {A} (a : A) : M A := fun s => (Ok a, s).

Definition bind {A B} (m : M A) (k : A -> M B) : M B :=
  fun s => match m s with
           | (Ok a, s') => k a s'
           | (Raise e, s') => (Raise e, s')
           end.

Definition raise {A} (e : Exn) : M A := fun s => (Raise e, s).

(** [try: m  except ...: h e]; a handler answering [None] does not match the
    exception, which then propagates. *)
Definition try_except {A} (m : M A) (h : Exn -> option (M A)) : M A :=
  fun s => match m s with
           | (Ok a, s') => (Ok a, s')
           | (Raise e, s') =>
               match h e with
               | Some k => k s'
               | None => (Raise e, s')
               end
           end.

Declare Scope py_scope.
Delimit Scope py_scope with py.
Notation "x <- m ;; k" := (bind m (fun x => k))
  (at level 100, m at next level, right associativity) : py_scope.
Notation "m ;;; k" := (bind m (fun _ => k))
  (at level 100, right associativity) : py_scope.
Local Open Scope py_scope.

(** Record an event. *)
Definition emit (ev : Event) : M unit :=
  fun s => (Ok tt, mkSt (fs s) (trace s ++ [ev])).

(** Call a collaborator: the answer is decided by the calls made before
    this one; the call itself is recorded. *)
Definition call {A} (ev : Event) (answer : list Event -> Res A) : M A :=
  fun s => (answer (trace s), mkSt (fs s) (trace s ++ [ev])).

Definition read_file (path : string) : M (option FileData) :=
  fun s => (Ok (fs s !! path), s).

(** The file at [path] holds [d] from now on: the effect of a write that
    went through. *)
Definition store_file (path : string) (d : FileData) : M unit :=
  fun s => (Ok tt, mkSt (<[path := d]> (fs s)) (trace s)).

Definition remove_file (path : string) : M unit :=
  fun s => (Ok tt, mkSt (delete path (fs s)) (trace s)).

(** [for x in xs: body x] *)
Fixpoint for_each {A} (xs : list A) (body : A -> M unit) : M unit :=
  match xs with
  | [] => ret tt
  | x :: rest => body x ;;; for_each rest body
  end.

(** ** Decimal numerals *)

Definition digit (n : nat) : ascii := ascii_of_nat (48 + n mod 10).

Fixpoint decimal_digits (fuel n : nat) : string :=
  match fuel with
  | O => ""
  | S fuel' =>
      (if Nat.ltb n 10 then "" else decimal_digits fuel' (n / 10))
      +:+ String (digit n) ""
  end.

(** [str(n)], [%d]: the decimal digits of [n], most significant first. *)
Definition decimal (n : nat) : string := decimal_digits (S n) n.

(** [%02d]: at least two digits, a zero in front of a single one. *)
Definition two_digits (n : nat) : string :=
  if Nat.ltb n 10 then "0" +:+ decimal n else decimal n.

(** ** The [csv] module of the Python standard library

    Fields are text.  The writer follows [join_append_data] and
    [csv_writerow] of [_csv.c], the reader follows [parse_process_char] and
    [Reader_iternext] (CPython 3.10 and later, where the writer escapes the
    escape character itself).  Typed fields ([QUOTE_NONNUMERIC]) are
    outside the model. *)

Definition dquote : ascii := "034"%char.
Definition backslash : ascii := "092"%char.
Definition comma : ascii := ","%char.
Definition CR : ascii := "013"%char.
Definition LF : ascii := "010"%char.
Definition space : ascii := " "%char.

Inductive Quoting := QUOTE_MINIMAL | QUOTE_ALL | QUOTE_NONE.

Record Dialect : Type := mkDialect {
  delimiter : ascii;
  quotechar : ascii;
  escapechar : option ascii;
  doublequote : bool;
  skipinitialspace : bool;
  lineterminator : list ascii;
  quoting : Quoting;
  strict : bool
}.

(** [csv.excel], the default dialect. *)
Definition excel : Dialect :=
  {| delimiter := comma; quotechar := dquote; escapechar := None;
     doublequote := true; skipinitialspace := false;
     lineterminator := [CR; LF]; quoting := QUOTE_MINIMAL; strict := false |}.

Definition is_escapechar (d : Dialect) (c : ascii) : bool :=
  match escapechar d with
  | Some e => Ascii.eqb c e
  | None => false
  end.

Definition quoting_is_none (d : Dialect) : bool :=
  match quoting d with QUOTE_NONE => true | _ => false end.

Definition csv_error {A} (msg : string) : Res A := Raise (OtherError msg).

(** *** Writer *)

(** The body of [join_append_data]: the characters written for the field
    data and the final value of the [quoted] flag. *)
Fixpoint join_append_data (d : Dialect) (field : list ascii) (quoted : bool)
  : Res (list ascii * bool) :=
  match field with
  | [] => Ok ([], quoted)
  | c :: rest =>
      let special :=
        Ascii.eqb c (delimiter d) || is_escapechar d c
        || Ascii.eqb c (quotechar d)
        || existsb (Ascii.eqb c) (lineterminator d) in
      let '(doubled, want_escape, quoted1) :=
        if special then
          if quoting_is_none d then ([], true, quoted)
          else if Ascii.eqb c (quotechar d) then
                 if doublequote d then ([quotechar d], false, true)
                 else ([], true, quoted)
          else if is_escapechar d c then ([], true, quoted)
          else ([], false, true)
        else ([], false, quoted) in
      match want_escape, escapechar d with
      | true, None => csv_error "need to escape, but no escapechar set"
      | _, _ =>
          let esc := match want_escape, escapechar d with
                     | true, Some e => [e]
                     | _, _ => []
                     end in
          match join_append_data d rest quoted1 with
          | Ok (out, q) => Ok (doubled ++ esc ++ c :: out, q)
          | Raise e => Raise e
          end
      end
  end.

(** [join_append]: one field appended to the record under construction;
    [num_fields] is the number of fields already in the record. *)
Definition join_append (d : Dialect) (num_fields : nat) (field : string)
    (quoted : bool) : Res (list ascii) :=
  match join_append_data d (list_ascii_of_string field) quoted with
  | Raise e => Raise e
  | Ok (data, q) =>
      Ok ((if num_fields is O then [] else [delimiter d])
          ++ (if q then [quotechar d] else [])
          ++ data
          ++ (if q then [quotechar d] else []))
  end.

Fixpoint join_fields (d : Dialect) (num_fields : nat) (row : list string)
  : Res (list ascii) :=
  match row with
  | [] => Ok []
  | field :: rest =>
      let quoted := match quoting d with QUOTE_ALL => true | _ => false end in
      match join_append d num_fields field quoted with
      | Raise e => Raise e
      | Ok rec1 =>
          match join_fields d (S num_fields) rest with
          | Raise e => Raise e
          | Ok rec2 => Ok (rec1 ++ rec2)
          end
      end
  end.

(** [csv_writerow]: the text written for one row. *)
Definition csv_writerow (d : Dialect) (row : list string) : Res (list ascii) :=
  match join_fields d 0 row with
  | Raise e => Raise e
  | Ok rec =>
      match row, rec with
      | _ :: _, [] =>
          (* a single empty field must be quoted *)
          if quoting_is_none d then
            csv_error "single empty field record must be quoted"
          else Ok ([quotechar d; quotechar d] ++ lineterminator d)
      | _, _ => Ok (rec ++ lineterminator d)
      end
  end.

(** [csv_writerows]: the rows in order, nothing before the first. *)
Fixpoint csv_writerows (d : Dialect) (rows : Grid) : Res (list ascii) :=
  match rows with
  | [] => Ok []
  | row :: rest =>
      match csv_writerow d row with
      | Raise e => Raise e
      | Ok out1 =>
          match csv_writerows d rest with
          | Raise e => Raise e
          | Ok out2 => Ok (out1 ++ out2)
          end
      end
  end.

(** *** Reader *)

Inductive ParserState :=
| START_RECORD | START_FIELD | ESCAPED_CHAR | IN_FIELD | IN_QUOTED_FIELD
| ESCAPE_IN_QUOTED_FIELD | QUOTE_IN_QUOTED_FIELD | EAT_CRNL
| AFTER_ESCAPED_CRNL.

Record ReaderObj : Type := mkReader {
  state : ParserState;
  field : list ascii;          (* the field being read *)
  fields : list string         (* the fields of the record read so far *)
}.

Definition parse_reset : ReaderObj := mkReader START_RECORD [] [].

Definition parse_save_field (r : ReaderObj) (st : ParserState) : ReaderObj :=
  mkReader st [] (fields r ++ [string_of_list_ascii (field r)]).

(** [csv.field_size_limit()]: 128 * 1024 unless a program changes it. *)
Definition field_size_limit : nat := 128 * 1024.

Definition field_limit_error (limit : nat) : Exn :=
  OtherError ("field larger than field limit (" +:+ decimal limit +:+ ")").

(** [parse_add_char]: a character is added to the field while the field is
    shorter than the limit. *)
Definition parse_add_char (limit : nat) (r : ReaderObj) (c : ascii)
    (st : ParserState) : Res ReaderObj :=
  if Nat.leb limit (List.length (field r)) then Raise (field_limit_error limit)
  else Ok (mkReader st (field r ++ [c]) (fields r)).

Definition set_state (r : ReaderObj) (st : ParserState) : ReaderObj :=
  mkReader st (field r) (fields r).

Definition is_newline (c : ascii) : bool := Ascii.eqb c LF || Ascii.eqb c CR.

(** One step of the parser; [None] is the end-of-line mark the reader feeds
    after the characters of each line. *)
Definition parse_process_char (limit : nat) (d : Dialect) (r : ReaderObj)
    (c : option ascii) : Res ReaderObj :=
  let start_field (r : ReaderObj) : Res ReaderObj :=
    match c with
    | None => Ok (parse_save_field r START_RECORD)
    | Some ch =>
        if is_newline ch then Ok (parse_save_field r EAT_CRNL)
        else if Ascii.eqb ch (quotechar d) && negb (quoting_is_none d)
        then Ok (set_state r IN_QUOTED_FIELD)
        else if is_escapechar d ch then Ok (set_state r ESCAPED_CHAR)
        else if Ascii.eqb ch space && skipinitialspace d then Ok r
        else if Ascii.eqb ch (delimiter d)
        then Ok (parse_save_field r (state r))
        else parse_add_char limit r ch IN_FIELD
    end in
  let in_field (r : ReaderObj) : Res ReaderObj :=
    match c with
    | None => Ok (parse_save_field r START_RECORD)
    | Some ch =>
        if is_newline ch then Ok (parse_save_field r EAT_CRNL)
        else if is_escapechar d ch then Ok (set_state r ESCAPED_CHAR)
        else if Ascii.eqb ch (delimiter d)
        then Ok (parse_save_field r START_FIELD)
        else parse_add_char limit r ch (state r)
    end in
  match state r with
  | START_RECORD =>
      match c with
      | None => Ok r
      | Some ch =>
          if is_newline ch then Ok (set_state r EAT_CRNL)
          else start_field (set_state r START_FIELD)
      end
  | START_FIELD => start_field r
  | ESCAPED_CHAR =>
      match c with
      | None => parse_add_char limit r LF IN_FIELD
      | Some ch =>
          if is_newline ch then parse_add_char limit r ch AFTER_ESCAPED_CRNL
          else parse_add_char limit r ch IN_FIELD
      end
  | AFTER_ESCAPED_CRNL =>
      match c with
      | None => Ok r
      | Some _ => in_field r
      end
  | IN_FIELD => in_field r
  | IN_QUOTED_FIELD =>
      match c with
      | None => Ok r
      | Some ch =>
          if is_escapechar d ch then Ok (set_state r ESCAPE_IN_QUOTED_FIELD)
          else if Ascii.eqb ch (quotechar d) && negb (quoting_is_none d)
          then if doublequote d then Ok (set_state r QUOTE_IN_QUOTED_FIELD)
               else Ok (set_state r IN_FIELD)
          else parse_add_char limit r ch IN_QUOTED_FIELD
      end
  | ESCAPE_IN_QUOTED_FIELD =>
      match c with
      | None => parse_add_char limit r LF IN_QUOTED_FIELD
      | Some ch => parse_add_char limit r ch IN_QUOTED_FIELD
      end
  | QUOTE_IN_QUOTED_FIELD =>
      match c with
      | None => Ok (parse_save_field r START_RECORD)
      | Some ch =>
          if negb (quoting_is_none d) && Ascii.eqb ch (quotechar d)
          then parse_add_char limit r ch IN_QUOTED_FIELD
          else if Ascii.eqb ch (delimiter d)
          then Ok (parse_save_field r START_FIELD)
          else if is_newline ch then Ok (parse_save_field r EAT_CRNL)
          else if negb (strict d) then parse_add_char limit r ch IN_FIELD
          else csv_error "delimiter expected after quotechar"
      end
  | EAT_CRNL =>
      match c with
      | None => Ok (set_state r START_RECORD)
      | Some ch =>
          if is_newline ch then Ok r
          else csv_error "new-line character seen in unquoted field"
      end
  end.

Definition state_eqb (a b : ParserState) : bool :=
  match a, b with
  | START_RECORD, START_RECORD | START_FIELD, START_FIELD
  | ESCAPED_CHAR, ESCAPED_CHAR | IN_FIELD, IN_FIELD
  | IN_QUOTED_FIELD, IN_QUOTED_FIELD
  | ESCAPE_IN_QUOTED_FIELD, ESCAPE_IN_QUOTED_FIELD
  | QUOTE_IN_QUOTED_FIELD, QUOTE_IN_QUOTED_FIELD
  | EAT_CRNL, EAT_CRNL | AFTER_ESCAPED_CRNL, AFTER_ESCAPED_CRNL => true
  | _, _ => false
  end.

(** The characters of one line, in order. *)
Fixpoint parse_chars (limit : nat) (d : Dialect) (r : ReaderObj)
    (line : list ascii) : Res ReaderObj :=
  match line with
  | [] => Ok r
  | c :: rest =>
      match parse_process_char limit d r (Some c) with
      | Raise e => Raise e
      | Ok r' => parse_chars limit d r' rest
      end
  end.

(** One line: its characters, then the end-of-line mark. *)
Definition parse_line (limit : nat) (d : Dialect) (r : ReaderObj)
    (line : list ascii) : Res ReaderObj :=
  match parse_chars limit d r line with
  | Raise e => Raise e
  | Ok r' => parse_process_char limit d r' None
  end.

(** [list(csv.reader(lines, dialect))] under the field size limit [limit]:
    [Reader_iternext] called until the lines run out.  [r] is the parser in
    the middle of a record, [acc] the records already returned. *)
Fixpoint reader_records (limit : nat) (d : Dialect) (r : ReaderObj)
    (lines : list (list ascii)) (acc : Grid) : Res Grid :=
  match lines with
  | [] =>
      if negb (Nat.eqb (List.length (field r)) 0) || state_eqb (state r) IN_QUOTED_FIELD
      then if strict d then csv_error "unexpected end of data"
           else Ok (acc ++ [fields (parse_save_field r START_RECORD)])
      else Ok acc
  | line :: rest =>
      match parse_line limit d r line with
      | Raise e => Raise e
      | Ok r' =>
          if state_eqb (state r') START_RECORD
          then reader_records limit d parse_reset rest (acc ++ [fields r'])
          else reader_records limit d r' rest acc
      end
  end.

Definition csv_reader_with (limit : nat) (d : Dialect)
    (lines : list (list ascii)) : Res Grid :=
  reader_records limit d parse_reset lines [].

(** [list(csv.reader(lines, dialect))] in a program that leaves the field
    size limit alone. *)
Definition csv_reader (d : Dialect) (lines : list (list ascii)) : Res Grid :=
  csv_reader_with field_size_limit d lines.

(** Iterating over a text file opened with [newline='']: a line ends after
    LF, after CR LF, or after a CR that no LF follows, and keeps its ending.
    [cur] is the part of the current line already seen, last character
    first. *)
Fixpoint file_lines_from (cur : list ascii) (text : list ascii)
  : list (list ascii) :=
  match text with
  | [] => match cur with [] => [] | _ => [rev cur] end
  | c :: rest =>
      if Ascii.eqb c LF then rev (c :: cur) :: file_lines_from [] rest
      else if Ascii.eqb c CR then
        match rest with
        | c2 :: rest2 =>
            if Ascii.eqb c2 LF
            then rev (c2 :: c :: cur) :: file_lines_from [] rest2
            else rev (c :: cur) :: file_lines_from [] rest
        | [] => rev (c :: cur) :: file_lines_from [] rest
        end
      else file_lines_from (c :: cur) rest
  end.

Definition file_lines (text : string) : list (list ascii) :=
  file_lines_from [] (list_ascii_of_string text).

(** ** Library functions used by the program *)

Definition ends_with_sep (a : string) : bool :=
  match rev (list_ascii_of_string a) with
  | c :: _ => Ascii.eqb c "/"%char
  | [] => false
  end.

(** [os.path.join(a, b)] of [posixpath]. *)
Definition os_path_join (a b : string) : string :=
  if String.prefix "/" b then b
  else if String.eqb a "" || ends_with_sep a then a +:+ b
  else a +:+ "/" +:+ b.

(** [s.replace(old, new)] for one-character [old] and [new]. *)
Fixpoint str_replace (old new : ascii) (s : string) : string :=
  match s with
  | EmptyString => EmptyString
  | String c rest =>
      String (if Ascii.eqb c old then new else c) (str_replace old new rest)
  end.


(** [dt.strftime('%Y%m%d%H%M')] with the C library's [strftime]: the year
    in decimal with no padding (four digits from the year 1000 on), then
    month, day, hour and minute with two digits each. *)
Definition strftime_YmdHM (dt : DateTime) : string :=
  decimal (year dt) +:+ two_digits (month dt)
  +:+ two_digits (day dt) +:+ two_digits (hour dt)
  +:+ two_digits (minute dt).




(** [pickle.load] on an open file: the pickled object, an [EOFError] on an
    empty file, an [UnpicklingError] on other text. *)
Definition pickle_load (data : FileData) : M (option Cred) :=
  match data with
  | FPickle obj => ret obj
  | FText "" => raise (EOFError "Ran out of input")
  | FText _ => raise (UnpicklingError "invalid load key")
  end.

Definition no_such_file (path : string) : Exn :=
  FileNotFoundError ("[Errno 2] No such file or directory: '" +:+ path +:+ "'").

(** ** Constants of [main.py] *)

Definition _SHEETS_SERVICE_NAME := "sheets".
Definition _SHEETS_SERVICE_API_VERSION := "v4".
Definition _DRIVE_SERVICE_NAME := "drive".
Definition _DRIVE_SERVICE_API_VERSION := "v3".

Definition _SCOPES : list string :=
  [ "https://www.googleapis.com/auth/drive";
    "https://www.googleapis.com/auth/spreadsheets.readonly";
    "https://www.googleapis.com/auth/bigquery";
    "https://www.googleapis.com/auth/bigquery.insertdata" ].

Definition _CREDENTIALS_FILENAME := "credentials.json".
Definition _CREDENTIALS_GCS_BUCKET_NAME := "sheets_to_bq".
Definition _CREDENTIALS_GCS_FILENAME := "credentials.json".
Definition _TOKEN_FILENAME := "token.pickle".

Definition _MIME_TYPE := "application/vnd.google-apps.spreadsheet".
Definition _SPREADSHEET_ID := "1LqB6gIzSXP5tmieYW323At8eYymjfdtnmnV78GINkNY".
Definition _SHEET_NAME := "capacity-plan".
Definition _RANGE_NAME := _SHEET_NAME +:+ "!7:10000".

Definition _BQ_DATASET := "sheets_to_bq".
Definition _BQ_TABLE := _SHEET_NAME.

Definition _TMP_FILENAME := "tmp.csv".

(** Service clients: what was built, and with which credential. *)
Record Client : Type := mkClient { service : string; client_creds : Cred }.

(** The dialect that [_write_to_tmp] asks for:
    [quoting=csv.QUOTE_ALL], a backslash as [escapechar], a double quote as
    [quotechar], the rest as in the default dialect. *)
Definition staging_dialect : Dialect :=
  {| delimiter := delimiter excel; quotechar := dquote;
     escapechar := Some backslash; doublequote := doublequote excel;
     skipinitialspace := skipinitialspace excel;
     lineterminator := lineterminator excel; quoting := QUOTE_ALL;
     strict := strict excel |}.

(** ** The functions of [main.py] *)
Section Program.

Variable E : Env.

(** [open(path, 'w')], [open(path, 'wb')]: when the platform opens the
    file it is there and empty; otherwise the exception is raised and the
    directory is as before. *)
Definition open_w (path : string) : M unit :=
  fun s => match open_for_writing E (trace s) path with
           | Ok _ => (Ok tt, mkSt (<[path := FText ""]> (fs s)) (trace s))
           | Raise e => (Raise e, s)
           end.

(** Writing [text] to the file opened at [path] and closing it: when the
    write fails, the part that was written stays in the file. *)
Definition write_text (path : string) (text : string) : M unit :=
  fun s => match text_written E (trace s) path text with
           | None => (Ok tt, mkSt (<[path := FText text]> (fs s)) (trace s))
           | Some (n, e) =>
               (Raise e,
                mkSt (<[path := FText (substring 0 n text)]> (fs s))
                     (trace s))
           end.

(** Generate temporary file path. *)
Definition _generate_filepath (name : string) : string :=
  os_path_join (gettempdir E) name.

Definition _get_credentials_json : M unit :=
  blob <- call (EvGcsGetBlob _CREDENTIALS_GCS_BUCKET_NAME
                             _CREDENTIALS_GCS_FILENAME)
               (fun tr => gcs_get_blob E tr _CREDENTIALS_GCS_BUCKET_NAME
                                       _CREDENTIALS_GCS_FILENAME) ;;
  let filepath := _generate_filepath _CREDENTIALS_FILENAME in
  match blob with
  | Some content =>
      call (EvGcsDownload _CREDENTIALS_GCS_BUCKET_NAME
                          _CREDENTIALS_GCS_FILENAME filepath)
           (fun tr => download_to_filename E tr content filepath) ;;;
      store_file filepath (FText content)
  | None => ret tt
  end.

(** Check if token is available locally and refresh if necessary. *)
Definition _check_creds (token_filename : string) : M (option Cred) :=
  let token_filepath := _generate_filepath token_filename in
  token <- read_file token_filepath ;;
  creds <- match token with
           | Some data => pickle_load data
           | None => ret None
           end ;;
  match creds with
  | None => ret None
  | Some c =>
      if negb (valid c) then
        if expired c then
          c' <- call (EvRefresh c) (fun tr => refresh E tr c) ;;
          ret (Some c')
        else ret (Some c)
      else ret (Some c)
  end.

(** Build credentials from json file. *)
Definition _fetch_creds (creds_filename : string) : M (option Cred) :=
  _get_credentials_json ;;;
  let creds_filepath := _generate_filepath creds_filename in
  try_except
    (data <- read_file creds_filepath ;;
     c <- call (EvServiceAccountFile creds_filepath _SCOPES)
               (fun tr => match data with
                          | None => Raise (no_such_file creds_filepath)
                          | Some d => from_service_account_file E tr d _SCOPES
                          end) ;;
     ret (Some c))
    (fun err => match err with
                | FileNotFoundError msg => Some (emit (EvLogError msg) ;;; ret None)
                | _ => None
                end).

(** Save credentials offline for next run.  Once the token file is open,
    [pickle.dump] puts the credential in it. *)
Definition _save_creds (creds : Cred) (token_filename : string) : M unit :=
  let token_filepath := _generate_filepath token_filename in
  open_w token_filepath ;;;
  store_file token_filepath (FPickle (Some creds)).

(** Build Sheets service client. *)
Definition _sheets_client (creds : Cred) : M Client :=
  call (EvBuild _SHEETS_SERVICE_NAME _SHEETS_SERVICE_API_VERSION)
       (fun tr => build E tr _SHEETS_SERVICE_NAME _SHEETS_SERVICE_API_VERSION
                        creds) ;;;
  ret (mkClient _SHEETS_SERVICE_NAME creds).

(** Fetch values from the given sheet and range. *)
Definition _fetch_sheet_values (sheets_client : Client) (sheet_id : string)
    (sheet_range_name : string) : M Grid :=
  result <- call (EvSheetsGet sheet_id sheet_range_name)
                 (fun tr => sheets_values_get E tr sheet_id sheet_range_name) ;;
  ret (default [] result).

(** Write sheet values locally to a tmp file. *)
Definition _write_to_tmp (values : Grid) (filepath : string) : M unit :=
  open_w filepath ;;;
  match csv_writerows staging_dialect values with
  | Ok text => write_text filepath (string_of_list_ascii text)
  | Raise e => raise e
  end.

(** Delete locally created tmp file. *)
Definition _delete_tmp (filepath : string) : M unit :=
  try_except
    (data <- read_file filepath ;;
     match data with
     | Some _ => remove_file filepath
     | None => raise (no_such_file filepath)
     end)
    (fun err => match err with
                | FileNotFoundError msg => Some (emit (EvLogError msg))
                | _ => None
                end).

(** Build Bigquery client. *)
Definition _bq_client (creds : Cred) : M Client :=
  call EvBqClient (fun tr => bq_Client E tr creds) ;;;
  ret (mkClient "bigquery" creds).

(** Load data from tmp CSV file to target bigquery table. *)
Definition _load_data (bq_client : Client) (table : option Table)
    (filepath : string) : M string :=
  let job_config :=
    {| source_format := CSV; skip_leading_rows := 1;
       write_disposition := WRITE_TRUNCATE; autodetect := true |} in
  source_file <- read_file filepath ;;
  match source_file with
  | None => raise (no_such_file filepath)
  | Some data =>
      call (EvBqLoad table data job_config)
           (fun tr => load_table_from_file E tr table data job_config)
  end.

(** Check if dataset exists, else create it. *)
Definition _get_bq_dataset (bq_client : Client) (dataset_name : string)
  : M (option Dataset) :=
  try_except
    (dataset <- call (EvBqGetDataset dataset_name)
                     (fun tr => get_dataset E tr dataset_name) ;;
     ret (Some dataset))
    (fun err =>
       match err with
       | Forbidden msg => Some (emit (EvLogError msg) ;;; ret None)
       | NotFound msg =>
           Some (emit (EvLogWarning msg) ;;;
                 emit (EvLogInfo ("Creating dataset: " +:+ dataset_name)) ;;;
                 dataset <- call (EvBqCreateDataset dataset_name)
                                 (fun tr => create_dataset E tr dataset_name) ;;
                 ret (Some dataset))
       | _ => None
       end).

(** Check if table exists, else create it. *)
Definition _get_bq_table (bq_client : Client) (dataset_name : string)
    (table_name : string) : M (option Table) :=
  let table_name := str_replace "-" "_" table_name in
  let full_table_name := dataset_name +:+ "." +:+ table_name in
  try_except
    (table <- call (EvBqGetTable full_table_name)
                   (fun tr => get_table E tr full_table_name) ;;
     ret (Some table))
    (fun err =>
       match err with
       | Forbidden msg => Some (emit (EvLogError msg) ;;; ret None)
       | NotFound msg =>
           Some (emit (EvLogWarning msg) ;;;
                 emit (EvLogInfo ("Creating table: " +:+ full_table_name)) ;;;
                 table <- call (EvBqCreateTable full_table_name)
                               (fun tr => create_table E tr full_table_name) ;;
                 ret (Some table))
       | _ => None
       end).

(** Build drive service client. *)
Definition _drive_client (creds : Cred) : M Client :=
  call (EvBuild _DRIVE_SERVICE_NAME _DRIVE_SERVICE_API_VERSION)
       (fun tr => build E tr _DRIVE_SERVICE_NAME _DRIVE_SERVICE_API_VERSION
                        creds) ;;;
  ret (mkClient _DRIVE_SERVICE_NAME creds).

(** Fetch the details of files shared with the user.  The generator issues
    its one listing request when the loop asks for the first element. *)
Definition _shared_sheet_files (drive_client : Client) (mime_type : string)
  : M (list Sheet) :=
  let q := "mimeType=" +:+ String dquote (mime_type +:+ String dquote "") in
  call (EvDriveList q) (fun tr => drive_files_list E tr q).

(** [dataset.dataset_id], which faults on [None]. *)
Definition get_dataset_id (dataset : option Dataset) : M string :=
  match dataset with
  | Some d => ret (dataset_id d)
  | None =>
      raise (AttributeError "'NoneType' object has no attribute 'dataset_id'")
  end.

(** Fetch data from Google Sheet and load data into BQ. *)
Definition _fetch_and_load_data (sheet : Sheet) (sheets_client : Client)
    (bq_client : Client) (timestamp : string) : M unit :=
  sheet_values <- _fetch_sheet_values sheets_client (id sheet) _RANGE_NAME ;;
  let filepath := _generate_filepath (name sheet +:+ ".csv") in
  _write_to_tmp sheet_values filepath ;;;
  dataset <- _get_bq_dataset bq_client _BQ_DATASET ;;
  ds_id <- get_dataset_id dataset ;;
  table <- _get_bq_table bq_client ds_id (name sheet) ;;
  _load_data bq_client table filepath ;;;
  let name_ := _BQ_DATASET +:+ "_history" in
  history_dataset <- _get_bq_dataset bq_client name_ ;;
  hist_id <- get_dataset_id history_dataset ;;
  history_table <- _get_bq_table bq_client hist_id
                                 (name sheet +:+ "_" +:+ timestamp) ;;
  _load_data bq_client history_table filepath ;;;
  _delete_tmp filepath.

(** The credential object as it is now, after the clients used it. *)
Definition observe_cred (creds : Cred) : M Cred :=
  fun s => (Ok (cred_now E (trace s) creds), s).

(** Truth value of [creds.token]. *)
Definition token_truthy (c : Cred) : bool :=
  match token c with
  | Some t => negb (String.eqb t "")
  | None => false
  end.

(** The credential of the run: [_check_creds(..) or _fetch_creds(..)]. *)
Definition obtain_creds : M (option Cred) :=
  checked <- _check_creds _TOKEN_FILENAME ;;
  match checked with
  | Some c => ret (Some c)
  | None => _fetch_creds _CREDENTIALS_FILENAME
  end.

(** Load data from Google Sheets to BQ table. *)
Definition sheets_to_bq (request : option Request) : M (option string) :=
  creds <- obtain_creds ;;
  match creds with
  | None =>
      emit (EvLogError "Could not fetch credentials") ;;;
      match request with
      | Some _ => emit (EvAbort 500) ;;; raise (HTTPException 500)
      | None => emit (EvPrint "Quit") ;;; ret None
      end
  | Some creds =>
      drive_client <- _drive_client creds ;;
      sheets_client <- _sheets_client creds ;;
      bq_client <- _bq_client creds ;;
      _get_bq_dataset bq_client _BQ_DATASET ;;;
      _get_bq_dataset bq_client (_BQ_DATASET +:+ "_history") ;;;
      timestamp <- call EvNow (fun tr => Ok (strftime_YmdHM (now E tr))) ;;
      shared_sheets <- _shared_sheet_files drive_client _MIME_TYPE ;;
      for_each shared_sheets
               (fun sheet =>
                  _fetch_and_load_data sheet sheets_client bq_client
                                       timestamp) ;;;
      creds <- observe_cred creds ;;
      (if token_truthy creds then _save_creds creds _TOKEN_FILENAME
       else ret tt) ;;;
      ret (Some "DONE: imported all sheets")
  end.

End Program.

(** ** Observations on a run *)

(** The events a run added to the trace it started from. *)
Definition new_events (s s' : St) : list Event :=
  drop (length (trace s)) (trace s').

(** Run [m] from [s]: the result and the events it added. *)
Definition result_of {A} (m : M A) (s : St) : Res A := fst (m s).
Definition events_of {A} (m : M A) (s : St) : list Event :=
  new_events s (snd (m s)).

Definition is_key_storage (ev : Event) : bool :=
  match ev with
  | EvGcsGetBlob _ _ | EvGcsDownload _ _ _ | EvServiceAccountFile _ _ => true
  | _ => false
  end.

Definition is_warehouse (ev : Event) : bool :=
  match ev with
  | EvBqClient | EvBqGetDataset _ | EvBqCreateDataset _ | EvBqGetTable _
  | EvBqCreateTable _ | EvBqLoad _ _ _ => true
  | _ => false
  end.

Definition is_document (ev : Event) : bool :=
  match ev with
  | EvBuild _ _ | EvDriveList _ | EvSheetsGet _ _ => true
  | _ => false
  end.

Definition is_dataset_lookup (dataset_name : string) (ev : Event) : bool :=
  match ev with
  | EvBqGetDataset n => String.eqb n dataset_name
  | _ => false
  end.

Definition is_now (ev : Event) : bool :=
  match ev with EvNow => true | _ => false end.

(** The table names that reach the warehouse, in order. *)
Definition remote_table_names (evs : list Event) : list string :=
  omap (fun ev => match ev with
                  | EvBqGetTable n | EvBqCreateTable n => Some n
                  | _ => None
                  end) evs.

(** The table names looked up, in order. *)
Definition table_lookups (evs : list Event) : list string :=
  omap (fun ev => match ev with EvBqGetTable n => Some n | _ => None end) evs.

Fixpoint has_char (c : ascii) (s : string) : bool :=
  match s with
  | EmptyString => false
  | String c' rest => Ascii.eqb c' c || has_char c rest
  end.

(** What a table holds after the loads of a trace, every load being
    truncate-and-replace: the data of the last load into it. *)
Definition table_data (evs : list Event) (t : Table) : option FileData :=
  foldl (fun held ev =>
           match ev with
           | EvBqLoad (Some t') data cfg =>
               if String.eqb (table_ref t') (table_ref t) then
                 match write_disposition cfg with
                 | WRITE_TRUNCATE => Some data
                 | _ => held
                 end
               else held
           | _ => held
           end) None evs.

(** ** A reference world

    Collaborators that behave as the services do when nothing goes wrong:
    a dataset or table exists if it existed before the run or was created
    during it, a lookup of a missing one answers not-found, a lookup of a
    protected one answers forbidden.  The scratch directory is [/tmp] and
    has no subdirectory: a file can be opened for writing when its path
    names an entry of [/tmp] itself, and what is written reaches it. *)
Record World : Type := mkWorld {
  w_blob : option string;
  w_datasets : list string;
  w_forbidden : list string;
  w_tables : list string;
  w_documents : list (Sheet * Grid);
  w_clock : DateTime
}.

(** [strip_prefix p s]: what follows [p] in [s]. *)
Fixpoint strip_prefix (p s : string) : option string :=
  match p, s with
  | EmptyString, _ => Some s
  | String a p', String b s' =>
      if Ascii.eqb a b then strip_prefix p' s' else None
  | String _ _, EmptyString => None
  end.

(** [path] names an entry of the directory [dir] itself. *)
Definition directly_in (dir path : string) : bool :=
  match strip_prefix (dir +:+ "/") path with
  | Some base => negb (String.eqb base "") && negb (has_char "/" base)
  | None => false
  end.

Definition mem (x : string) (l : list string) : bool :=
  existsb (String.eqb x) l.

Definition created_datasets (tr : list Event) : list string :=
  omap (fun ev => match ev with EvBqCreateDataset n => Some n | _ => None end)
       tr.

Definition created_tables (tr : list Event) : list string :=
  omap (fun ev => match ev with EvBqCreateTable n => Some n | _ => None end)
       tr.

Definition world_env (w : World) : Env :=
  {| gettempdir := "/tmp";
     gcs_get_blob := fun _ _ _ => Ok (w_blob w);
     download_to_filename := fun _ _ _ => Ok tt;
     from_service_account_file := fun _ data _ =>
       match data with
       | FText key => Ok (mkCred key None false false)
       | FPickle _ => Raise (OtherError "not a service account key")
       end;
     refresh := fun _ c => Ok (mkCred (cred_id c) (Some "refreshed") true false);
     build := fun _ _ _ _ => Ok tt;
     bq_Client := fun _ _ => Ok tt;
     get_dataset := fun tr n =>
       if mem n (w_forbidden w) then Raise (Forbidden ("Access Denied: " +:+ n))
       else if mem n (w_datasets w) || mem n (created_datasets tr)
       then Ok (mkDataset n)
       else Raise (NotFound ("Not found: Dataset " +:+ n));
     create_dataset := fun _ n => Ok (mkDataset n);
     get_table := fun tr n =>
       if mem n (w_tables w) || mem n (created_tables tr) then Ok (mkTable n)
       else Raise (NotFound ("Not found: Table " +:+ n));
     create_table := fun _ n => Ok (mkTable n);
     load_table_from_file := fun _ t _ _ =>
       match t with
       | Some _ => Ok "DONE"
       | None => Raise (AttributeError "'NoneType' object has no attribute")
       end;
     drive_files_list := fun _ _ => Ok (map fst (w_documents w));
     sheets_values_get := fun _ sheet_id _ =>
       Ok (snd <$> head (filter (fun d => id (fst d) = sheet_id)
                                (w_documents w)));
     open_for_writing := fun _ path =>
       if directly_in "/tmp" path then Ok tt else Raise (no_such_file path);
     text_written := fun _ _ _ => None;
     now := fun _ => w_clock w;
     cred_now := fun tr c =>
       match token c with
       | None => mkCred (cred_id c) (Some "access-token") true false
       | Some _ => c
       end |}.

Definition empty_state : St := mkSt ∅ [].

(** The grid of the staging example. *)
Definition example_grid : Grid :=
  [ ["a"; "b"]; ["c,d"; String "e" (String dquote "f")] ].

Definition capacity_plan : Sheet := _SHEET "capacity-plan" "doc-1".

Definition noon : DateTime := mkDateTime 2024 1 1 12 0 30.

Definition one_document : World :=
  {| w_blob := Some "service-account-key"; w_datasets := [];
     w_forbidden := []; w_tables := [];
     w_documents := [(capacity_plan, [["h1"; "h2"]; ["1"; "2"]; ["3"; "4"]])];
     w_clock := noon |}.

(** ** The staged text, as the specification words it

    Every field between two quote characters whatever it holds, a quote
    inside a field doubled and a backslash inside a field preceded by the
    escape character, fields separated by commas in column order, one
    record per row, each ended by CR LF, and nothing before the first
    record. *)
Definition escape_char (c : ascii) : list ascii :=
  if Ascii.eqb c dquote then [dquote; dquote]
  else if Ascii.eqb c backslash then [backslash; backslash]
  else [c].

Definition escape_body (f : list ascii) : list ascii :=
  flat_map escape_char f.

(** The fields of a record from the [n]-th on. *)
Fixpoint row_body (n : nat) (row : list string) : list ascii :=
  match row with
  | [] => []
  | f :: rest =>
      (if n is O then [] else [comma])
      ++ dquote :: escape_body (list_ascii_of_string f)
      ++ dquote :: row_body (S n) rest
  end.

Definition grid_text (g : Grid) : list ascii :=
  flat_map (fun row => row_body 0 row ++ [CR; LF]) g.

(** No cell of the grid is longer than [limit]. *)
Definition cells_fit (limit : nat) (g : Grid) : bool :=
  forallb (forallb (fun cell => Nat.leb (String.length cell) limit)) g.

(** The length of the longest cell of the grid. *)
Definition longest_cell (g : Grid) : nat :=
  foldr (fun row m => foldr (fun cell m' => Nat.max (String.length cell) m')
                            m row) 0 g.

Definition quoted (s : string) : string :=
  String dquote (s +:+ String dquote "").

Definition crlf : string := String CR (String LF "").

(** The text staged for [example_grid]. *)
Definition example_text : string :=
  quoted "a" +:+ "," +:+ quoted "b" +:+ crlf
  +:+ quoted "c,d" +:+ ","
  +:+ quoted (String "e" (String dquote (String dquote "f"))) +:+ crlf.

(** ** The reader fed with text

    [lines_after ne text] are the lines that remain to be read when the
    reader stands in front of [text], [ne] telling whether it is inside a
    line. *)
Definition lines_after (ne : bool) (text : list ascii) : list (list ascii) :=
  match file_lines_from [] text with
  | [] => if ne then [[]] else []
  | ls => ls
  end.

Definition feed (limit : nat) (d : Dialect) (r : ReaderObj) (ne : bool)
    (text : list ascii) (acc : Grid) : Res Grid :=
  reader_records limit d r (lines_after ne text) acc.

Definition end_of_line (limit : nat) (d : Dialect) (r : ReaderObj)
    (text : list ascii) (acc : Grid) : Res Grid :=
  match parse_process_char limit d r None with
  | Raise e => Raise e
  | Ok r' =>
      if state_eqb (state r') START_RECORD
      then feed limit d parse_reset false text (acc ++ [fields r'])
      else feed limit d r' false text acc
  end.

(** ** Vocabulary of the statements *)

Definition with_events (s : St) (evs : list Event) : St :=
  mkSt (fs s) (trace s ++ evs).

(** After the calls [tr], the platform opens [path] for writing and all of
    the text staged for [values] reaches the file. *)
Definition stages (E : Env) (tr : list Event) (path : string)
    (values : Grid) : Prop :=
  open_for_writing E tr path = Ok tt
  /\ text_written E tr path (string_of_list_ascii (grid_text values)) = None.

Definition count_events (p : Event -> bool) (evs : list Event) : nat :=
  length (filter p evs).

(** Logging and the creation of a missing resource: what an ensure step or
    a clean-up may add after its request. *)
Definition quiet (ev : Event) : bool :=
  match ev with
  | EvLogError _ | EvLogWarning _ | EvLogInfo _
  | EvBqCreateDataset _ | EvBqCreateTable _ => true
  | _ => false
  end.

(** The requests of a run, without logging and creation. *)
Definition skeleton (evs : list Event) : list Event :=
  filter (fun ev => negb (quiet ev)) evs.

(** The job configuration that [_load_data] builds. *)
Definition load_config : LoadJobConfig :=
  {| source_format := CSV; skip_leading_rows := 1;
     write_disposition := WRITE_TRUNCATE; autodetect := true |}.

Definition history_dataset_name : string := _BQ_DATASET +:+ "_history".

(** The name that [_get_bq_table] sends to the warehouse. *)
Definition table_full_name (dataset_name table_name : string) : string :=
  dataset_name +:+ "." +:+ str_replace "-" "_" table_name.

(** The query of [_shared_sheet_files] for [_MIME_TYPE]. *)
Definition drive_query : string :=
  "mimeType=" +:+ String dquote (_MIME_TYPE +:+ String dquote "").

(** The three clients, in the order [sheets_to_bq] builds them. *)
Definition client_events : list Event :=
  [ EvBuild _DRIVE_SERVICE_NAME _DRIVE_SERVICE_API_VERSION;
    EvBuild _SHEETS_SERVICE_NAME _SHEETS_SERVICE_API_VERSION;
    EvBqClient ].

(** The requests made for one document. *)
Definition doc_skeleton (sheet : Sheet) (timestamp : string)
    (ds hist : string) (t1 t2 : option Table) (d1 d2 : FileData)
  : list Event :=
  [ EvSheetsGet (id sheet) _RANGE_NAME;
    EvBqGetDataset _BQ_DATASET;
    EvBqGetTable (table_full_name ds (name sheet));
    EvBqLoad t1 d1 load_config;
    EvBqGetDataset history_dataset_name;
    EvBqGetTable (table_full_name hist (name sheet +:+ "_" +:+ timestamp));
    EvBqLoad t2 d2 load_config ].

(** The events of the per-document loop over [sheets]. *)
Inductive docs_events (timestamp : string)
  : list Sheet -> list Event -> Prop :=
| docs_nil : docs_events timestamp [] []
| docs_cons sheet sheets evs rest ds hist t1 t2 d1 d2 :
    skeleton evs = doc_skeleton sheet timestamp ds hist t1 t2 d1 d2 ->
    docs_events timestamp sheets rest ->
    docs_events timestamp (sheet :: sheets) (evs ++ rest).

(** An ensure step on [dataset_name]: one lookup, then logging or creation. *)
Definition ensure_events (dataset_name : string) (evs : list Event) : Prop :=
  exists tail, evs = EvBqGetDataset dataset_name :: tail
               /\ skeleton tail = [].

(** What credential acquisition may add. *)
Definition is_credential (ev : Event) : bool :=
  match ev with
  | EvGcsGetBlob _ _ | EvGcsDownload _ _ _ | EvServiceAccountFile _ _
  | EvRefresh _ | EvLogError _ => true
  | _ => false
  end.

(** Listing the documents and fetching their values. *)
Definition is_enumeration (ev : Event) : bool :=
  match ev with
  | EvDriveList _ | EvSheetsGet _ _ => true
  | _ => false
  end.

Definition is_error_log (ev : Event) : bool :=
  match ev with EvLogError _ => true | _ => false end.


(** The data loaded into table [t], in order. *)
Definition loads_into (evs : list Event) (t : Table) : list FileData :=
  omap (fun ev => match ev with
                  | EvBqLoad (Some t') data _ =>
                      if String.eqb (table_ref t') (table_ref t)
                      then Some data else None
                  | _ => None
                  end) evs.

(** The file that staging leaves for [values]. *)
Definition staged (values : Grid) : FileData :=
  FText (string_of_list_ascii (grid_text values)).

(** [silent p m]: whatever [m] does and however it ends, it adds no event
    that satisfies [p]; [at_most_once p m]: it adds at most one. *)
Definition silent (p : Event -> bool) {A} (m : M A) : Prop :=
  forall s, exists evs,
    trace (snd (m s)) = trace s ++ evs /\ count_events p evs = 0.

Definition at_most_once (p : Event -> bool) {A} (m : M A) : Prop :=
  forall s, exists evs,
    trace (snd (m s)) = trace s ++ evs /\ count_events p evs <= 1.

(** The events of a run that finds no credential, up to the abort. *)
Definition abort_prefix (E : Env) : list Event :=
  let creds_filepath := _generate_filepath E _CREDENTIALS_FILENAME in
  [ EvGcsGetBlob _CREDENTIALS_GCS_BUCKET_NAME _CREDENTIALS_GCS_FILENAME;
    EvServiceAccountFile creds_filepath _SCOPES;
    EvLogError (exn_str (no_such_file creds_filepath));
    EvLogError "Could not fetch credentials" ].

(** The events of a successful fetch of the service-account key. *)
Definition key_fetch_events (E : Env) : list Event :=
  let creds_filepath := _generate_filepath E _CREDENTIALS_FILENAME in
  [ EvGcsGetBlob _CREDENTIALS_GCS_BUCKET_NAME _CREDENTIALS_GCS_FILENAME;
    EvGcsDownload _CREDENTIALS_GCS_BUCKET_NAME _CREDENTIALS_GCS_FILENAME
                  creds_filepath;
    EvServiceAccountFile creds_filepath _SCOPES ].

Definition done_message : string := "DONE: imported all sheets".

(** ** Concrete runs *)

(** A cached credential that is neither valid nor expired: it never got a
    token. *)
Definition stale_cred : Cred := mkCred "cached" None false false.

Definition stale_cache : St :=
  mkSt {[ "/tmp/token.pickle" := FPickle (Some stale_cred) ]} [].

(** A cached credential that is valid. *)
Definition fresh_cred : Cred := mkCred "cached" (Some "ya29") true false.

Definition fresh_cache : St :=
  mkSt {[ "/tmp/token.pickle" := FPickle (Some fresh_cred) ]} [].

(** A cached credential that has expired, in a world where its refresh
    token was revoked. *)
Definition expired_cred : Cred := mkCred "cached" (Some "ya29") false true.

Definition expired_cache : St :=
  mkSt {[ "/tmp/token.pickle" := FPickle (Some expired_cred) ]} [].

Definition revoked (E : Env) : Env :=
  {| gettempdir := gettempdir E;
     gcs_get_blob := gcs_get_blob E;
     download_to_filename := download_to_filename E;
     from_service_account_file := from_service_account_file E;
     refresh := fun _ _ => Raise (RefreshError "invalid_grant");
     build := build E;
     bq_Client := bq_Client E;
     get_dataset := get_dataset E;
     create_dataset := create_dataset E;
     get_table := get_table E;
     create_table := create_table E;
     load_table_from_file := load_table_from_file E;
     drive_files_list := drive_files_list E;
     sheets_values_get := sheets_values_get E;
     open_for_writing := open_for_writing E;
     text_written := text_written E;
     now := now E;
     cred_now := cred_now E |}.

(** A world whose key bucket holds no key blob. *)
Definition no_key_blob : World :=
  {| w_blob := None; w_datasets := []; w_forbidden := []; w_tables := [];
     w_documents := w_documents one_document; w_clock := noon |}.

(** Collaborators on a device that is full: a file can be opened, and no
    character written to it reaches it. *)
Definition full_device (E : Env) : Env :=
  {| gettempdir := gettempdir E;
     gcs_get_blob := gcs_get_blob E;
     download_to_filename := download_to_filename E;
     from_service_account_file := from_service_account_file E;
     refresh := refresh E;
     build := build E;
     bq_Client := bq_Client E;
     get_dataset := get_dataset E;
     create_dataset := create_dataset E;
     get_table := get_table E;
     create_table := create_table E;
     load_table_from_file := load_table_from_file E;
     drive_files_list := drive_files_list E;
     sheets_values_get := sheets_values_get E;
     open_for_writing := open_for_writing E;
     text_written := fun _ _ _ =>
       Some (0, OtherError "[Errno 28] No space left on device");
     now := now E;
     cred_now := cred_now E |}.

(** A cell of one character more than the reader's field size limit. *)
Definition long_cell : string :=
  string_of_list_ascii (repeat "x"%char (S field_size_limit)).

Definition first_values : Grid := [["k"; "v"]; ["x"; "1"]].
Definition second_values : Grid := [["k"; "v"]; ["y"; "2"]].

(** Two shared documents whose names differ in one character only, a hyphen
    against an underscore. *)
Definition clashing_documents : World :=
  {| w_blob := Some "service-account-key"; w_datasets := [];
     w_forbidden := []; w_tables := [];
     w_documents := [ (_SHEET "a-b" "doc-1", first_values);
                      (_SHEET "a_b" "doc-2", second_values) ];
     w_clock := noon |}.

Definition clashing_run : Res (option string) * St :=
  sheets_to_bq (world_env clashing_documents) None empty_state.

(** ** Further vocabulary and runs *)

(** [keeps_files m]: however [m] ends, the scratch directory is as before.
    [writes_only P m]: however [m] ends, every path outside [P] holds what
    it held before. *)
Definition keeps_files {A} (m : M A) : Prop :=
  forall s, fs (snd (m s)) = fs s.

Definition writes_only (P : string -> Prop) {A} (m : M A) : Prop :=
  forall s p, ~ P p -> fs (snd (m s)) !! p = fs s !! p.

(** The path of the file staged for a document. *)
Definition staged_path (E : Env) (sheet_name : string) : string :=
  _generate_filepath E (sheet_name +:+ ".csv").

(** [fails_clean m]: when [m] raises, the scratch directory is as before. *)
Definition fails_clean {A} (m : M A) : Prop :=
  forall s e s', m s = (Raise e, s') -> fs s' = fs s.

Definition none_attribute_error : Exn :=
  AttributeError "'NoneType' object has no attribute 'dataset_id'".

(** A world in which the identity may not read the primary dataset. *)
Definition forbidden_primary : World :=
  {| w_blob := Some "service-account-key"; w_datasets := [];
     w_forbidden := [_BQ_DATASET]; w_tables := [];
     w_documents := w_documents one_document; w_clock := noon |}.

(** A load that is not the one [_load_data] configures. *)
Definition is_other_load (ev : Event) : bool :=
  match ev with
  | EvBqLoad _ _ (mkLoadJobConfig CSV 1 WRITE_TRUNCATE true) => false
  | EvBqLoad _ _ _ => true
  | _ => false
  end.

(** A request that names something else than the constants of [main.py]:
    another bucket or blob, another dataset, another range, another query. *)
Definition is_foreign_request (ev : Event) : bool :=
  match ev with
  | EvGcsGetBlob b f | EvGcsDownload b f _ =>
      negb (String.eqb b _CREDENTIALS_GCS_BUCKET_NAME
            && String.eqb f _CREDENTIALS_GCS_FILENAME)
  | EvServiceAccountFile _ scopes =>
      negb (bool_decide (scopes = _SCOPES))
  | EvBqGetDataset n | EvBqCreateDataset n =>
      negb (String.eqb n _BQ_DATASET || String.eqb n history_dataset_name)
  | EvSheetsGet _ r => negb (String.eqb r _RANGE_NAME)
  | EvDriveList q => negb (String.eqb q drive_query)
  | EvBuild service version =>
      negb (String.eqb service _DRIVE_SERVICE_NAME
            && String.eqb version _DRIVE_SERVICE_API_VERSION
            || String.eqb service _SHEETS_SERVICE_NAME
               && String.eqb version _SHEETS_SERVICE_API_VERSION)
  | _ => false
  end.

Definition never (ev : Event) : bool := false.

(** A world in which the identity may not read the tables of the primary
    dataset. *)
Definition forbidden_table_env (E : Env) : Env :=
  {| gettempdir := gettempdir E;
     gcs_get_blob := gcs_get_blob E;
     download_to_filename := download_to_filename E;
     from_service_account_file := from_service_account_file E;
     refresh := refresh E;
     build := build E;
     bq_Client := bq_Client E;
     get_dataset := get_dataset E;
     create_dataset := create_dataset E;
     get_table := fun _ n => Raise (Forbidden ("Access Denied: " +:+ n));
     create_table := create_table E;
     load_table_from_file := load_table_from_file E;
     drive_files_list := drive_files_list E;
     sheets_values_get := sheets_values_get E;
     open_for_writing := open_for_writing E;
     text_written := text_written E;
     now := now E;
     cred_now := cred_now E |}.

(** The scratch directory of an earlier run whose downloaded key is still
    there. *)
Definition stale_key : St :=
  mkSt {[ "/tmp/credentials.json" := FText "old-key" ]} [].

(** Collaborators whose key bucket cannot be reached. *)
Definition unreachable_bucket (E : Env) : Env :=
  {| gettempdir := gettempdir E;
     gcs_get_blob := fun _ _ _ => Raise (OtherError "ServiceUnavailable");
     download_to_filename := download_to_filename E;
     from_service_account_file := from_service_account_file E;
     refresh := refresh E;
     build := build E;
     bq_Client := bq_Client E;
     get_dataset := get_dataset E;
     create_dataset := create_dataset E;
     get_table := get_table E;
     create_table := create_table E;
     load_table_from_file := load_table_from_file E;
     drive_files_list := drive_files_list E;
     sheets_values_get := sheets_values_get E;
     open_for_writing := open_for_writing E;
     text_written := text_written E;
     now := now E;
     cred_now := cred_now E |}.

(** Collaborators whose key file does not parse. *)
Definition malformed_key (E : Env) : Env :=
  {| gettempdir := gettempdir E;
     gcs_get_blob := gcs_get_blob E;
     download_to_filename := download_to_filename E;
     from_service_account_file :=
       fun _ _ _ => Raise (OtherError "ValueError: not a service account key");
     refresh := refresh E;
     build := build E;
     bq_Client := bq_Client E;
     get_dataset := get_dataset E;
     create_dataset := create_dataset E;
     get_table := get_table E;
     create_table := create_table E;
     load_table_from_file := load_table_from_file E;
     drive_files_list := drive_files_list E;
     sheets_values_get := sheets_values_get E;
     open_for_writing := open_for_writing E;
     text_written := text_written E;
     now := now E;
     cred_now := cred_now E |}.

Definition is_file_not_found (e : Exn) : bool :=
  match e with FileNotFoundError _ => true | _ => false end.

Definition last_char (s : string) : option ascii :=
  last (list_ascii_of_string s).

(** What [os.path.join] puts in front of a relative name. *)
Definition dir_prefix (d : string) : string :=
  if String.eqb d "" || ends_with_sep d then d else d +:+ "/".

(** The paths that a run may write before it saves the credential: the
    downloaded key and the staged files. *)
Definition is_working_file (E : Env) (p : string) : Prop :=
  p = _generate_filepath E _CREDENTIALS_FILENAME
  \/ exists sheet_name, p = staged_path E sheet_name.


Definition is_signal (ev : Event) : bool :=
  match ev with EvAbort _ | EvPrint _ => true | _ => false end.

Definition is_table_work (ev : Event) : bool :=
  match ev with
  | EvSheetsGet _ _ | EvBqGetTable _ | EvBqLoad _ _ _ => true
  | _ => false
  end.

(** The values requests of a trace: document and range, in order. *)
Definition values_requests (evs : list Event) : list (string * string) :=
  omap (fun ev => match ev with
                  | EvSheetsGet i r => Some (i, r)
                  | _ => None
                  end) evs.

(** A world with no shared document. *)
Definition no_documents : World :=
  {| w_blob := Some "service-account-key"; w_datasets := [];
     w_forbidden := []; w_tables := []; w_documents := [];
     w_clock := noon |}.

(** A world whose two datasets exist already. *)
Definition existing_datasets : World :=
  {| w_blob := Some "service-account-key";
     w_datasets := [_BQ_DATASET; history_dataset_name];
     w_forbidden := []; w_tables := [];
     w_documents := w_documents one_document; w_clock := noon |}.

Definition noon_stamp : string := "202401011200".

(** The clients a run builds from the fresh credential. *)
Definition sheets_handle : Client := mkClient _SHEETS_SERVICE_NAME fresh_cred.
Definition bq_handle : Client := mkClient "bigquery" fresh_cred.

(** The values of the document of [one_document]. *)
Definition plan_values : Grid := [["h1"; "h2"]; ["1"; "2"]; ["3"; "4"]].

(** A shared document whose name holds a slash. *)
Definition quarterly : Sheet := _SHEET "2024/Q1" "doc-7".

Definition nested_name : World :=
  {| w_blob := Some "service-account-key"; w_datasets := [];
     w_forbidden := []; w_tables := [];
     w_documents := [(quarterly, plan_values)]; w_clock := noon |}.

(* ===================================================================== *)
(** * Verification *)
(* ===================================================================== *)

(** ** The csv writer and reader *)

Lemma file_lines_from_cur (text cur : list ascii) :
  file_lines_from cur text =
  match file_lines_from [] text with
  | [] => match cur with [] => [] | _ => [rev cur] end
  | l :: ls => (rev cur ++ l) :: ls
  end.
Proof.
  revert cur. induction text as [|c rest IH]; intros cur.
  - simpl. destruct cur; [done|]. done.
  - simpl. destruct (Ascii.eqb c LF).
    { simpl. by rewrite <- ?app_assoc. }
    destruct (Ascii.eqb c CR).
    { destruct rest as [|c2 rest2].
      - simpl. done.
      - destruct (Ascii.eqb c2 LF); simpl; by rewrite <- ?app_assoc. }
    rewrite (IH (c :: cur)), (IH [c]).
    destruct (file_lines_from [] rest) as [|l ls]; simpl.
    + done.
    + by rewrite <- ?app_assoc.
Qed.

Lemma feed_nil L d r acc :
  feed L d r false [] acc = reader_records L d r [] acc.
Proof. reflexivity. Qed.

Lemma reader_records_cons_char L d r c l ls acc :
  reader_records L d r ((c :: l) :: ls) acc =
  match parse_process_char L d r (Some c) with
  | Raise e => Raise e
  | Ok r1 => reader_records L d r1 (l :: ls) acc
  end.
Proof.
  simpl. unfold parse_line. simpl.
  destruct (parse_process_char L d r (Some c)); reflexivity.
Qed.

Lemma feed_char L d r ne c text acc :
  is_newline c = false ->
  feed L d r ne (c :: text) acc =
  match parse_process_char L d r (Some c) with
  | Raise e => Raise e
  | Ok r1 => feed L d r1 true text acc
  end.
Proof.
  intros Hc. unfold is_newline in Hc. apply orb_false_iff in Hc as [H1 H2].
  unfold feed, lines_after. simpl. rewrite H1, H2.
  rewrite file_lines_from_cur.
  destruct (file_lines_from [] text) as [|l ls] eqn:El; simpl rev; simpl app;
    apply reader_records_cons_char.
Qed.

Lemma reader_records_eol L d r ls acc :
  reader_records L d r ([] :: ls) acc =
  match parse_process_char L d r None with
  | Raise e => Raise e
  | Ok r' =>
      if state_eqb (state r') START_RECORD
      then reader_records L d parse_reset ls (acc ++ [fields r'])
      else reader_records L d r' ls acc
  end.
Proof. reflexivity. Qed.

Lemma lines_after_false text : lines_after false text = file_lines_from [] text.
Proof. unfold lines_after. by destruct (file_lines_from [] text). Qed.

Lemma feed_LF L d r ne text acc :
  feed L d r ne (LF :: text) acc =
  match parse_process_char L d r (Some LF) with
  | Raise e => Raise e
  | Ok r1 => end_of_line L d r1 text acc
  end.
Proof.
  unfold feed at 1, lines_after. simpl file_lines_from. cbv iota.
  rewrite reader_records_cons_char.
  destruct (parse_process_char L d r (Some LF)) as [r1|]; [|done].
  rewrite reader_records_eol. unfold end_of_line, feed.
  by rewrite lines_after_false.
Qed.

Lemma feed_CR_LF L d r ne text acc :
  feed L d r ne (CR :: LF :: text) acc =
  match parse_process_char L d r (Some CR) with
  | Raise e => Raise e
  | Ok r1 =>
      match parse_process_char L d r1 (Some LF) with
      | Raise e => Raise e
      | Ok r2 => end_of_line L d r2 text acc
      end
  end.
Proof.
  unfold feed at 1, lines_after. simpl file_lines_from. cbv iota.
  rewrite reader_records_cons_char.
  destruct (parse_process_char L d r (Some CR)) as [r1|]; [|done].
  rewrite reader_records_cons_char.
  destruct (parse_process_char L d r1 (Some LF)) as [r2|]; [|done].
  rewrite reader_records_eol. unfold end_of_line, feed.
  by rewrite lines_after_false.
Qed.

Lemma feed_CR L d r ne text acc :
  head text <> Some LF ->
  feed L d r ne (CR :: text) acc =
  match parse_process_char L d r (Some CR) with
  | Raise e => Raise e
  | Ok r1 => end_of_line L d r1 text acc
  end.
Proof.
  intros Hh.
  assert (file_lines_from [] (CR :: text) = [CR] :: file_lines_from [] text) as E.
  { simpl. destruct text as [|c2 rest2]; [done|].
    destruct (Ascii.eqb_spec c2 LF) as [->|]; [by destruct Hh|done]. }
  unfold feed at 1, lines_after. rewrite E.
  rewrite reader_records_cons_char.
  destruct (parse_process_char L d r (Some CR)) as [r1|]; [|done].
  rewrite reader_records_eol. unfold end_of_line, feed.
  by rewrite lines_after_false.
Qed.

Lemma join_append_data_staging f :
  join_append_data staging_dialect f true = Ok (escape_body f, true).
Proof.
  induction f as [|c f IH]; [done|].
  cbn [join_append_data].
  unfold escape_body. cbn [flat_map]. unfold escape_char.
  cbn [delimiter quotechar escapechar staging_dialect excel is_escapechar
       quoting_is_none quoting doublequote lineterminator existsb].
  destruct (Ascii.eqb_spec c dquote) as [->|Hq].
  { cbn. rewrite IH. done. }
  destruct (Ascii.eqb_spec c backslash) as [->|Hb].
  { cbn. rewrite IH. done. }
  destruct (Ascii.eqb c comma), (Ascii.eqb c CR), (Ascii.eqb c LF);
    cbn; rewrite IH; done.
Qed.

Lemma join_fields_staging row n :
  join_fields staging_dialect n row = Ok (row_body n row).
Proof.
  revert n. induction row as [|f rest IH]; intros n; [done|].
  cbn [join_fields row_body]. unfold join_append.
  rewrite join_append_data_staging, IH.
  cbn [quoting staging_dialect quotechar delimiter excel].
  destruct n; simpl; by rewrite <- ?app_assoc.
Qed.

Lemma csv_writerow_staging row :
  csv_writerow staging_dialect row = Ok (row_body 0 row ++ [CR; LF]).
Proof.
  unfold csv_writerow. rewrite join_fields_staging.
  destruct row as [|f rest]; [done|]. done.
Qed.

Lemma csv_writerows_staging g :
  csv_writerows staging_dialect g = Ok (grid_text g).
Proof.
  induction g as [|row rest IH]; [done|].
  cbn [csv_writerows]. rewrite csv_writerow_staging, IH. done.
Qed.

Local Abbreviation sd := staging_dialect.

Arguments parse_add_char : simpl never.

(** A character is added while the field is shorter than the limit, and
    refused once the field has reached it. *)
Lemma parse_add_char_fits L st0 b fs c st :
  length b < L ->
  parse_add_char L (mkReader st0 b fs) c st = Ok (mkReader st (b ++ [c]) fs).
Proof.
  intros Hb. unfold parse_add_char. cbn [field fields].
  by rewrite (proj2 (Nat.leb_gt L (length b)) Hb).
Qed.

Lemma parse_add_char_full L st0 b fs c st :
  L <= length b ->
  parse_add_char L (mkReader st0 b fs) c st = Raise (field_limit_error L).
Proof.
  intros Hb. unfold parse_add_char. cbn [field fields].
  by rewrite (proj2 (Nat.leb_le L (length b)) Hb).
Qed.

Ltac rdr :=
  cbn; unfold set_state, parse_save_field;
  cbn [state field fields app].

Lemma step_quoted_plain L b fs c :
  length b < L -> c <> dquote -> c <> backslash ->
  parse_process_char L sd (mkReader IN_QUOTED_FIELD b fs) (Some c)
  = Ok (mkReader IN_QUOTED_FIELD (b ++ [c]) fs).
Proof.
  intros HL Hq Hb. unfold parse_process_char. cbn.
  apply Ascii.eqb_neq in Hq, Hb. rewrite Hq, Hb. cbn.
  by apply parse_add_char_fits.
Qed.

Lemma step_quoted_quote L b fs :
  parse_process_char L sd (mkReader IN_QUOTED_FIELD b fs) (Some dquote)
  = Ok (mkReader QUOTE_IN_QUOTED_FIELD b fs).
Proof. reflexivity. Qed.

Lemma step_quote_quote L b fs :
  length b < L ->
  parse_process_char L sd (mkReader QUOTE_IN_QUOTED_FIELD b fs) (Some dquote)
  = Ok (mkReader IN_QUOTED_FIELD (b ++ [dquote]) fs).
Proof. intros HL. cbn. by apply parse_add_char_fits. Qed.

Lemma step_quoted_escape L b fs :
  parse_process_char L sd (mkReader IN_QUOTED_FIELD b fs) (Some backslash)
  = Ok (mkReader ESCAPE_IN_QUOTED_FIELD b fs).
Proof. reflexivity. Qed.

Lemma step_escaped L b fs c :
  length b < L ->
  parse_process_char L sd (mkReader ESCAPE_IN_QUOTED_FIELD b fs) (Some c)
  = Ok (mkReader IN_QUOTED_FIELD (b ++ [c]) fs).
Proof. intros HL. cbn. by apply parse_add_char_fits. Qed.

Lemma escape_body_head_not_LF f rest :
  head f <> Some LF -> head (escape_body f ++ dquote :: rest) <> Some LF.
Proof.
  destruct f as [|c f]; [done|]. simpl. intros Hc.
  unfold escape_char.
  destruct (Ascii.eqb_spec c dquote) as [->|]; [done|].
  destruct (Ascii.eqb_spec c backslash) as [->|]; [done|].
  simpl. done.
Qed.

Lemma newline_cases c :
  c = LF \/ c = CR \/ is_newline c = false.
Proof.
  unfold is_newline.
  destruct (Ascii.eqb_spec c LF); [by left|].
  destruct (Ascii.eqb_spec c CR); [by right; left|]. by right; right.
Qed.

Lemma read_field_body L n : forall f b fs ne rest acc,
  length f <= n ->
  length b + length f <= L ->
  feed L sd (mkReader IN_QUOTED_FIELD b fs) ne
       (escape_body f ++ dquote :: rest) acc
  = feed L sd (mkReader QUOTE_IN_QUOTED_FIELD (b ++ f) fs) true rest acc.
Proof.
  induction n as [|n IH]; intros f b fs ne rest acc Hn HL.
  { destruct f; [|simpl in Hn; lia]. simpl.
    rewrite feed_char by done. rewrite step_quoted_quote.
    by rewrite app_nil_r. }
  destruct f as [|c f].
  { simpl. rewrite feed_char by done. rewrite step_quoted_quote.
    by rewrite app_nil_r. }
  simpl in Hn, HL.
  replace (b ++ c :: f) with ((b ++ [c]) ++ f) by (by rewrite <- app_assoc).
  assert (length (b ++ [c]) + length f <= L) as HL'.
  { rewrite length_app. simpl. lia. }
  unfold escape_body. cbn [flat_map]. fold (escape_body f).
  unfold escape_char.
  destruct (Ascii.eqb_spec c dquote) as [->|Hq].
  { cbn [app]. rewrite feed_char by done. rewrite step_quoted_quote.
    rewrite feed_char by done. rewrite step_quote_quote by lia.
    apply IH; [lia|done]. }
  destruct (Ascii.eqb_spec c backslash) as [->|Hb].
  { cbn [app]. rewrite feed_char by done. rewrite step_quoted_escape.
    rewrite feed_char by done. rewrite step_escaped by lia.
    apply IH; [lia|done]. }
  cbn [app].
  destruct (newline_cases c) as [->|[->|Hnl]].
  - rewrite feed_LF, step_quoted_plain by (done || lia).
    unfold end_of_line. cbn. apply IH; [lia|done].
  - destruct f as [|c2 f].
    + simpl. rewrite feed_CR by done.
      rewrite step_quoted_plain by (done || lia).
      unfold end_of_line. cbn. rewrite feed_char by done.
      rewrite step_quoted_quote. by rewrite app_nil_r.
    + destruct (Ascii.eqb_spec c2 LF) as [->|Hc2].
      * unfold escape_body. cbn [flat_map]. fold (escape_body f).
        unfold escape_char. cbn [Ascii.eqb]. cbn [app].
        change (Ascii.eqb LF dquote) with false.
        change (Ascii.eqb LF backslash) with false. cbn [app].
        simpl in Hn, HL, HL'.
        rewrite feed_CR_LF, step_quoted_plain by (done || lia).
        rewrite step_quoted_plain
          by (done || (rewrite length_app; simpl; lia)).
        unfold end_of_line. cbn.
        replace ((b ++ [CR]) ++ LF :: f) with (((b ++ [CR]) ++ [LF]) ++ f)
          by (by rewrite <- !app_assoc).
        apply IH; [lia|]. rewrite !length_app. simpl. lia.
      * rewrite feed_CR.
        2:{ apply escape_body_head_not_LF. simpl. congruence. }
        rewrite step_quoted_plain by (done || lia).
        unfold end_of_line. cbn. apply (IH (c2 :: f)); [simpl in *; lia|done].
  - rewrite feed_char by done. rewrite step_quoted_plain by (done || lia).
    apply IH; [lia|done].
Qed.

Lemma length_list_ascii_of_string (s : string) :
  length (list_ascii_of_string s) = String.length s.
Proof. induction s as [|c s IH]; [done|]. simpl. by rewrite IH. Qed.

Lemma row_fits L (f : string) (row : list string) :
  forallb (fun cell => Nat.leb (String.length cell) L) (f :: row) = true ->
  length (list_ascii_of_string f) <= L
  /\ forallb (fun cell => Nat.leb (String.length cell) L) row = true.
Proof.
  cbn [forallb]. intros [Hf Hrow]%andb_true_iff. split; [|done].
  rewrite length_list_ascii_of_string. by apply Nat.leb_le.
Qed.

Lemma read_row_tail L : forall (row : list string) n b fs rest acc,
  forallb (fun cell => Nat.leb (String.length cell) L) row = true ->
  feed L sd (mkReader QUOTE_IN_QUOTED_FIELD b fs) true
       (row_body (S n) row ++ CR :: LF :: rest) acc
  = feed L sd parse_reset false rest
         (acc ++ [fs ++ string_of_list_ascii b :: row]).
Proof.
  induction row as [|f row IH]; intros n b fs rest acc Hfit.
  - simpl. rewrite feed_CR_LF. rdr. unfold end_of_line. rdr. done.
  - apply row_fits in Hfit as [Hf Hrow].
    cbn [row_body]. cbn [app].
    rewrite feed_char by done. rdr.
    rewrite feed_char by done. rdr.
    rewrite <- app_assoc. cbn [app].
    rewrite (read_field_body L _ _ _ _ _ _ _ (le_n _)) by done.
    rewrite IH by done. cbn [app]. rewrite string_of_list_ascii_of_string.
    by rewrite <- app_assoc.
Qed.

Lemma read_row L (row : list string) rest acc :
  forallb (fun cell => Nat.leb (String.length cell) L) row = true ->
  feed L sd parse_reset false (row_body 0 row ++ CR :: LF :: rest) acc
  = feed L sd parse_reset false rest (acc ++ [row]).
Proof.
  intros Hfit. destruct row as [|f row].
  - simpl. rewrite feed_CR_LF. rdr. unfold end_of_line. rdr. done.
  - apply row_fits in Hfit as [Hf Hrow].
    cbn [row_body app].
    rewrite feed_char by done. rdr.
    rewrite <- app_assoc. cbn [app].
    rewrite (read_field_body L _ _ _ _ _ _ _ (le_n _)) by done.
    rewrite read_row_tail by done. cbn [app parse_reset field fields].
    by rewrite string_of_list_ascii_of_string.
Qed.

Lemma read_grid L (g : Grid) : forall acc,
  cells_fit L g = true ->
  feed L sd parse_reset false (grid_text g) acc = Ok (acc ++ g).
Proof.
  induction g as [|row g IH]; intros acc Hfit.
  - simpl. rewrite feed_nil. rdr. by rewrite app_nil_r.
  - unfold cells_fit in Hfit. cbn [forallb] in Hfit.
    apply andb_true_iff in Hfit as [Hrow Hg].
    unfold grid_text. cbn [flat_map]. fold (grid_text g).
    rewrite <- app_assoc. cbn [app]. rewrite read_row by done.
    rewrite IH by done. by rewrite <- app_assoc.
Qed.

Lemma csv_roundtrip L (g : Grid) :
  cells_fit L g = true ->
  csv_reader_with L sd (file_lines (string_of_list_ascii (grid_text g)))
  = Ok g.
Proof.
  intros Hfit.
  unfold csv_reader_with, file_lines.
  rewrite list_ascii_of_string_of_list_ascii.
  rewrite <- lines_after_false. by apply (read_grid L g []).
Qed.

Lemma cells_fit_mono L L' g :
  L <= L' -> cells_fit L g = true -> cells_fit L' g = true.
Proof.
  intros HL. unfold cells_fit. rewrite !forallb_forall.
  intros H row Hrow. specialize (H row Hrow).
  rewrite forallb_forall in *. intros cell Hcell.
  specialize (H cell Hcell). apply Nat.leb_le. apply Nat.leb_le in H. lia.
Qed.

Lemma cells_fit_longest (g : Grid) : cells_fit (longest_cell g) g = true.
Proof.
  induction g as [|row g IH]; [done|].
  unfold cells_fit. cbn [forallb longest_cell foldr].
  fold (longest_cell g).
  assert (forall m, longest_cell g <= m ->
            forallb (fun cell => Nat.leb (String.length cell)
                       (foldr (fun cell m' => Nat.max (String.length cell) m')
                              m row)) row = true
            /\ m <= foldr (fun cell m' => Nat.max (String.length cell) m')
                          m row) as Hrow.
  { intros m _. induction row as [|cell row IHrow]; [done|].
    cbn [forallb foldr]. destruct IHrow as [IH1 IH2]. split; [|lia].
    apply andb_true_iff. split; [apply Nat.leb_le; lia|].
    rewrite forallb_forall in *. intros c Hc. specialize (IH1 c Hc).
    apply Nat.leb_le. apply Nat.leb_le in IH1. lia. }
  destruct (Hrow (longest_cell g) (le_n _)) as [H1 H2].
  apply andb_true_iff. split; [done|].
  by apply (cells_fit_mono (longest_cell g)).
Qed.

(** A field of more characters than the limit is refused. *)
Lemma read_long_field L : forall n b fs ne rest acc,
  length b <= L -> L < length b + n ->
  feed L sd (mkReader IN_QUOTED_FIELD b fs) ne
       (repeat "x"%char n ++ dquote :: rest) acc
  = Raise (field_limit_error L).
Proof.
  induction n as [|n IH]; intros b fs ne rest acc Hb HL; [lia|].
  cbn [repeat app]. rewrite feed_char by done.
  destruct (Nat.eq_dec (length b) L) as [Heq|Hne].
  - unfold parse_process_char. cbn.
    by rewrite parse_add_char_full by lia.
  - rewrite step_quoted_plain by (done || lia).
    apply IH; rewrite length_app; simpl; lia.
Qed.

Lemma escape_body_plain n :
  escape_body (repeat "x"%char n) = repeat "x"%char n.
Proof. induction n as [|n IH]; [done|]. simpl. by rewrite IH. Qed.

Lemma long_field_refused L n :
  L < n ->
  csv_reader_with L sd
    (file_lines (string_of_list_ascii
                   (grid_text [[string_of_list_ascii (repeat "x"%char n)]])))
  = Raise (field_limit_error L).
Proof.
  intros HL. unfold csv_reader_with, file_lines.
  rewrite list_ascii_of_string_of_list_ascii, <- lines_after_false.
  change (reader_records ?L ?d ?r (lines_after ?ne ?t) ?acc)
    with (feed L d r ne t acc).
  unfold grid_text. cbn [flat_map row_body app].
  rewrite list_ascii_of_string_of_list_ascii, escape_body_plain.
  rewrite feed_char by done.
  change (parse_process_char L sd parse_reset (Some dquote))
    with (Ok (mkReader IN_QUOTED_FIELD [] [])).
  cbv iota. rewrite app_nil_r, <- app_assoc. cbn [app].
  apply read_long_field; simpl; lia.
Qed.

(** The claim that every grid is read back fails, for the reader as the
    library provides it, on a grid with a cell of more characters than the
    field size limit: staging writes it, and the reader refuses the
    field. *)
Lemma long_cell_is_not_read_back :
  String.length long_cell = S field_size_limit
  /\ csv_writerows staging_dialect [[long_cell]]
     = Ok (grid_text [[long_cell]])
  /\ csv_reader staging_dialect
                (file_lines (string_of_list_ascii (grid_text [[long_cell]])))
     = Raise (field_limit_error field_size_limit).
Proof.
  split.
  { unfold long_cell.
    by rewrite <- length_list_ascii_of_string,
      list_ascii_of_string_of_list_ascii, repeat_length. }
  split; [apply csv_writerows_staging|].
  unfold csv_reader, long_cell. apply long_field_refused.
  apply Nat.lt_succ_diag_r.
Qed.

(** C3, amended.  For every grid of text cells and every path, when the
    platform opens the path for writing and the text reaches the file,
    [_write_to_tmp] leaves at the path the text in which every field stands
    between double quotes, a quote inside a field is doubled and a
    backslash is escaped by the backslash, one record per row in column
    order and nothing before the first record.  When the path cannot be
    opened, [_write_to_tmp] raises the platform's exception and the
    directory is as before; when the write fails, it raises and the file
    holds the part that was written.  Reading the staged text back with
    the reader of the same dialect gives the grid again under every field
    size limit that no cell exceeds: under the limit of the library,
    131072, when no cell is longer than that, and for every grid under the
    length of its longest cell.  For the example grid the staged text is
    [example_text], and the reader gives the example grid back. *)
Theorem staging_round_trip (E : Env) (values : Grid) (filepath : string)
    (s : St) :
  let text := string_of_list_ascii (grid_text values) in
  (stages E (trace s) filepath values ->
   _write_to_tmp E values filepath s
   = (Ok tt, mkSt (<[filepath := staged values]> (fs s)) (trace s)))
  /\ (forall e,
        open_for_writing E (trace s) filepath = Raise e ->
        _write_to_tmp E values filepath s = (Raise e, s))
  /\ (forall n e,
        open_for_writing E (trace s) filepath = Ok tt ->
        text_written E (trace s) filepath text = Some (n, e) ->
        _write_to_tmp E values filepath s
        = (Raise e,
           mkSt (<[filepath := FText (substring 0 n text)]> (fs s))
                (trace s)))
  /\ csv_writerows staging_dialect values = Ok (grid_text values)
  /\ (forall limit,
        cells_fit limit values = true ->
        csv_reader_with limit staging_dialect (file_lines text) = Ok values)
  /\ (cells_fit field_size_limit values = true ->
      csv_reader staging_dialect (file_lines text) = Ok values)
  /\ csv_reader_with (longest_cell values) staging_dialect (file_lines text)
     = Ok values
  /\ string_of_list_ascii (grid_text example_grid) = example_text
  /\ csv_reader staging_dialect (file_lines example_text) = Ok example_grid.
Proof.
  cbv zeta. split_and!.
  - intros [Hopen Hwrite]. unfold _write_to_tmp, staged.
    rewrite csv_writerows_staging. unfold bind, open_w, write_text.
    rewrite Hopen. cbn [trace fs]. rewrite Hwrite.
    by rewrite insert_insert_eq.
  - intros e Hopen. unfold _write_to_tmp, bind, open_w. by rewrite Hopen.
  - intros n e Hopen Hwrite. unfold _write_to_tmp.
    rewrite csv_writerows_staging. unfold bind, open_w, write_text.
    rewrite Hopen. cbn [trace fs]. rewrite Hwrite.
    by rewrite insert_insert_eq.
  - apply csv_writerows_staging.
  - intros limit Hfit. by apply csv_roundtrip.
  - intros Hfit. by apply csv_roundtrip.
  - apply csv_roundtrip, cells_fit_longest.
  - reflexivity.
  - change example_text
      with (string_of_list_ascii (grid_text example_grid)).
    by apply csv_roundtrip.
Qed.

Lemma staging_round_trip_witness :
  _write_to_tmp (world_env one_document) example_grid "/tmp/example.csv"
                empty_state
  = (Ok tt,
     mkSt (<["/tmp/example.csv" := staged example_grid]> (fs empty_state))
          (trace empty_state))
  /\ _write_to_tmp (world_env one_document) example_grid "/tmp/a/b.csv"
                   empty_state
     = (Raise (no_such_file "/tmp/a/b.csv"), empty_state)
  /\ _write_to_tmp (full_device (world_env one_document)) example_grid
                   "/tmp/example.csv" empty_state
     = (Raise (OtherError "[Errno 28] No space left on device"),
        mkSt (<["/tmp/example.csv" := FText ""]> (fs empty_state))
             (trace empty_state))
  /\ csv_reader staging_dialect
                (file_lines (string_of_list_ascii (grid_text example_grid)))
     = Ok example_grid.
Proof.
  destruct (staging_round_trip (world_env one_document) example_grid
              "/tmp/example.csv" empty_state)
    as (Hstaged & _ & _ & _ & _ & Hread & _).
  destruct (staging_round_trip (world_env one_document) example_grid
              "/tmp/a/b.csv" empty_state) as (_ & Hopen & _).
  destruct (staging_round_trip (full_device (world_env one_document))
              example_grid "/tmp/example.csv" empty_state)
    as (_ & _ & Hfull & _).
  split; [apply Hstaged; split; reflexivity|].
  split; [apply Hopen; reflexivity|].
  split; [apply (Hfull 0); reflexivity|].
  apply Hread. reflexivity.
Defined.


(** ** Credential acquisition *)

Arguments _generate_filepath : simpl never.

Ltac unfold_m :=
  unfold bind, ret, raise, emit, call, read_file, store_file, open_w,
    write_text, remove_file, try_except, pickle_load in *.

Lemma new_events_app s evs f :
  new_events s (mkSt f (trace s ++ evs)) = evs.
Proof. unfold new_events. simpl. by rewrite drop_app_length. Qed.

Lemma new_events_same s : new_events s s = [].
Proof. unfold new_events. by rewrite drop_all. Qed.

(** C8.  When the token cache holds a credential that is valid, credential
    acquisition returns that credential and leaves the state as it was: no
    blob is looked up or downloaded and no key file is parsed. *)
Theorem valid_cached_token_is_used (E : Env) (s : St) (c : Cred) :
  fs s !! _generate_filepath E _TOKEN_FILENAME = Some (FPickle (Some c)) ->
  valid c = true ->
  obtain_creds E s = (Ok (Some c), s)
  /\ filter is_key_storage (events_of (obtain_creds E) s) = [].
Proof.
  intros Hf Hv.
  assert (obtain_creds E s = (Ok (Some c), s)) as Hrun.
  { unfold obtain_creds, _check_creds. unfold_m. rewrite Hf. cbn.
    by rewrite Hv. }
  split; [done|]. unfold events_of. rewrite Hrun. cbn.
  by rewrite new_events_same.
Qed.

Lemma valid_cached_token_is_used_witness :
  obtain_creds (world_env one_document) fresh_cache
  = (Ok (Some fresh_cred), fresh_cache)
  /\ filter is_key_storage
            (events_of (obtain_creds (world_env one_document)) fresh_cache)
     = [].
Proof.
  apply (valid_cached_token_is_used (world_env one_document) fresh_cache
                                    fresh_cred).
  - vm_compute. reflexivity.
  - reflexivity.
Defined.

(** C10.  When the cached credential has expired and its refresh raises,
    the exception leaves credential acquisition and the whole run as it is:
    the only event of the run is the refresh, so the key is not fetched and
    no abort is signalled. *)
Theorem refresh_error_propagates (E : Env) (request : option Request)
    (s : St) (c : Cred) (e : Exn) :
  fs s !! _generate_filepath E _TOKEN_FILENAME = Some (FPickle (Some c)) ->
  valid c = false ->
  expired c = true ->
  refresh E (trace s) c = Raise e ->
  obtain_creds E s = (Raise e, with_events s [EvRefresh c])
  /\ sheets_to_bq E request s = (Raise e, with_events s [EvRefresh c]).
Proof.
  intros Hf Hv Hx Hr.
  assert (obtain_creds E s = (Raise e, with_events s [EvRefresh c])) as Hrun.
  { unfold obtain_creds, _check_creds, with_events. unfold_m. rewrite Hf.
    cbn. rewrite Hv, Hx. cbn. by rewrite Hr. }
  split; [done|]. unfold sheets_to_bq. unfold bind at 1. by rewrite Hrun.
Qed.

Lemma refresh_error_propagates_witness :
  obtain_creds (revoked (world_env one_document)) expired_cache
  = (Raise (RefreshError "invalid_grant"),
     with_events expired_cache [EvRefresh expired_cred])
  /\ sheets_to_bq (revoked (world_env one_document)) (Some FlaskRequest)
                  expired_cache
     = (Raise (RefreshError "invalid_grant"),
        with_events expired_cache [EvRefresh expired_cred]).
Proof.
  apply (refresh_error_propagates (revoked (world_env one_document))
           (Some FlaskRequest) expired_cache expired_cred
           (RefreshError "invalid_grant")).
  - vm_compute. reflexivity.
  - reflexivity.
  - reflexivity.
  - reflexivity.
Defined.

(** The claim that an unreachable key blob ends in the abort signal fails
    when the lookup of the blob raises: [_get_credentials_json] is called
    outside the [try] of [_fetch_creds], so the exception leaves the run,
    with or without a request, and nothing is logged, signalled or
    printed. *)
Lemma unreachable_bucket_gives_no_abort :
  fs empty_state
    !! _generate_filepath (unreachable_bucket (world_env one_document))
                          _TOKEN_FILENAME = None
  /\ gcs_get_blob (unreachable_bucket (world_env one_document))
                  (trace empty_state) _CREDENTIALS_GCS_BUCKET_NAME
                  _CREDENTIALS_GCS_FILENAME
     = Raise (OtherError "ServiceUnavailable")
  /\ sheets_to_bq (unreachable_bucket (world_env one_document))
                  (Some FlaskRequest) empty_state
     = (Raise (OtherError "ServiceUnavailable"),
        with_events empty_state
          [EvGcsGetBlob _CREDENTIALS_GCS_BUCKET_NAME
                        _CREDENTIALS_GCS_FILENAME])
  /\ sheets_to_bq (unreachable_bucket (world_env one_document)) None
                  empty_state
     = (Raise (OtherError "ServiceUnavailable"),
        with_events empty_state
          [EvGcsGetBlob _CREDENTIALS_GCS_BUCKET_NAME
                        _CREDENTIALS_GCS_FILENAME])
  /\ (forall request,
        count_events (fun ev => is_signal ev || is_error_log ev)
          (events_of (sheets_to_bq
                        (unreachable_bucket (world_env one_document)) request)
                     empty_state) = 0).
Proof.
  split_and!; vm_compute; reflexivity.
Qed.

(** C6, amended.  With no token cache there are two ways in which the key
    blob is out of reach.  When the lookup answers that the bucket holds
    no such blob and no key file is in the scratch directory, the run logs
    that it could not fetch credentials and aborts: with a request it
    raises the HTTP 500 exception, without one it prints a message and
    returns nothing.  When the lookup itself raises, that exception leaves
    the run as it is, with or without a request: the lookup is the only
    event, so nothing is logged, signalled or printed.  Either way the run
    builds no client, lists and fetches no document and calls the
    warehouse not at all. *)
Theorem no_credentials_aborts (E : Env) (s : St) :
  fs s !! _generate_filepath E _TOKEN_FILENAME = None ->
  (gcs_get_blob E (trace s) _CREDENTIALS_GCS_BUCKET_NAME
                _CREDENTIALS_GCS_FILENAME = Ok None ->
   fs s !! _generate_filepath E _CREDENTIALS_FILENAME = None ->
   (forall r : Request,
      sheets_to_bq E (Some r) s
      = (Raise (HTTPException 500),
         with_events s (abort_prefix E ++ [EvAbort 500])))
   /\ sheets_to_bq E None s
      = (Ok None, with_events s (abort_prefix E ++ [EvPrint "Quit"]))
   /\ (forall request,
         filter (fun ev => is_document ev || is_warehouse ev)
                (events_of (sheets_to_bq E request) s) = []))
  /\ (forall e,
        gcs_get_blob E (trace s) _CREDENTIALS_GCS_BUCKET_NAME
                     _CREDENTIALS_GCS_FILENAME = Raise e ->
        forall request,
          sheets_to_bq E request s
          = (Raise e,
             with_events s [EvGcsGetBlob _CREDENTIALS_GCS_BUCKET_NAME
                                         _CREDENTIALS_GCS_FILENAME])
          /\ count_events (fun ev => is_signal ev || is_error_log ev)
                          (events_of (sheets_to_bq E request) s) = 0
          /\ filter (fun ev => is_document ev || is_warehouse ev)
                    (events_of (sheets_to_bq E request) s) = []).
Proof.
  intros Ht. split.
  - intros Hb Hc.
    assert (forall request, sheets_to_bq E request s =
      match request with
      | Some _ => (Raise (HTTPException 500),
                   with_events s (abort_prefix E ++ [EvAbort 500]))
      | None => (Ok None, with_events s (abort_prefix E ++ [EvPrint "Quit"]))
      end) as Hrun.
    { intros request.
      unfold sheets_to_bq, obtain_creds, _check_creds, _fetch_creds,
        _get_credentials_json, with_events. unfold_m. rewrite Ht. cbn.
      rewrite Hb. cbn. rewrite Hc. cbn. unfold abort_prefix.
      destruct request; cbn; rewrite <- !app_assoc; reflexivity. }
    split; [intros r; apply (Hrun (Some r))|].
    split; [apply (Hrun None)|].
    intros request. unfold events_of. rewrite Hrun.
    destruct request; cbn; unfold with_events; rewrite new_events_app;
      reflexivity.
  - intros e Hb request.
    assert (sheets_to_bq E request s
            = (Raise e,
               with_events s [EvGcsGetBlob _CREDENTIALS_GCS_BUCKET_NAME
                                           _CREDENTIALS_GCS_FILENAME]))
      as Hrun.
    { unfold sheets_to_bq, obtain_creds, _check_creds, _fetch_creds,
        _get_credentials_json, with_events. unfold_m. rewrite Ht. cbn.
      rewrite Hb. reflexivity. }
    split; [done|]. unfold events_of. rewrite Hrun.
    unfold with_events. cbn [snd]. rewrite new_events_app.
    split; reflexivity.
Qed.

Lemma no_credentials_aborts_witness :
  ((forall r : Request,
      sheets_to_bq (world_env no_key_blob) (Some r) empty_state
      = (Raise (HTTPException 500),
         with_events empty_state
           (abort_prefix (world_env no_key_blob) ++ [EvAbort 500])))
   /\ sheets_to_bq (world_env no_key_blob) None empty_state
      = (Ok None,
         with_events empty_state
           (abort_prefix (world_env no_key_blob) ++ [EvPrint "Quit"]))
   /\ (forall request,
         filter (fun ev => is_document ev || is_warehouse ev)
                (events_of (sheets_to_bq (world_env no_key_blob) request)
                           empty_state) = []))
  /\ (forall request,
        sheets_to_bq (unreachable_bucket (world_env one_document)) request
                     empty_state
        = (Raise (OtherError "ServiceUnavailable"),
           with_events empty_state
             [EvGcsGetBlob _CREDENTIALS_GCS_BUCKET_NAME
                           _CREDENTIALS_GCS_FILENAME])
        /\ count_events (fun ev => is_signal ev || is_error_log ev)
              (events_of (sheets_to_bq
                            (unreachable_bucket (world_env one_document))
                            request) empty_state) = 0
        /\ filter (fun ev => is_document ev || is_warehouse ev)
              (events_of (sheets_to_bq
                            (unreachable_bucket (world_env one_document))
                            request) empty_state) = []).
Proof.
  split.
  - apply (no_credentials_aborts (world_env no_key_blob) empty_state).
    + vm_compute. reflexivity.
    + reflexivity.
    + vm_compute. reflexivity.
  - apply (no_credentials_aborts
             (unreachable_bucket (world_env one_document)) empty_state).
    + vm_compute. reflexivity.
    + reflexivity.
Defined.

(** The claim that every cache without a valid credential leads to the key
    fetch fails on a cached credential that is not valid and not expired:
    [_check_creds] returns it as it is, and [or] takes it. *)
Lemma invalid_cached_token_is_returned :
  fs stale_cache !! _generate_filepath (world_env one_document) _TOKEN_FILENAME
  = Some (FPickle (Some stale_cred))
  /\ valid stale_cred = false
  /\ result_of (obtain_creds (world_env one_document)) stale_cache
     = Ok (Some stale_cred)
  /\ events_of (obtain_creds (world_env one_document)) stale_cache = [].
Proof. repeat split; vm_compute; reflexivity. Qed.

Lemma _check_creds_trace E f s r s' :
  _check_creds E f s = (r, s') ->
  exists evs, trace s' = trace s ++ evs /\ forallb is_credential evs = true.
Proof.
  unfold _check_creds. unfold_m.
  destruct (fs s !! _generate_filepath E f) as [[[c|]|[|? ?]]|]; cbn.
  - destruct (valid c); cbn.
    + intros [= _ <-]. exists []. by rewrite app_nil_r.
    + destruct (expired c); cbn.
      * destruct (refresh E (trace s) c); intros [= _ <-]; cbn; eauto.
      * intros [= _ <-]. exists []. by rewrite app_nil_r.
  - intros [= _ <-]. exists []. by rewrite app_nil_r.
  - intros [= _ <-]. exists []. by rewrite app_nil_r.
  - intros [= _ <-]. exists []. by rewrite app_nil_r.
  - intros [= _ <-]. exists []. by rewrite app_nil_r.
Qed.

(** Whatever its outcome, [_fetch_creds] starts by looking up the key blob,
    and adds nothing but credential events. *)
Lemma _fetch_creds_trace E f s r s' :
  _fetch_creds E f s = (r, s') ->
  exists evs,
    trace s' = trace s
               ++ EvGcsGetBlob _CREDENTIALS_GCS_BUCKET_NAME
                               _CREDENTIALS_GCS_FILENAME :: evs
    /\ forallb is_credential evs = true.
Proof.
  unfold _fetch_creds, _get_credentials_json. unfold_m. cbn.
  destruct (gcs_get_blob E (trace s) _ _) as [[key|]|e]; cbn.
  - destruct (download_to_filename E _ _ _) as [[]|e]; cbn.
    2:{ intros [= _ <-]; cbn; rewrite <- ?app_assoc; eauto. }
    destruct (<[_ := _]> (fs s) !! _) as [d|]; cbn.
    + destruct (from_service_account_file E _ _ _) as [c|[]];
        intros [= _ <-]; cbn; rewrite <- ?app_assoc; eauto.
    + intros [= _ <-]; cbn; rewrite <- ?app_assoc; eauto.
  - destruct (fs s !! _) as [d|]; cbn.
    + destruct (from_service_account_file E _ _ _) as [c|[]];
        intros [= _ <-]; cbn; rewrite <- ?app_assoc; eauto.
    + intros [= _ <-]; cbn; rewrite <- ?app_assoc; eauto.
  - intros [= _ <-]; cbn; eauto.
Qed.

Lemma obtain_creds_trace E s r s' :
  obtain_creds E s = (r, s') ->
  exists evs, trace s' = trace s ++ evs /\ forallb is_credential evs = true.
Proof.
  unfold obtain_creds, bind.
  destruct (_check_creds E _TOKEN_FILENAME s) as [[[c|]|e] s1] eqn:Hc;
    apply _check_creds_trace in Hc as (evs1 & Ht1 & Hc1).
  - unfold ret. intros [= _ <-]. eauto.
  - intros H. apply _fetch_creds_trace in H as (evs2 & Ht2 & Hc2).
    eexists (evs1 ++ _ :: evs2). rewrite Ht2, Ht1, <- app_assoc.
    split; [done|]. by rewrite forallb_app, Hc1; cbn; rewrite Hc2.
  - intros [= _ <-]. eauto.
Qed.

(** C2, amended.  The key is fetched exactly when the token cache yields
    no credential object.  When there is no cache file, or the file holds
    [None], credential acquisition is the fetch of the service-account
    key: it starts by looking up the key blob in the fixed bucket, and when
    the blob is there, its download succeeds and the key parses, the key
    is in the scratch directory and the credential built from it under the
    four fixed scopes is the result.  When the cache holds a credential
    object that is not valid, there is no fallback: an object that has not
    expired is returned as it is, with no call at all; an expired one is
    refreshed, which is the only call, and the refreshed object is the
    result when the refresh returns, while the exception of the refresh
    leaves credential acquisition when it raises.  A cache file that does
    not unpickle makes credential acquisition raise, with no call. *)
Theorem fallback_only_without_cached_object (E : Env) (s : St) :
  (fs s !! _generate_filepath E _TOKEN_FILENAME = None
   \/ fs s !! _generate_filepath E _TOKEN_FILENAME = Some (FPickle None) ->
   obtain_creds E s = _fetch_creds E _CREDENTIALS_FILENAME s
   /\ head (events_of (obtain_creds E) s)
      = Some (EvGcsGetBlob _CREDENTIALS_GCS_BUCKET_NAME
                           _CREDENTIALS_GCS_FILENAME)
   /\ length _SCOPES = 4
   /\ forall key c,
        gcs_get_blob E (trace s) _CREDENTIALS_GCS_BUCKET_NAME
                     _CREDENTIALS_GCS_FILENAME = Ok (Some key) ->
        download_to_filename E (trace s ++ take 1 (key_fetch_events E)) key
          (_generate_filepath E _CREDENTIALS_FILENAME) = Ok tt ->
        from_service_account_file E (trace s ++ take 2 (key_fetch_events E))
                                  (FText key) _SCOPES = Ok c ->
        obtain_creds E s
        = (Ok (Some c),
           mkSt (<[_generate_filepath E _CREDENTIALS_FILENAME := FText key]>
                   (fs s))
                (trace s ++ key_fetch_events E)))
  /\ (forall c,
        fs s !! _generate_filepath E _TOKEN_FILENAME
        = Some (FPickle (Some c)) ->
        valid c = false ->
        obtain_creds E s
        = (if expired c
           then (match refresh E (trace s) c with
                 | Ok c' => Ok (Some c')
                 | Raise e => Raise e
                 end, with_events s [EvRefresh c])
           else (Ok (Some c), s))
        /\ filter is_key_storage (events_of (obtain_creds E) s) = [])
  /\ (forall text,
        fs s !! _generate_filepath E _TOKEN_FILENAME = Some (FText text) ->
        exists e, obtain_creds E s = (Raise e, s)).
Proof.
  split_and!.
  - intros Hcache.
    assert (obtain_creds E s = _fetch_creds E _CREDENTIALS_FILENAME s)
      as Hrun.
    { unfold obtain_creds, _check_creds. unfold_m.
      destruct Hcache as [-> | ->]; reflexivity. }
    split; [done|]. split.
    { unfold events_of. rewrite Hrun.
      destruct (_fetch_creds E _CREDENTIALS_FILENAME s) as [r s'] eqn:Hf.
      apply _fetch_creds_trace in Hf as (evs & Ht & _).
      unfold new_events. cbn. by rewrite Ht, drop_app_length. }
    split; [reflexivity|].
    intros key c Hblob Hload Hparse. rewrite Hrun.
    unfold _fetch_creds, _get_credentials_json. unfold_m. cbn.
    unfold key_fetch_events in *. cbn [take] in Hparse, Hload.
    rewrite Hblob. cbn. rewrite Hload. cbn. rewrite lookup_insert_eq. cbn.
    rewrite <- app_assoc. cbn [app]. rewrite Hparse. cbn.
    rewrite <- app_assoc. reflexivity.
  - intros c Hf Hv.
    assert (obtain_creds E s
            = (if expired c
               then (match refresh E (trace s) c with
                     | Ok c' => Ok (Some c')
                     | Raise e => Raise e
                     end, with_events s [EvRefresh c])
               else (Ok (Some c), s))) as Hrun.
    { unfold obtain_creds, _check_creds, with_events. unfold_m.
      rewrite Hf. cbn. rewrite Hv. cbn.
      destruct (expired c); [|done]. cbn.
      by destruct (refresh E (trace s) c). }
    split; [done|]. unfold events_of. rewrite Hrun.
    destruct (expired c); cbn [snd].
    + unfold with_events. by rewrite new_events_app.
    + by rewrite new_events_same.
  - intros text Hf. unfold obtain_creds, _check_creds. unfold_m.
    rewrite Hf. destruct text; cbn; eauto.
Qed.

Lemma fallback_only_without_cached_object_witness :
  (obtain_creds (world_env one_document) empty_state
   = _fetch_creds (world_env one_document) _CREDENTIALS_FILENAME empty_state
   /\ obtain_creds (world_env one_document) empty_state
      = (Ok (Some (mkCred "service-account-key" None false false)),
         mkSt (<[_generate_filepath (world_env one_document)
                   _CREDENTIALS_FILENAME := FText "service-account-key"]>
                 (fs empty_state))
              (trace empty_state
               ++ key_fetch_events (world_env one_document))))
  /\ obtain_creds (world_env one_document) stale_cache
     = (Ok (Some stale_cred), stale_cache)
  /\ obtain_creds (world_env one_document) expired_cache
     = (Ok (Some (mkCred "cached" (Some "refreshed") true false)),
        with_events expired_cache [EvRefresh expired_cred])
  /\ obtain_creds (revoked (world_env one_document)) expired_cache
     = (Raise (RefreshError "invalid_grant"),
        with_events expired_cache [EvRefresh expired_cred]).
Proof.
  destruct (fallback_only_without_cached_object (world_env one_document)
                                                empty_state)
    as (Hfetch & _ & _).
  destruct (fallback_only_without_cached_object (world_env one_document)
                                                stale_cache)
    as (_ & Hstale & _).
  destruct (fallback_only_without_cached_object (world_env one_document)
                                                expired_cache)
    as (_ & Hexpired & _).
  destruct (fallback_only_without_cached_object
              (revoked (world_env one_document)) expired_cache)
    as (_ & Hrevoked & _).
  destruct Hfetch as (Hrun & _ & _ & Hkey);
    [left; vm_compute; reflexivity|].
  split_and!.
  - exact Hrun.
  - apply Hkey; reflexivity.
  - apply (Hstale stale_cred); [vm_compute; reflexivity|reflexivity].
  - apply (Hexpired expired_cred); [vm_compute; reflexivity|reflexivity].
  - apply (Hrevoked expired_cred); [vm_compute; reflexivity|reflexivity].
Defined.

(** ** Ensuring datasets and tables *)

Lemma _get_bq_dataset_run (E : Env) (bq_client : Client) (s : St)
    (dataset_name : string) :
  _get_bq_dataset E bq_client dataset_name s =
  match get_dataset E (trace s) dataset_name with
  | Ok dataset =>
      (Ok (Some dataset), with_events s [EvBqGetDataset dataset_name])
  | Raise (NotFound msg) =>
      let logged :=
        [ EvBqGetDataset dataset_name; EvLogWarning msg;
          EvLogInfo ("Creating dataset: " +:+ dataset_name) ] in
      (match create_dataset E (trace s ++ logged) dataset_name with
       | Ok dataset => Ok (Some dataset)
       | Raise e => Raise e
       end,
       with_events s (logged ++ [EvBqCreateDataset dataset_name]))
  | Raise (Forbidden msg) =>
      (Ok None, with_events s [EvBqGetDataset dataset_name; EvLogError msg])
  | Raise e => (Raise e, with_events s [EvBqGetDataset dataset_name])
  end.
Proof.
  unfold _get_bq_dataset, with_events. unfold_m.
  destruct (get_dataset E (trace s) dataset_name) as [d|[]]; cbn;
    rewrite <- ?app_assoc; cbn [app]; try reflexivity.
  destruct (create_dataset _ _ _); reflexivity.
Qed.

Lemma _get_bq_table_run (E : Env) (bq_client : Client) (s : St)
    (dataset_name table_name : string) :
  let full_table_name := table_full_name dataset_name table_name in
  _get_bq_table E bq_client dataset_name table_name s =
  match get_table E (trace s) full_table_name with
  | Ok table =>
      (Ok (Some table), with_events s [EvBqGetTable full_table_name])
  | Raise (NotFound msg) =>
      let logged :=
        [ EvBqGetTable full_table_name; EvLogWarning msg;
          EvLogInfo ("Creating table: " +:+ full_table_name) ] in
      (match create_table E (trace s ++ logged) full_table_name with
       | Ok table => Ok (Some table)
       | Raise e => Raise e
       end,
       with_events s (logged ++ [EvBqCreateTable full_table_name]))
  | Raise (Forbidden msg) =>
      (Ok None, with_events s [EvBqGetTable full_table_name; EvLogError msg])
  | Raise e => (Raise e, with_events s [EvBqGetTable full_table_name])
  end.
Proof.
  cbv zeta. unfold _get_bq_table, table_full_name, with_events. unfold_m.
  destruct (get_table E (trace s) _) as [d|[]]; cbn;
    rewrite <- ?app_assoc; cbn [app]; try reflexivity.
  destruct (create_table _ _ _); reflexivity.
Qed.

(** C5.  An ensure operation on a dataset or on a table has these outcomes
    and no other.  The lookup succeeds: its handle is returned.  The lookup
    answers not-found: a warning and an info line are logged, the resource
    is created under the same name and the handle that creation gives is
    returned (an exception of the creation itself propagates).  The lookup
    answers forbidden: the error is logged and the null handle is returned
    without an exception.  Any other exception of the lookup propagates;
    the operation has no handler for it. *)
Theorem ensure_outcomes (E : Env) (bq_client : Client) (s : St) :
  (forall dataset_name : string,
     _get_bq_dataset E bq_client dataset_name s =
     match get_dataset E (trace s) dataset_name with
     | Ok dataset =>
         (Ok (Some dataset), with_events s [EvBqGetDataset dataset_name])
     | Raise (NotFound msg) =>
         let logged :=
           [ EvBqGetDataset dataset_name; EvLogWarning msg;
             EvLogInfo ("Creating dataset: " +:+ dataset_name) ] in
         (match create_dataset E (trace s ++ logged) dataset_name with
          | Ok dataset => Ok (Some dataset)
          | Raise e => Raise e
          end,
          with_events s (logged ++ [EvBqCreateDataset dataset_name]))
     | Raise (Forbidden msg) =>
         (Ok None, with_events s [EvBqGetDataset dataset_name; EvLogError msg])
     | Raise e => (Raise e, with_events s [EvBqGetDataset dataset_name])
     end)
  /\ (forall dataset_name table_name : string,
        let full_table_name :=
          dataset_name +:+ "." +:+ str_replace "-" "_" table_name in
        _get_bq_table E bq_client dataset_name table_name s =
        match get_table E (trace s) full_table_name with
        | Ok table =>
            (Ok (Some table), with_events s [EvBqGetTable full_table_name])
        | Raise (NotFound msg) =>
            let logged :=
              [ EvBqGetTable full_table_name; EvLogWarning msg;
                EvLogInfo ("Creating table: " +:+ full_table_name) ] in
            (match create_table E (trace s ++ logged) full_table_name with
             | Ok table => Ok (Some table)
             | Raise e => Raise e
             end,
             with_events s (logged ++ [EvBqCreateTable full_table_name]))
        | Raise (Forbidden msg) =>
            (Ok None,
             with_events s [EvBqGetTable full_table_name; EvLogError msg])
        | Raise e => (Raise e, with_events s [EvBqGetTable full_table_name])
        end).
Proof.
  split.
  - intros dataset_name. apply _get_bq_dataset_run.
  - intros dataset_name table_name. apply _get_bq_table_run.
Qed.

Lemma str_replace_no_old (old new : ascii) (s : string) :
  old <> new -> has_char old (str_replace old new s) = false.
Proof.
  intros Hne. induction s as [|c s IH]; [done|].
  cbn [str_replace has_char]. rewrite IH, orb_false_r.
  destruct (Ascii.eqb_spec c old) as [->|Hc].
  - apply Ascii.eqb_neq. congruence.
  - by apply Ascii.eqb_neq.
Qed.

Lemma events_of_with_events {A} (m : M A) (s : St) (r : Res A) evs :
  m s = (r, with_events s evs) -> events_of m s = evs.
Proof. intros H. unfold events_of. rewrite H. apply new_events_app. Qed.

(** C4.  Whatever table name is asked for, the name that [_get_bq_table]
    sends to the warehouse, in its lookup and in a creation that follows,
    is the dataset name, a dot and the asked name with every hyphen
    replaced by an underscore: that part holds no hyphen.  For the sheet
    capacity-plan and the run timestamp 202401011200 the history table is
    asked for as capacity-plan_202401011200 and looked up as
    capacity_plan_202401011200. *)
Theorem table_name_normalized (E : Env) (bq_client : Client)
    (dataset_name table_name : string) (s : St) :
  let normal := str_replace "-" "_" table_name in
  has_char "-" normal = false
  /\ (exists more,
        remote_table_names
          (events_of (_get_bq_table E bq_client dataset_name table_name) s)
        = (dataset_name +:+ "." +:+ normal) :: more
        /\ Forall (eq (dataset_name +:+ "." +:+ normal)) more)
  /\ strftime_YmdHM noon = "202401011200"
  /\ name capacity_plan +:+ "_" +:+ "202401011200"
     = "capacity-plan_202401011200"
  /\ str_replace "-" "_" "capacity-plan_202401011200"
     = "capacity_plan_202401011200"
  /\ table_lookups
       (events_of (_fetch_and_load_data (world_env one_document) capacity_plan
                     (mkClient "sheets" fresh_cred)
                     (mkClient "bigquery" fresh_cred)
                     "202401011200") empty_state)
     = [ "sheets_to_bq.capacity_plan";
         "sheets_to_bq_history.capacity_plan_202401011200" ].
Proof.
  cbv zeta. split; [by apply str_replace_no_old|].
  split.
  { pose proof (_get_bq_table_run E bq_client s dataset_name table_name) as H.
    cbv zeta in H. unfold table_full_name in H.
    destruct (get_table E (trace s) _) as [t|[]];
      rewrite (events_of_with_events _ _ _ _ H); cbn;
      eexists; (split; [reflexivity|]); repeat constructor. }
  repeat split; vm_compute; reflexivity.
Qed.

(** ** The events of a run that completes *)

Lemma bind_ok_inv {A B} (m : M A) (k : A -> M B) s b s' :
  bind m k s = (Ok b, s') ->
  exists a s1, m s = (Ok a, s1) /\ k a s1 = (Ok b, s').
Proof.
  unfold bind. destruct (m s) as [[a|e] s1]; [|done]. eauto.
Qed.

Ltac invert_binds :=
  repeat match goal with
  | H : bind _ _ _ = (Ok _, _) |- _ =>
      let a := fresh "a" in let s := fresh "s" in let Hm := fresh "Hm" in
      apply bind_ok_inv in H as (a & s & Hm & H)
  end.

Lemma skeleton_app evs1 evs2 :
  skeleton (evs1 ++ evs2) = skeleton evs1 ++ skeleton evs2.
Proof. apply filter_app. Qed.

Lemma skeleton_cons x l :
  skeleton (x :: l) = if quiet x then skeleton l else x :: skeleton l.
Proof. unfold skeleton. rewrite filter_cons. by destruct (quiet x). Qed.

Ltac close_ensure :=
  cbn; rewrite <- ?app_assoc; cbn [app];
  repeat (eexists; split; [reflexivity|]); reflexivity.

Lemma _get_bq_dataset_ok E bq n s d s' :
  _get_bq_dataset E bq n s = (Ok d, s') ->
  exists evs, trace s' = trace s ++ evs /\ ensure_events n evs.
Proof.
  unfold _get_bq_dataset, ensure_events. unfold_m.
  destruct (get_dataset E (trace s) n) as [x|[]]; cbn; try done.
  - intros [= <- <-]. close_ensure.
  - intros [= <- <-]. close_ensure.
  - destruct (create_dataset _ _ _); intros [= <- <-]. close_ensure.
Qed.

Lemma _get_bq_table_ok E bq ds tn s t s' :
  _get_bq_table E bq ds tn s = (Ok t, s') ->
  exists tail,
    trace s' = trace s ++ EvBqGetTable (table_full_name ds tn) :: tail
    /\ skeleton tail = [].
Proof.
  unfold _get_bq_table, table_full_name. unfold_m.
  destruct (get_table E (trace s) _) as [x|[]]; cbn; try done.
  - intros [= <- <-]. close_ensure.
  - intros [= <- <-]. close_ensure.
  - destruct (create_table _ _ _); intros [= <- <-]. close_ensure.
Qed.

Lemma _load_data_ok E bq t path s st s' :
  _load_data E bq t path s = (Ok st, s') ->
  exists data, trace s' = trace s ++ [EvBqLoad t data load_config].
Proof.
  unfold _load_data. unfold_m. destruct (fs s !! path); [|done].
  intros [= _ <-]. cbn. eauto.
Qed.

Lemma _fetch_sheet_values_ok E sc i r s v s' :
  _fetch_sheet_values E sc i r s = (Ok v, s') ->
  trace s' = trace s ++ [EvSheetsGet i r].
Proof.
  unfold _fetch_sheet_values. unfold_m.
  destruct (sheets_values_get _ _ _ _); [|done]. by intros [= _ <-].
Qed.

Lemma _write_to_tmp_trace E v p s r s' :
  _write_to_tmp E v p s = (r, s') -> trace s' = trace s.
Proof.
  unfold _write_to_tmp. unfold_m.
  destruct (open_for_writing E (trace s) p); [|by intros [= _ <-]].
  cbn [trace fs].
  destruct (csv_writerows _ _); [|by intros [= _ <-]].
  destruct (text_written _ _ _ _) as [[n e]|]; by intros [= _ <-].
Qed.

Lemma _save_creds_trace E c f s r s' :
  _save_creds E c f s = (r, s') -> trace s' = trace s.
Proof.
  unfold _save_creds. unfold_m.
  destruct (open_for_writing E (trace s) _); by intros [= _ <-].
Qed.

Lemma _delete_tmp_ok p s r s' :
  _delete_tmp p s = (r, s') ->
  exists tail, trace s' = trace s ++ tail /\ skeleton tail = [].
Proof.
  unfold _delete_tmp. unfold_m. destruct (fs s !! p); cbn.
  - intros [= _ <-]. exists []. cbn. by rewrite app_nil_r.
  - intros [= _ <-]. cbn. eauto.
Qed.

Lemma get_dataset_id_ok d s i s' :
  get_dataset_id d s = (Ok i, s') -> s' = s.
Proof. destruct d; cbn; unfold_m; by intros [= ]. Qed.

(** One document, when it goes through: its requests are those of
    [doc_skeleton], in that order. *)
Lemma _fetch_and_load_data_ok E sheet sc bq ts s s' :
  _fetch_and_load_data E sheet sc bq ts s = (Ok tt, s') ->
  exists evs ds hist t1 t2 d1 d2,
    trace s' = trace s ++ evs
    /\ skeleton evs = doc_skeleton sheet ts ds hist t1 t2 d1 d2.
Proof.
  unfold _fetch_and_load_data. intros H. invert_binds.
  apply _fetch_sheet_values_ok in Hm.
  apply _write_to_tmp_trace in Hm0.
  apply _get_bq_dataset_ok in Hm1 as (e1 & He1 & tl1 & -> & Hq1).
  apply get_dataset_id_ok in Hm2 as ->.
  apply _get_bq_table_ok in Hm3 as (tl2 & He2 & Hq2).
  apply _load_data_ok in Hm4 as (d1 & He3).
  apply _get_bq_dataset_ok in Hm5 as (e4 & He4 & tl4 & -> & Hq4).
  apply get_dataset_id_ok in Hm6 as ->.
  apply _get_bq_table_ok in Hm7 as (tl5 & He5 & Hq5).
  apply _load_data_ok in Hm8 as (d2 & He6).
  apply _delete_tmp_ok in H as (tl6 & He7 & Hq6).
  eexists _, a2, a6, a3, a7, d1, d2. split.
  - rewrite He7, He6, He5, He4, He3, He2, He1, Hm0, Hm.
    rewrite <- !app_assoc. reflexivity.
  - rewrite !skeleton_app, !skeleton_cons. cbn [quiet].
    rewrite Hq1, Hq2, Hq4, Hq5, Hq6. reflexivity.
Qed.

Lemma for_each_docs_ok E sc bq ts sheets : forall s s',
  for_each sheets (fun sheet => _fetch_and_load_data E sheet sc bq ts) s
  = (Ok tt, s') ->
  exists evs, trace s' = trace s ++ evs /\ docs_events ts sheets evs.
Proof.
  induction sheets as [|sheet sheets IH]; intros s s' H.
  - cbn in H. injection H as <-. exists []. split; [by rewrite app_nil_r|].
    constructor.
  - cbn [for_each] in H. invert_binds. destruct a.
    apply _fetch_and_load_data_ok in Hm
      as (evs & ds & hist & t1 & t2 & d1 & d2 & Ht & Hsk).
    apply IH in H as (rest & Hr & Hdocs).
    exists (evs ++ rest). split.
    + by rewrite Hr, Ht, <- app_assoc.
    + econstructor; eassumption.
Qed.

(** A run that returns the success message: credential events, the three
    clients, the two ensure steps, the clock, the listing, the documents. *)
Lemma sheets_to_bq_ok E request s msg s' :
  sheets_to_bq E request s = (Ok (Some msg), s') ->
  exists creds_evs e1 e2 sheets docs,
    let pre := creds_evs ++ client_events ++ e1 ++ e2 in
    let timestamp := strftime_YmdHM (now E (trace s ++ pre)) in
    trace s' = trace s ++ pre ++ EvNow :: EvDriveList drive_query :: docs
    /\ forallb is_credential creds_evs = true
    /\ ensure_events _BQ_DATASET e1
    /\ ensure_events history_dataset_name e2
    /\ drive_files_list E (trace s ++ pre ++ [EvNow]) drive_query = Ok sheets
    /\ docs_events timestamp sheets docs.
Proof.
  unfold sheets_to_bq. intros H.
  apply bind_ok_inv in H as (creds & s1 & Hcreds & H).
  apply obtain_creds_trace in Hcreds as (cevs & Ht1 & Hc1).
  destruct creds as [creds|].
  2:{ apply bind_ok_inv in H as (? & ? & _ & H). destruct request.
      - apply bind_ok_inv in H as (? & ? & _ & H). discriminate H.
      - apply bind_ok_inv in H as (? & ? & _ & H). discriminate H. }
  invert_binds.
  assert (trace s0 = trace s1 ++ [EvBuild _DRIVE_SERVICE_NAME
                                          _DRIVE_SERVICE_API_VERSION]) as Ht2.
  { revert Hm. unfold _drive_client. unfold_m.
    destruct (build E _ _ _ _); [|done]. by intros [= _ <-]. }
  assert (trace s2 = trace s0 ++ [EvBuild _SHEETS_SERVICE_NAME
                                          _SHEETS_SERVICE_API_VERSION]) as Ht3.
  { revert Hm0. unfold _sheets_client. unfold_m.
    destruct (build E _ _ _ _); [|done]. by intros [= _ <-]. }
  assert (trace s3 = trace s2 ++ [EvBqClient]) as Ht4.
  { revert Hm1. unfold _bq_client. unfold_m.
    destruct (bq_Client E _ _); [|done]. by intros [= _ <-]. }
  apply _get_bq_dataset_ok in Hm2 as (e1 & Ht5 & He1).
  apply _get_bq_dataset_ok in Hm3 as (e2 & Ht6 & He2).
  assert (a4 = strftime_YmdHM (now E (trace s5))
          /\ trace s6 = trace s5 ++ [EvNow]) as [-> Ht7].
  { revert Hm4. unfold_m. by intros [= <- <-]. }
  assert (drive_files_list E (trace s6) drive_query = Ok a5
          /\ trace s7 = trace s6 ++ [EvDriveList drive_query]) as [Hlist Ht8].
  { revert Hm5. unfold _shared_sheet_files. unfold_m. by intros [= <- <-]. }
  destruct a6. apply for_each_docs_ok in Hm6 as (docs & Ht9 & Hdocs).
  assert (trace s' = trace s8) as Ht10.
  { revert Hm7 Hm8 H. unfold observe_cred, ret.
    intros [= <- <-] Hsave [= _ <-].
    destruct (token_truthy _); [by apply _save_creds_trace in Hsave|].
    revert Hsave. by intros [= _ <-]. }
  assert (trace s5 = trace s ++ cevs ++ client_events ++ e1 ++ e2) as Hpre.
  { rewrite Ht6, Ht5, Ht4, Ht3, Ht2, Ht1. unfold client_events.
    rewrite <- !app_assoc. reflexivity. }
  exists cevs, e1, e2, a5, docs. cbv zeta.
  rewrite <- Hpre. repeat split; try assumption.
  - rewrite Ht10, Ht9, Ht8, Ht7, Hpre. rewrite <- !app_assoc. reflexivity.
  - rewrite Ht7, Hpre in Hlist. rewrite <- app_assoc in Hlist. exact Hlist.
Qed.

(** ** Counting the events of a run *)

Lemma count_events_app p evs1 evs2 :
  count_events p (evs1 ++ evs2) = count_events p evs1 + count_events p evs2.
Proof. unfold count_events. by rewrite filter_app, length_app. Qed.

Lemma count_events_cons p ev evs :
  count_events p (ev :: evs)
  = (if p ev then 1 else 0) + count_events p evs.
Proof.
  unfold count_events. rewrite filter_cons. by destruct (p ev).
Qed.

Lemma count_events_forallb (p q : Event -> bool) evs :
  (forall ev, p ev = true -> q ev = false) ->
  forallb p evs = true -> count_events q evs = 0.
Proof.
  intros Hpq. induction evs as [|ev evs IH]; [done|].
  cbn [forallb]. intros [Hp Hall]%andb_true_iff.
  rewrite count_events_cons, (Hpq _ Hp). by apply IH.
Qed.

Lemma count_events_skeleton (q : Event -> bool) evs :
  (forall ev, q ev = true -> quiet ev = false) ->
  count_events q evs = count_events q (skeleton evs).
Proof.
  intros Hq. induction evs as [|ev evs IH]; [done|].
  rewrite skeleton_cons, count_events_cons.
  destruct (quiet ev) eqn:Hquiet.
  - destruct (q ev) eqn:Hqev; [|done].
    apply Hq in Hqev. congruence.
  - by rewrite count_events_cons, IH.
Qed.



Lemma count_events_ensure (q : Event -> bool) n evs :
  (forall ev, q ev = true -> quiet ev = false) ->
  ensure_events n evs ->
  count_events q evs = if q (EvBqGetDataset n) then 1 else 0.
Proof.
  intros Hq (tail & -> & Htail).
  rewrite count_events_cons, (count_events_skeleton q tail Hq), Htail.
  cbn. lia.
Qed.

Lemma count_events_docs (q : Event -> bool) (k : nat) ts sheets docs :
  (forall ev, q ev = true -> quiet ev = false) ->
  (forall sheet ds hist t1 t2 d1 d2,
     count_events q (doc_skeleton sheet ts ds hist t1 t2 d1 d2) = k) ->
  docs_events ts sheets docs ->
  count_events q docs = k * length sheets.
Proof.
  intros Hq Hk.
  induction 1 as [|sheet sheets evs rest ds hist t1 t2 d1 d2 Hsk _ IH].
  - cbn. lia.
  - rewrite count_events_app, IH, (count_events_skeleton q evs Hq), Hsk, Hk.
    cbn [length]. lia.
Qed.


Lemma loud_lookup n ev : is_dataset_lookup n ev = true -> quiet ev = false.
Proof. by destruct ev. Qed.


Lemma loud_enumeration ev : is_enumeration ev = true -> quiet ev = false.
Proof. by destruct ev. Qed.

Lemma docs_primary_lookups ts sheets docs :
  docs_events ts sheets docs ->
  count_events (is_dataset_lookup _BQ_DATASET) docs = length sheets.
Proof.
  intros Hd.
  rewrite (count_events_docs (is_dataset_lookup _BQ_DATASET) 1 ts sheets docs
             (loud_lookup _) ltac:(intros; reflexivity) Hd).
  lia.
Qed.

Lemma docs_history_lookups ts sheets docs :
  docs_events ts sheets docs ->
  count_events (is_dataset_lookup history_dataset_name) docs = length sheets.
Proof.
  intros Hd.
  rewrite (count_events_docs (is_dataset_lookup history_dataset_name) 1 ts
             sheets docs (loud_lookup _) ltac:(intros; reflexivity) Hd).
  lia.
Qed.












(** The claim that each dataset is ensured exactly once per run fails on a
    run with one document: each dataset is looked up twice. *)
Lemma datasets_ensured_again_per_document :
  result_of (sheets_to_bq (world_env one_document) None) empty_state
  = Ok (Some "DONE: imported all sheets")
  /\ count_events (is_dataset_lookup _BQ_DATASET)
       (events_of (sheets_to_bq (world_env one_document) None) empty_state)
     = 2
  /\ count_events (is_dataset_lookup history_dataset_name)
       (events_of (sheets_to_bq (world_env one_document) None) empty_state)
     = 2.
Proof. repeat split; vm_compute; reflexivity. Qed.

(** C1, amended.  In a run that obtains a credential and completes, the
    primary dataset and the history dataset are each ensured once before
    the documents are listed, and then once more for every document that
    is processed: with [n] documents listed, each dataset is looked up once
    before the listing and [n] times after it. *)
Theorem datasets_ensured_per_run_and_per_document (E : Env)
    (request : option Request) (s s' : St) (msg : string) :
  sheets_to_bq E request s = (Ok (Some msg), s') ->
  exists before after sheets,
    new_events s s' = before ++ EvDriveList drive_query :: after
    /\ drive_files_list E (trace s ++ before) drive_query = Ok sheets
    /\ count_events is_enumeration before = 0
    /\ count_events (is_dataset_lookup _BQ_DATASET) before = 1
    /\ count_events (is_dataset_lookup history_dataset_name) before = 1
    /\ count_events (is_dataset_lookup _BQ_DATASET) after = length sheets
    /\ count_events (is_dataset_lookup history_dataset_name) after
       = length sheets.
Proof.
  intros (cevs & e1 & e2 & sheets & docs & Ht & Hc & He1 & He2 & Hl & Hd)
    %sheets_to_bq_ok.
  cbv zeta in *.
  exists ((cevs ++ client_events ++ e1 ++ e2) ++ [EvNow]), docs, sheets.
  split.
  { unfold new_events. rewrite Ht, drop_app_length, <- !app_assoc. done. }
  split; [exact Hl|].
  rewrite !count_events_app.
  rewrite !(count_events_forallb is_credential _ cevs)
    by (done || by intros []).
  rewrite !(count_events_ensure _ _ e1) by (done || by intros []).
  rewrite !(count_events_ensure _ _ e2) by (done || by intros []).
  rewrite (docs_primary_lookups _ _ _ Hd), (docs_history_lookups _ _ _ Hd).
  repeat split; cbn; lia.
Qed.

Lemma datasets_ensured_witness :
  exists before after sheets,
    new_events empty_state
               (snd (sheets_to_bq (world_env one_document) None empty_state))
    = before ++ EvDriveList drive_query :: after
    /\ drive_files_list (world_env one_document)
                        (trace empty_state ++ before) drive_query = Ok sheets
    /\ count_events is_enumeration before = 0
    /\ count_events (is_dataset_lookup _BQ_DATASET) before = 1
    /\ count_events (is_dataset_lookup history_dataset_name) before = 1
    /\ count_events (is_dataset_lookup _BQ_DATASET) after = length sheets
    /\ count_events (is_dataset_lookup history_dataset_name) after
       = length sheets.
Proof.
  apply (datasets_ensured_per_run_and_per_document
           (world_env one_document) None empty_state _ done_message).
  vm_compute. reflexivity.
Defined.

(** ** The clock in runs of any outcome *)

Section Silent.
Context (p : Event -> bool).

Lemma silent_same {A} (m : M A) :
  (forall s, trace (snd (m s)) = trace s) -> silent p m.
Proof. intros H s. exists []. by rewrite H, app_nil_r. Qed.

Lemma silent_ret {A} (a : A) : silent p (ret a).
Proof. by apply silent_same. Qed.

Lemma silent_raise {A} (e : Exn) : silent p (@raise A e).
Proof. by apply silent_same. Qed.

Lemma silent_read_file path : silent p (read_file path).
Proof. by apply silent_same. Qed.

Lemma silent_store_file path d : silent p (store_file path d).
Proof. by apply silent_same. Qed.

Lemma silent_open_w E path : silent p (open_w E path).
Proof.
  apply silent_same. intros s. unfold open_w.
  by destruct (open_for_writing E (trace s) path).
Qed.

Lemma silent_write_text E path text : silent p (write_text E path text).
Proof.
  apply silent_same. intros s. unfold write_text.
  by destruct (text_written E (trace s) path text) as [[n e]|].
Qed.

Lemma silent_remove_file path : silent p (remove_file path).
Proof. by apply silent_same. Qed.

Lemma silent_emit ev : p ev = false -> silent p (emit ev).
Proof.
  intros Hp s. exists [ev]. split; [done|].
  by rewrite count_events_cons, Hp.
Qed.

Lemma silent_call {A} ev (answer : list Event -> Res A) :
  p ev = false -> silent p (call ev answer).
Proof.
  intros Hp s. exists [ev]. split; [done|].
  by rewrite count_events_cons, Hp.
Qed.

Lemma silent_bind {A B} (m : M A) (k : A -> M B) :
  silent p m -> (forall a, silent p (k a)) -> silent p (bind m k).
Proof.
  intros Hm Hk s. destruct (Hm s) as (evs1 & Ht1 & Hc1). unfold bind.
  destruct (m s) as [[a|e] s1]; cbn in *; [|eauto].
  destruct (Hk a s1) as (evs2 & Ht2 & Hc2).
  exists (evs1 ++ evs2). rewrite Ht2, Ht1, <- app_assoc.
  split; [done|]. rewrite count_events_app. lia.
Qed.

Lemma silent_try_except {A} (m : M A) (h : Exn -> option (M A)) :
  silent p m -> (forall e k, h e = Some k -> silent p k) ->
  silent p (try_except m h).
Proof.
  intros Hm Hh s. destruct (Hm s) as (evs1 & Ht1 & Hc1). unfold try_except.
  destruct (m s) as [[a|e] s1]; cbn in *; [eauto|].
  destruct (h e) as [k|] eqn:He; [|eauto].
  destruct (Hh e k He s1) as (evs2 & Ht2 & Hc2).
  exists (evs1 ++ evs2). rewrite Ht2, Ht1, <- app_assoc.
  split; [done|]. rewrite count_events_app. lia.
Qed.

Lemma silent_for_each {A} (xs : list A) (body : A -> M unit) :
  (forall x, silent p (body x)) -> silent p (for_each xs body).
Proof.
  intros Hb. induction xs as [|x xs IH]; cbn [for_each].
  - apply silent_ret.
  - apply silent_bind; [apply Hb|]. intros _. apply IH.
Qed.

Lemma silent_at_most_once {A} (m : M A) : silent p m -> at_most_once p m.
Proof.
  intros Hm s. destruct (Hm s) as (evs & Ht & Hc). exists evs.
  split; [done|]. lia.
Qed.

Lemma at_most_once_after {A B} (m : M A) (k : A -> M B) :
  silent p m -> (forall a, at_most_once p (k a)) ->
  at_most_once p (bind m k).
Proof.
  intros Hm Hk s. destruct (Hm s) as (evs1 & Ht1 & Hc1). unfold bind.
  destruct (m s) as [[a|e] s1]; cbn in *.
  - destruct (Hk a s1) as (evs2 & Ht2 & Hc2).
    exists (evs1 ++ evs2). rewrite Ht2, Ht1, <- app_assoc.
    split; [done|]. rewrite count_events_app. lia.
  - exists evs1. split; [done|]. lia.
Qed.

Lemma at_most_once_call {A B} ev (answer : list Event -> Res A)
    (k : A -> M B) :
  (forall a, silent p (k a)) -> at_most_once p (bind (call ev answer) k).
Proof.
  intros Hk s. unfold bind, call.
  destruct (answer (trace s)) as [a|e]; cbn.
  - destruct (Hk a (mkSt (fs s) (trace s ++ [ev]))) as (evs2 & Ht2 & Hc2).
    exists (ev :: evs2). rewrite Ht2. cbn [trace snd].
    rewrite <- app_assoc.
    split; [done|]. rewrite count_events_cons. destruct (p ev); lia.
  - exists [ev]. split; [done|]. rewrite count_events_cons.
    destruct (p ev); cbn; lia.
Qed.
End Silent.

Ltac silent_step :=
  lazymatch goal with
  | |- silent _ (bind _ _) => apply silent_bind; [|intros ?]
  | |- silent _ (ret _) => apply silent_ret
  | |- silent _ (raise _) => apply silent_raise
  | |- silent _ (emit _) => apply silent_emit; reflexivity
  | |- silent _ (call _ _) => apply silent_call; reflexivity
  | |- silent _ (read_file _) => apply silent_read_file
  | |- silent _ (store_file _ _) => apply silent_store_file
  | |- silent _ (open_w _ _) => apply silent_open_w
  | |- silent _ (write_text _ _ _) => apply silent_write_text
  | |- silent _ (remove_file _) => apply silent_remove_file
  | |- silent _ (for_each _ _) => apply silent_for_each; intros ?
  | |- silent _ (try_except _ _) =>
      apply silent_try_except;
      [|let e := fresh "e" in let k := fresh "k" in let He := fresh "He" in
        intros e k He; destruct e; cbn in He; try discriminate He;
        injection He as <-]
  | |- silent _ (match ?x with _ => _ end) => destruct x
  end.

Ltac silent_run := repeat silent_step.

Lemma silent_get_bq_dataset E bq n :
  silent is_now (_get_bq_dataset E bq n).
Proof. unfold _get_bq_dataset. silent_run. Qed.

Lemma silent_get_bq_table E bq ds tn :
  silent is_now (_get_bq_table E bq ds tn).
Proof. unfold _get_bq_table. silent_run. Qed.

Lemma silent_obtain_creds E : silent is_now (obtain_creds E).
Proof.
  unfold obtain_creds, _check_creds, _fetch_creds, _get_credentials_json,
    pickle_load.
  silent_run.
Qed.

Lemma silent_fetch_and_load_data E sheet sc bq ts :
  silent is_now (_fetch_and_load_data E sheet sc bq ts).
Proof.
  unfold _fetch_and_load_data, _fetch_sheet_values, _write_to_tmp,
    _load_data, _delete_tmp, get_dataset_id.
  repeat first [apply silent_get_bq_dataset | apply silent_get_bq_table
               | silent_step].
Qed.

(** Whatever the outcome of a run, the clock is read at most once in it. *)
Lemma clock_read_at_most_once E request :
  at_most_once is_now (sheets_to_bq E request).
Proof.
  unfold sheets_to_bq.
  apply at_most_once_after; [apply silent_obtain_creds|]. intros [creds|].
  2:{ apply silent_at_most_once. silent_run. }
  unfold _drive_client, _sheets_client, _bq_client.
  repeat (apply at_most_once_after;
          [first [apply silent_get_bq_dataset | solve [silent_run]]
          |intros ?]).
  apply at_most_once_call. intros timestamp.
  unfold _shared_sheet_files, observe_cred, _save_creds.
  repeat first [apply silent_fetch_and_load_data | silent_step].
  by apply silent_same.
Qed.

(** Before the year 1000 the year has fewer than four digits, and the stamp
    fewer than twelve characters. *)
Example stamp_of_an_early_year :
  strftime_YmdHM (mkDateTime 999 12 31 23 59 0) = "99912312359".
Proof. vm_compute. reflexivity. Qed.




Lemma _get_bq_table_first E bq ds tn s :
  head (events_of (_get_bq_table E bq ds tn) s)
  = Some (EvBqGetTable (table_full_name ds tn)).
Proof.
  unfold events_of, _get_bq_table, table_full_name, new_events.
  unfold_m.
  destruct (get_table E (trace s) _) as [t|[]]; cbn;
    try destruct (create_table E _ _); cbn;
    rewrite <- ?app_assoc, drop_app_length; reflexivity.
Qed.

(** C9.  The names a-b and a_b are different, yet [_get_bq_table] looks up
    the same table for both, in every world.  In a run over two documents
    with these names the primary table a_b is loaded twice, first with the
    first document's rows and then with the second's; every load being
    truncate-and-replace, the table ends up holding the second document's
    rows only, and nothing is logged as an error. *)
Theorem hyphen_underscore_names_share_a_table :
  "a-b" <> "a_b"
  /\ (forall E bq ds s,
        head (events_of (_get_bq_table E bq ds "a-b") s)
        = head (events_of (_get_bq_table E bq ds "a_b") s)
        /\ head (events_of (_get_bq_table E bq ds "a_b") s)
           = Some (EvBqGetTable (ds +:+ ".a_b")))
  /\ fst clashing_run = Ok (Some "DONE: imported all sheets")
  /\ loads_into (trace (snd clashing_run)) (mkTable "sheets_to_bq.a_b")
     = [staged first_values; staged second_values]
  /\ table_data (trace (snd clashing_run)) (mkTable "sheets_to_bq.a_b")
     = Some (staged second_values)
  /\ staged first_values <> staged second_values
  /\ count_events is_error_log (trace (snd clashing_run)) = 0.
Proof.
  split; [done|]. split.
  { intros E bq ds s. rewrite !_get_bq_table_first. done. }
  repeat split; try (vm_compute; reflexivity).
  vm_compute. discriminate.
Qed.

(** ** Further properties of the program *)

Lemma keeps_files_run {A} (m : M A) s r s' :
  keeps_files m -> m s = (r, s') -> fs s' = fs s.
Proof. intros H Hm. specialize (H s). by rewrite Hm in H. Qed.

Lemma keeps_files_ret {A} (a : A) : keeps_files (ret a).
Proof. done. Qed.

Lemma keeps_files_raise {A} e : keeps_files (@raise A e).
Proof. done. Qed.

Lemma keeps_files_emit ev : keeps_files (emit ev).
Proof. done. Qed.

Lemma keeps_files_call {A} ev (answer : list Event -> Res A) :
  keeps_files (call ev answer).
Proof. done. Qed.

Lemma keeps_files_read_file path : keeps_files (read_file path).
Proof. done. Qed.

Lemma keeps_files_bind {A B} (m : M A) (k : A -> M B) :
  keeps_files m -> (forall a, keeps_files (k a)) -> keeps_files (bind m k).
Proof.
  intros Hm Hk s. specialize (Hm s). unfold bind.
  destruct (m s) as [[a|e] s1]; cbn in *; [|done].
  by rewrite Hk.
Qed.

Lemma keeps_files_try_except {A} (m : M A) (h : Exn -> option (M A)) :
  keeps_files m -> (forall e k, h e = Some k -> keeps_files k) ->
  keeps_files (try_except m h).
Proof.
  intros Hm Hh s. specialize (Hm s). unfold try_except.
  destruct (m s) as [[a|e] s1]; cbn in *; [done|].
  destruct (h e) as [k|] eqn:He; [|done].
  by rewrite (Hh e k He).
Qed.

Ltac keeps_step :=
  lazymatch goal with
  | |- keeps_files (bind _ _) => apply keeps_files_bind; [|intros ?]
  | |- keeps_files (ret _) => apply keeps_files_ret
  | |- keeps_files (raise _) => apply keeps_files_raise
  | |- keeps_files (emit _) => apply keeps_files_emit
  | |- keeps_files (call _ _) => apply keeps_files_call
  | |- keeps_files (read_file _) => apply keeps_files_read_file
  | |- keeps_files (try_except _ _) =>
      apply keeps_files_try_except;
      [|let e := fresh "e" in let k := fresh "k" in let He := fresh "He" in
        intros e k He; destruct e; cbn in He; try discriminate He;
        injection He as <-]
  | |- keeps_files (match ?x with _ => _ end) => destruct x
  end.

Lemma keeps_files_get_bq_dataset E bq n : keeps_files (_get_bq_dataset E bq n).
Proof. unfold _get_bq_dataset. repeat keeps_step. Qed.

Lemma keeps_files_get_bq_table E bq ds tn :
  keeps_files (_get_bq_table E bq ds tn).
Proof. unfold _get_bq_table. repeat keeps_step. Qed.

Lemma keeps_files_load_data E bq t path : keeps_files (_load_data E bq t path).
Proof. unfold _load_data. repeat keeps_step. Qed.

Lemma keeps_files_get_dataset_id d : keeps_files (get_dataset_id d).
Proof. unfold get_dataset_id. repeat keeps_step. Qed.

Lemma keeps_files_fetch_sheet_values E sc i r :
  keeps_files (_fetch_sheet_values E sc i r).
Proof. unfold _fetch_sheet_values. repeat keeps_step. Qed.

Lemma _fetch_sheet_values_answer E sc i r s v s' :
  _fetch_sheet_values E sc i r s = (Ok v, s') ->
  exists answer,
    sheets_values_get E (trace s) i r = Ok answer /\ v = default [] answer.
Proof.
  unfold _fetch_sheet_values, bind, call, ret.
  destruct (sheets_values_get _ _ _ _) as [answer|]; [|done].
  intros [= <- _]. eauto.
Qed.

Lemma _write_to_tmp_run E values path s :
  stages E (trace s) path values ->
  _write_to_tmp E values path s
  = (Ok tt, mkSt (<[path := staged values]> (fs s)) (trace s)).
Proof.
  intros [Hopen Hwrite]. unfold _write_to_tmp, staged.
  rewrite csv_writerows_staging. unfold bind, open_w, write_text.
  rewrite Hopen. cbn [trace fs]. rewrite Hwrite.
  by rewrite insert_insert_eq.
Qed.

(** Staging that returns has opened the file and written all of the
    text. *)
Lemma _write_to_tmp_ok E values path s u s' :
  _write_to_tmp E values path s = (Ok u, s') ->
  stages E (trace s) path values
  /\ s' = mkSt (<[path := staged values]> (fs s)) (trace s).
Proof.
  unfold _write_to_tmp, stages, staged. rewrite csv_writerows_staging.
  unfold bind, open_w, write_text.
  destruct (open_for_writing E (trace s) path) as [[]|]; [|done].
  cbn [trace fs].
  destruct (text_written E (trace s) path _) as [[n e]|]; [done|].
  intros [= _ <-]. by rewrite insert_insert_eq.
Qed.

(** Staging that raises has left the other files alone; when the file could
    not be opened, the directory is as before. *)
Lemma _write_to_tmp_raise E values path s e s' :
  _write_to_tmp E values path s = (Raise e, s') ->
  trace s' = trace s
  /\ ((open_for_writing E (trace s) path = Raise e /\ fs s' = fs s)
      \/ (open_for_writing E (trace s) path = Ok tt
          /\ exists n,
               text_written E (trace s) path
                 (string_of_list_ascii (grid_text values)) = Some (n, e)
               /\ fs s'
                  = <[path := FText (substring 0 n
                                       (string_of_list_ascii
                                          (grid_text values)))]> (fs s))).
Proof.
  unfold _write_to_tmp. rewrite csv_writerows_staging.
  unfold bind, open_w, write_text.
  destruct (open_for_writing E (trace s) path) as [[]|e0].
  - cbn [trace fs].
    destruct (text_written E (trace s) path _) as [[n e1]|]; [|done].
    intros [= <- <-]. split; [done|]. right. split; [done|]. exists n.
    split; [done|]. cbn [fs]. by rewrite insert_insert_eq.
  - intros [= <- <-]. split; [done|]. by left.
Qed.

Lemma _load_data_ok_data E bq t path s st s' :
  _load_data E bq t path s = (Ok st, s') ->
  exists data,
    fs s !! path = Some data
    /\ trace s' = trace s ++ [EvBqLoad t data load_config].
Proof.
  unfold _load_data, bind, read_file, call, raise.
  destruct (fs s !! path) as [data|]; [|done].
  intros [= _ <-]. cbn. eauto.
Qed.

Lemma _delete_tmp_run path s :
  exists tail,
    _delete_tmp path s = (Ok tt, mkSt (delete path (fs s)) (trace s ++ tail))
    /\ skeleton tail = [].
Proof.
  unfold _delete_tmp, try_except, bind, read_file, remove_file, raise, emit,
    no_such_file.
  destruct (fs s !! path) as [d|] eqn:Hp; cbn.
  - exists []. by rewrite app_nil_r.
  - exists [EvLogError ("[Errno 2] No such file or directory: '" +:+ path +:+ "'")].
    by rewrite delete_id.
Qed.

(** X1.  A document step that completes.  When [_fetch_and_load_data]
    returns, the values request was answered, and the requests of the step
    are, in this order: the values request, the lookup of the primary
    dataset, the lookup of the document's table, a load, the lookup of the
    history dataset, the lookup of the time-stamped history table, a second
    load.  Both loads send the file staged from the answered values (from
    the empty grid when the answer holds no values), and at the end the
    staged file is removed from the scratch directory, every other file
    being as it was. *)
Theorem document_loads_the_staged_values (E : Env) (sheet : Sheet)
    (sheets_client bq_client : Client) (timestamp : string) (s s' : St) :
  _fetch_and_load_data E sheet sheets_client bq_client timestamp s
  = (Ok tt, s') ->
  exists answer ds hist t1 t2,
    sheets_values_get E (trace s) (id sheet) _RANGE_NAME = Ok answer
    /\ skeleton (new_events s s')
       = doc_skeleton sheet timestamp ds hist t1 t2
                      (staged (default [] answer))
                      (staged (default [] answer))
    /\ fs s' = delete (staged_path E (name sheet)) (fs s).
Proof.
  unfold _fetch_and_load_data, staged_path. intros H. invert_binds.
  set (path := _generate_filepath E (name sheet +:+ ".csv")) in *.
  pose proof (keeps_files_run _ _ _ _ (keeps_files_fetch_sheet_values _ _ _ _) Hm) as F0.
  apply _fetch_sheet_values_answer in Hm as Hans.
  destruct Hans as (answer & Hans & ->).
  apply _fetch_sheet_values_ok in Hm.
  apply _write_to_tmp_ok in Hm0 as [_ ->].
  pose proof (keeps_files_run _ _ _ _ (keeps_files_get_bq_dataset _ _ _) Hm1) as F1.
  apply _get_bq_dataset_ok in Hm1 as (e1 & He1 & tl1 & -> & Hq1).
  apply get_dataset_id_ok in Hm2 as ->.
  pose proof (keeps_files_run _ _ _ _ (keeps_files_get_bq_table _ _ _ _) Hm3) as F2.
  apply _get_bq_table_ok in Hm3 as (tl2 & He2 & Hq2).
  pose proof (keeps_files_run _ _ _ _ (keeps_files_load_data _ _ _ _) Hm4) as F3.
  apply _load_data_ok_data in Hm4 as (d1 & Hd1 & He3).
  pose proof (keeps_files_run _ _ _ _ (keeps_files_get_bq_dataset _ _ _) Hm5) as F4.
  apply _get_bq_dataset_ok in Hm5 as (e4 & He4 & tl4 & -> & Hq4).
  apply get_dataset_id_ok in Hm6 as ->.
  pose proof (keeps_files_run _ _ _ _ (keeps_files_get_bq_table _ _ _ _) Hm7) as F5.
  apply _get_bq_table_ok in Hm7 as (tl5 & He5 & Hq5).
  pose proof (keeps_files_run _ _ _ _ (keeps_files_load_data _ _ _ _) Hm8) as F6.
  apply _load_data_ok_data in Hm8 as (d2 & Hd2 & He6).
  destruct (_delete_tmp_run path s9) as (tl6 & Hdel & Hq6).
  rewrite Hdel in H. injection H as <-.
  cbn [fs trace] in *.
  assert (fs s4 = <[path := staged (default [] answer)]> (fs s0)) as G4
    by (by rewrite F2, F1).
  assert (fs s8 = <[path := staged (default [] answer)]> (fs s0)) as G8
    by (by rewrite F5, F4, F3, G4).
  rewrite G4, lookup_insert_eq in Hd1. injection Hd1 as <-.
  rewrite G8, lookup_insert_eq in Hd2. injection Hd2 as <-.
  exists answer, a2, a6, a3, a7. split; [done|]. split.
  - unfold new_events. cbn [trace].
    rewrite He6, He5, He4, He3, He2, He1, Hm.
    rewrite <- !app_assoc, drop_app_length.
    repeat first [rewrite skeleton_app | rewrite skeleton_cons; cbn [quiet]].
    rewrite Hq1, Hq2, Hq4, Hq5, Hq6. reflexivity.
  - rewrite F6, G8, F0. by rewrite delete_insert_eq.
Qed.

Lemma document_loads_the_staged_values_witness :
  exists answer ds hist t1 t2,
    sheets_values_get (world_env one_document) (trace empty_state)
                      (id capacity_plan) _RANGE_NAME = Ok answer
    /\ skeleton
         (new_events empty_state
            (snd (_fetch_and_load_data (world_env one_document) capacity_plan
                    sheets_handle bq_handle noon_stamp empty_state)))
       = doc_skeleton capacity_plan noon_stamp ds hist t1 t2
                      (staged (default [] answer))
                      (staged (default [] answer))
    /\ fs (snd (_fetch_and_load_data (world_env one_document) capacity_plan
                  sheets_handle bq_handle noon_stamp empty_state))
       = delete (staged_path (world_env one_document) (name capacity_plan))
                (fs empty_state).
Proof.
  apply (document_loads_the_staged_values (world_env one_document)
           capacity_plan sheets_handle bq_handle noon_stamp empty_state).
  vm_compute. reflexivity.
Defined.

Lemma fails_clean_bind {A B} (m : M A) (k : A -> M B) :
  keeps_files m -> (forall a, fails_clean (k a)) -> fails_clean (bind m k).
Proof.
  intros Hm Hk s e s'. specialize (Hm s). unfold bind.
  destruct (m s) as [[a|e1] s1]; cbn in *.
  - intros H. apply Hk in H. congruence.
  - intros [= _ <-]. done.
Qed.

Lemma fails_clean_delete_tmp path : fails_clean (_delete_tmp path).
Proof.
  intros s e s'. destruct (_delete_tmp_run path s) as (tl & -> & _). done.
Qed.

Lemma _fetch_sheet_values_run E sc i r s :
  _fetch_sheet_values E sc i r s
  = (match sheets_values_get E (trace s) i r with
     | Ok answer => Ok (default [] answer)
     | Raise e => Raise e
     end, with_events s [EvSheetsGet i r]).
Proof.
  unfold _fetch_sheet_values, bind, call, ret, with_events.
  by destruct (sheets_values_get _ _ _ _).
Qed.

Lemma _load_data_run E bq t path s data :
  fs s !! path = Some data ->
  _load_data E bq t path s
  = (load_table_from_file E (trace s) t data load_config,
     with_events s [EvBqLoad t data load_config]).
Proof.
  intros Hp. unfold _load_data, bind, read_file, call. cbn. by rewrite Hp.
Qed.

(** X2.  A document step that raises after its values were fetched and
    staged leaves the staged file behind: [_delete_tmp] is the last
    statement of [_fetch_and_load_data] and is under no [finally], so the
    scratch directory is the one before the step with the staged file
    added. *)
Theorem staged_file_outlives_a_failure (E : Env) (sheet : Sheet)
    (sheets_client bq_client : Client) (timestamp : string) (s s' : St)
    (e : Exn) (answer : option Grid) :
  sheets_values_get E (trace s) (id sheet) _RANGE_NAME = Ok answer ->
  stages E (trace s ++ [EvSheetsGet (id sheet) _RANGE_NAME])
         (staged_path E (name sheet)) (default [] answer) ->
  _fetch_and_load_data E sheet sheets_client bq_client timestamp s
  = (Raise e, s') ->
  fs s' = <[staged_path E (name sheet) := staged (default [] answer)]> (fs s).
Proof.
  intros Hans Hst. unfold _fetch_and_load_data, staged_path in *.
  unfold bind at 1. rewrite _fetch_sheet_values_run, Hans.
  unfold bind at 1. rewrite _write_to_tmp_run by exact Hst.
  intros H.
  assert (fails_clean
    (dataset <- _get_bq_dataset E bq_client _BQ_DATASET;;
     ds_id <- get_dataset_id dataset;;
     table <- _get_bq_table E bq_client ds_id (name sheet);;
     _load_data E bq_client table
       (_generate_filepath E (name sheet +:+ ".csv"));;;
     history_dataset <-
       _get_bq_dataset E bq_client (_BQ_DATASET +:+ "_history");;
     hist_id <- get_dataset_id history_dataset;;
     history_table <-
       _get_bq_table E bq_client hist_id (name sheet +:+ "_" +:+ timestamp);;
     _load_data E bq_client history_table
       (_generate_filepath E (name sheet +:+ ".csv"));;;
     _delete_tmp (_generate_filepath E (name sheet +:+ ".csv")))) as Hclean.
  { repeat first
      [ apply fails_clean_delete_tmp
      | apply fails_clean_bind;
        [first [ apply keeps_files_get_bq_dataset
               | apply keeps_files_get_bq_table
               | apply keeps_files_load_data
               | apply keeps_files_get_dataset_id ]
        | intros ? ] ]. }
  apply Hclean in H. exact H.
Qed.

Lemma staged_file_outlives_a_failure_witness :
  fs (snd (_fetch_and_load_data (world_env forbidden_primary) capacity_plan
             sheets_handle bq_handle noon_stamp empty_state))
  = <[staged_path (world_env forbidden_primary) (name capacity_plan)
      := staged (default [] (Some plan_values))]> (fs empty_state).
Proof.
  apply (staged_file_outlives_a_failure (world_env forbidden_primary)
           capacity_plan sheets_handle bq_handle noon_stamp empty_state _
           none_attribute_error (Some plan_values)).
  - reflexivity.
  - split; reflexivity.
  - vm_compute. reflexivity.
Defined.

(** X3.  When the values of a document were fetched and staged and the
    lookup of the primary dataset is forbidden, [_get_bq_dataset] logs the
    error and returns [None], and the document step reads [dataset_id] of
    it: the step raises the attribute error right after the log, with no
    table lookup and no load, and the staged file stays. *)
Theorem forbidden_dataset_faults_the_document (E : Env) (sheet : Sheet)
    (sheets_client bq_client : Client) (timestamp : string) (s : St)
    (answer : option Grid) (msg : string) :
  sheets_values_get E (trace s) (id sheet) _RANGE_NAME = Ok answer ->
  stages E (trace s ++ [EvSheetsGet (id sheet) _RANGE_NAME])
         (staged_path E (name sheet)) (default [] answer) ->
  get_dataset E (trace s ++ [EvSheetsGet (id sheet) _RANGE_NAME]) _BQ_DATASET
  = Raise (Forbidden msg) ->
  _fetch_and_load_data E sheet sheets_client bq_client timestamp s
  = (Raise none_attribute_error,
     mkSt (<[staged_path E (name sheet) := staged (default [] answer)]> (fs s))
          (trace s ++ [ EvSheetsGet (id sheet) _RANGE_NAME;
                        EvBqGetDataset _BQ_DATASET; EvLogError msg ])).
Proof.
  intros Hans Hst Hds. unfold _fetch_and_load_data, staged_path in *.
  unfold bind at 1. rewrite _fetch_sheet_values_run, Hans.
  unfold bind at 1. rewrite _write_to_tmp_run by exact Hst.
  unfold bind at 1. rewrite _get_bq_dataset_run. cbn [trace with_events].
  rewrite Hds. cbn. unfold with_events. cbn. rewrite <- ?app_assoc.
  reflexivity.
Qed.

Lemma forbidden_dataset_faults_the_document_witness :
  _fetch_and_load_data (world_env forbidden_primary) capacity_plan sheets_handle bq_handle
                       noon_stamp empty_state
  = (Raise none_attribute_error,
     mkSt (<[staged_path (world_env forbidden_primary) (name capacity_plan)
             := staged (default [] (Some plan_values))]> (fs empty_state))
          (trace empty_state
           ++ [ EvSheetsGet (id capacity_plan) _RANGE_NAME;
                EvBqGetDataset _BQ_DATASET;
                EvLogError ("Access Denied: " +:+ _BQ_DATASET) ])).
Proof.
  apply (forbidden_dataset_faults_the_document (world_env forbidden_primary)
           capacity_plan sheets_handle bq_handle noon_stamp empty_state (Some plan_values)
           ("Access Denied: " +:+ _BQ_DATASET)).
  - reflexivity.
  - split; reflexivity.
  - reflexivity.
Defined.

Ltac unfold_program :=
  unfold sheets_to_bq, obtain_creds, _check_creds, _fetch_creds,
    _get_credentials_json, pickle_load, _drive_client, _sheets_client,
    _bq_client, _shared_sheet_files, _fetch_and_load_data,
    _fetch_sheet_values, _write_to_tmp, _get_bq_dataset, _get_bq_table,
    _load_data, _delete_tmp, get_dataset_id, _save_creds.

Lemma silent_observe_cred p E c : silent p (observe_cred E c).
Proof. by apply silent_same. Qed.

Lemma silent_events {A} p (m : M A) s :
  silent p m -> count_events p (events_of m s) = 0.
Proof.
  intros H. destruct (H s) as (evs & Ht & Hc).
  unfold events_of, new_events. by rewrite Ht, drop_app_length.
Qed.

(** X4.  Whatever the collaborators answer and however the run ends,
    every load job that [sheets_to_bq] starts has the configuration of
    [_load_data]: CSV source, one leading row skipped, write disposition
    WRITE_TRUNCATE, schema autodetection. *)
Theorem every_load_truncates (E : Env) (request : option Request) (s : St) :
  count_events is_other_load (events_of (sheets_to_bq E request) s) = 0.
Proof.
  apply silent_events. unfold_program.
  repeat first [apply silent_observe_cred | silent_step].
Qed.

(** X5.  Whatever the collaborators answer and however the run ends,
    the requests of [sheets_to_bq] name the constants of the module only:
    the key bucket and blob, the four scopes, the primary and the history
    dataset, the range, the listing query, and the two service builds with
    their versions. *)
Theorem requests_use_the_fixed_names (E : Env) (request : option Request)
    (s : St) :
  count_events is_foreign_request (events_of (sheets_to_bq E request) s) = 0.
Proof.
  apply silent_events. unfold_program.
  repeat first [apply silent_observe_cred | silent_step].
Qed.

Lemma grows_events {A} (m : M A) s s1 prefix :
  silent never m ->
  trace s1 = trace s ++ prefix ->
  exists rest, new_events s (snd (m s1)) = prefix ++ rest.
Proof.
  intros Hm Hs1. destruct (Hm s1) as (rest & Ht & _). exists rest.
  unfold new_events. by rewrite Ht, Hs1, <- app_assoc, drop_app_length.
Qed.

(** X6.  When the values of a document were fetched and staged, the
    primary dataset is there and the lookup of the document's table is
    forbidden, [_get_bq_table] logs the error and returns [None], and the
    step goes on: the next event is a load of the staged file whose
    destination is [None]. *)
Theorem forbidden_table_reaches_the_load (E : Env) (sheet : Sheet)
    (sheets_client bq_client : Client) (timestamp : string) (s : St)
    (answer : option Grid) (dataset : Dataset) (msg : string) :
  let requests :=
    [ EvSheetsGet (id sheet) _RANGE_NAME; EvBqGetDataset _BQ_DATASET;
      EvBqGetTable (table_full_name (dataset_id dataset) (name sheet)) ] in
  sheets_values_get E (trace s) (id sheet) _RANGE_NAME = Ok answer ->
  stages E (trace s ++ take 1 requests) (staged_path E (name sheet))
         (default [] answer) ->
  get_dataset E (trace s ++ take 1 requests) _BQ_DATASET = Ok dataset ->
  get_table E (trace s ++ take 2 requests)
            (table_full_name (dataset_id dataset) (name sheet))
  = Raise (Forbidden msg) ->
  exists rest,
    events_of (_fetch_and_load_data E sheet sheets_client bq_client timestamp)
              s
    = requests
      ++ [ EvLogError msg;
           EvBqLoad None (staged (default [] answer)) load_config ]
      ++ rest.
Proof.
  cbv zeta. cbn [take]. unfold staged_path. intros Hans Hst Hds Htb.
  enough (exists rest,
    events_of (_fetch_and_load_data E sheet sheets_client bq_client timestamp)
              s
    = ([ EvSheetsGet (id sheet) _RANGE_NAME; EvBqGetDataset _BQ_DATASET;
         EvBqGetTable (table_full_name (dataset_id dataset) (name sheet)) ]
       ++ [ EvLogError msg;
            EvBqLoad None (staged (default [] answer)) load_config ])
      ++ rest) as (rest & Hr).
  { exists rest. by rewrite Hr, <- app_assoc. }
  unfold events_of, _fetch_and_load_data.
  unfold bind at 1. rewrite _fetch_sheet_values_run, Hans.
  unfold bind at 1. rewrite _write_to_tmp_run by exact Hst.
  unfold bind at 1. rewrite _get_bq_dataset_run. cbn [trace with_events].
  rewrite Hds. unfold bind at 1. cbn [get_dataset_id ret].
  unfold bind at 1. rewrite _get_bq_table_run. cbn [trace with_events].
  replace (trace s ++ [EvSheetsGet (id sheet) _RANGE_NAME;
                       EvBqGetDataset _BQ_DATASET])
    with ((trace s ++ [EvSheetsGet (id sheet) _RANGE_NAME])
          ++ [EvBqGetDataset _BQ_DATASET]) in Htb
    by (by rewrite <- app_assoc).
  rewrite Htb.
  unfold bind at 1.
  rewrite (_load_data_run _ _ _ _ _ (staged (default [] answer)))
    by (cbn; apply lookup_insert_eq).
  unfold with_events. cbn [trace fs].
  match goal with
  | |- context [match ?r with Ok _ => _ | Raise e => _ end] =>
      destruct r as [st|e]
  end.
  - match goal with
    | |- exists rest, new_events s (snd (?m ?s1)) = _ =>
        apply (grows_events m s s1)
    end.
    + unfold_program. repeat silent_step.
    + cbn [trace]. rewrite <- !app_assoc. reflexivity.
  - exists []. unfold new_events. cbn [snd trace].
    rewrite <- !app_assoc. cbn [app]. rewrite drop_app_length. reflexivity.
Qed.

Lemma forbidden_table_reaches_the_load_witness :
  exists rest,
    events_of (_fetch_and_load_data
                 (forbidden_table_env (world_env existing_datasets))
                 capacity_plan sheets_handle bq_handle noon_stamp)
              empty_state
    = [ EvSheetsGet (id capacity_plan) _RANGE_NAME;
        EvBqGetDataset _BQ_DATASET;
        EvBqGetTable (table_full_name (dataset_id (mkDataset _BQ_DATASET))
                                      (name capacity_plan)) ]
      ++ [ EvLogError ("Access Denied: "
                       +:+ table_full_name _BQ_DATASET (name capacity_plan));
           EvBqLoad None (staged (default [] (Some plan_values))) load_config ]
      ++ rest.
Proof.
  apply (forbidden_table_reaches_the_load
           (forbidden_table_env (world_env existing_datasets))
           capacity_plan sheets_handle bq_handle noon_stamp empty_state (Some plan_values)
           (mkDataset _BQ_DATASET)
           ("Access Denied: "
            +:+ table_full_name _BQ_DATASET (name capacity_plan))).
  - reflexivity.
  - split; reflexivity.
  - reflexivity.
  - reflexivity.
Defined.



(** X8.  When the token file holds a credential that is not valid and has
    expired, and its refresh succeeds, credential acquisition returns the
    refreshed credential; the refresh is the only event, so the key is not
    fetched. *)
Theorem expired_token_is_refreshed (E : Env) (s : St) (c c' : Cred) :
  fs s !! _generate_filepath E _TOKEN_FILENAME = Some (FPickle (Some c)) ->
  valid c = false ->
  expired c = true ->
  refresh E (trace s) c = Ok c' ->
  obtain_creds E s = (Ok (Some c'), with_events s [EvRefresh c]).
Proof.
  intros Hf Hv Hx Hr.
  unfold obtain_creds, _check_creds, with_events, bind, read_file,
    pickle_load, ret, call.
  rewrite Hf. cbn. rewrite Hv, Hx. cbn. by rewrite Hr.
Qed.

Lemma expired_token_is_refreshed_witness :
  obtain_creds (world_env one_document) expired_cache
  = (Ok (Some (mkCred "cached" (Some "refreshed") true false)),
     with_events expired_cache [EvRefresh expired_cred]).
Proof.
  apply (expired_token_is_refreshed (world_env one_document) expired_cache
           expired_cred (mkCred "cached" (Some "refreshed") true false)).
  - vm_compute. reflexivity.
  - reflexivity.
  - reflexivity.
  - reflexivity.
Defined.

(** X9.  When there is no token file and the bucket holds no key blob,
    nothing is downloaded, and a key file that an earlier run left in the
    scratch directory is parsed: the credential built from it is the one
    acquired. *)
Theorem stale_key_file_is_used (E : Env) (s : St) (key : FileData) (c : Cred) :
  fs s !! _generate_filepath E _TOKEN_FILENAME = None ->
  gcs_get_blob E (trace s) _CREDENTIALS_GCS_BUCKET_NAME
               _CREDENTIALS_GCS_FILENAME = Ok None ->
  fs s !! _generate_filepath E _CREDENTIALS_FILENAME = Some key ->
  from_service_account_file E
    (trace s ++ [EvGcsGetBlob _CREDENTIALS_GCS_BUCKET_NAME
                              _CREDENTIALS_GCS_FILENAME]) key _SCOPES = Ok c ->
  obtain_creds E s
  = (Ok (Some c),
     with_events s
       [ EvGcsGetBlob _CREDENTIALS_GCS_BUCKET_NAME _CREDENTIALS_GCS_FILENAME;
         EvServiceAccountFile (_generate_filepath E _CREDENTIALS_FILENAME)
                              _SCOPES ]).
Proof.
  intros Ht Hb Hk Hp.
  unfold obtain_creds, _check_creds, _fetch_creds, _get_credentials_json,
    with_events, try_except, bind, read_file, pickle_load, ret, call.
  rewrite Ht. cbn. rewrite Hb. cbn. rewrite Hk. cbn. rewrite Hp. cbn.
  by rewrite <- app_assoc.
Qed.

Lemma stale_key_file_is_used_witness :
  obtain_creds (world_env no_key_blob) stale_key
  = (Ok (Some (mkCred "old-key" None false false)),
     with_events stale_key
       [ EvGcsGetBlob _CREDENTIALS_GCS_BUCKET_NAME _CREDENTIALS_GCS_FILENAME;
         EvServiceAccountFile
           (_generate_filepath (world_env no_key_blob) _CREDENTIALS_FILENAME)
           _SCOPES ]).
Proof.
  apply (stale_key_file_is_used (world_env no_key_blob) stale_key
           (FText "old-key") (mkCred "old-key" None false false)).
  - vm_compute. reflexivity.
  - reflexivity.
  - vm_compute. reflexivity.
  - reflexivity.
Defined.

(** X10.  When there is no token file and the lookup of the key blob
    raises, the exception leaves [sheets_to_bq] as it is, for every
    exception: [_get_credentials_json] is called outside the [try] of
    [_fetch_creds], so nothing is logged and no abort is signalled. *)
Theorem key_lookup_failure_propagates (E : Env) (request : option Request)
    (s : St) (e : Exn) :
  fs s !! _generate_filepath E _TOKEN_FILENAME = None ->
  gcs_get_blob E (trace s) _CREDENTIALS_GCS_BUCKET_NAME
               _CREDENTIALS_GCS_FILENAME = Raise e ->
  sheets_to_bq E request s
  = (Raise e,
     with_events s [EvGcsGetBlob _CREDENTIALS_GCS_BUCKET_NAME
                                 _CREDENTIALS_GCS_FILENAME]).
Proof.
  intros Ht Hb.
  unfold sheets_to_bq, obtain_creds, _check_creds, _fetch_creds,
    _get_credentials_json, with_events, try_except, bind, read_file,
    pickle_load, ret, call.
  rewrite Ht. cbn. rewrite Hb. cbn. reflexivity.
Qed.

Lemma key_lookup_failure_propagates_witness :
  sheets_to_bq (unreachable_bucket (world_env one_document))
               (Some FlaskRequest) empty_state
  = (Raise (OtherError "ServiceUnavailable"),
     with_events empty_state
       [EvGcsGetBlob _CREDENTIALS_GCS_BUCKET_NAME _CREDENTIALS_GCS_FILENAME]).
Proof.
  apply (key_lookup_failure_propagates
           (unreachable_bucket (world_env one_document)) (Some FlaskRequest)
           empty_state (OtherError "ServiceUnavailable")).
  - vm_compute. reflexivity.
  - reflexivity.
Defined.

(** X11.  When the key was downloaded and parsing it raises anything
    else than a file-not-found error, the exception leaves [sheets_to_bq]:
    the handler of [_fetch_creds] catches [FileNotFoundError] only.  The
    downloaded key stays in the scratch directory. *)
Theorem key_parse_failure_propagates (E : Env) (request : option Request)
    (s : St) (key : string) (e : Exn) :
  let fetched :=
    [ EvGcsGetBlob _CREDENTIALS_GCS_BUCKET_NAME _CREDENTIALS_GCS_FILENAME;
      EvGcsDownload _CREDENTIALS_GCS_BUCKET_NAME _CREDENTIALS_GCS_FILENAME
                    (_generate_filepath E _CREDENTIALS_FILENAME) ] in
  fs s !! _generate_filepath E _TOKEN_FILENAME = None ->
  gcs_get_blob E (trace s) _CREDENTIALS_GCS_BUCKET_NAME
               _CREDENTIALS_GCS_FILENAME = Ok (Some key) ->
  download_to_filename E (trace s ++ take 1 fetched) key
    (_generate_filepath E _CREDENTIALS_FILENAME) = Ok tt ->
  from_service_account_file E (trace s ++ fetched) (FText key) _SCOPES
  = Raise e ->
  is_file_not_found e = false ->
  sheets_to_bq E request s
  = (Raise e,
     mkSt (<[_generate_filepath E _CREDENTIALS_FILENAME := FText key]> (fs s))
          (trace s ++ fetched
           ++ [EvServiceAccountFile
                 (_generate_filepath E _CREDENTIALS_FILENAME) _SCOPES])).
Proof.
  cbv zeta. cbn [take]. intros Ht Hb Hd Hp He.
  unfold sheets_to_bq, obtain_creds, _check_creds, _fetch_creds,
    _get_credentials_json, with_events, try_except, bind, read_file,
    store_file, pickle_load, ret, call.
  rewrite Ht. cbn. rewrite Hb. cbn. rewrite Hd. cbn.
  rewrite lookup_insert_eq. cbn. rewrite <- app_assoc. cbn [app].
  rewrite Hp. rewrite <- !app_assoc. cbn [app].
  destruct e; try discriminate He; reflexivity.
Qed.

Lemma key_parse_failure_propagates_witness :
  sheets_to_bq (malformed_key (world_env one_document)) (Some FlaskRequest)
               empty_state
  = (Raise (OtherError "ValueError: not a service account key"),
     mkSt (<[_generate_filepath (malformed_key (world_env one_document))
                                _CREDENTIALS_FILENAME
             := FText "service-account-key"]> (fs empty_state))
          (trace empty_state
           ++ [ EvGcsGetBlob _CREDENTIALS_GCS_BUCKET_NAME
                             _CREDENTIALS_GCS_FILENAME;
                EvGcsDownload _CREDENTIALS_GCS_BUCKET_NAME
                  _CREDENTIALS_GCS_FILENAME
                  (_generate_filepath (malformed_key (world_env one_document))
                                      _CREDENTIALS_FILENAME) ]
           ++ [EvServiceAccountFile
                 (_generate_filepath (malformed_key (world_env one_document))
                                     _CREDENTIALS_FILENAME) _SCOPES])).
Proof.
  apply (key_parse_failure_propagates
           (malformed_key (world_env one_document)) (Some FlaskRequest)
           empty_state "service-account-key"
           (OtherError "ValueError: not a service account key")).
  - vm_compute. reflexivity.
  - reflexivity.
  - reflexivity.
  - reflexivity.
  - reflexivity.
Defined.

Lemma append_assoc (a b c : string) : (a +:+ b) +:+ c = a +:+ b +:+ c.
Proof.
  induction a as [|x a IH]; [done|].
  change (String x (a +:+ b) +:+ c = String x (a +:+ b +:+ c)).
  change (String x ((a +:+ b) +:+ c) = String x (a +:+ b +:+ c)).
  by rewrite IH.
Qed.

Lemma list_ascii_of_string_append (a b : string) :
  list_ascii_of_string (a +:+ b)
  = list_ascii_of_string a ++ list_ascii_of_string b.
Proof.
  induction a as [|x a IH]; [done|].
  change (x :: list_ascii_of_string (a +:+ b)
          = x :: (list_ascii_of_string a ++ list_ascii_of_string b)).
  by rewrite IH.
Qed.

Lemma os_path_join_relative d b :
  String.prefix "/" b = false -> os_path_join d b = dir_prefix d +:+ b.
Proof.
  intros Hb. unfold os_path_join, dir_prefix. rewrite Hb.
  destruct (String.eqb d "" || ends_with_sep d); [done|].
  by rewrite append_assoc.
Qed.

Lemma os_path_join_absolute d b :
  String.prefix "/" b = true -> os_path_join d b = b.
Proof. intros Hb. unfold os_path_join. by rewrite Hb. Qed.

Lemma last_char_append a b c :
  last_char b = Some c -> last_char (a +:+ b) = Some c.
Proof.
  unfold last_char. rewrite list_ascii_of_string_append, last_app.
  by intros ->.
Qed.

Lemma last_char_generate_filepath E name c :
  last_char name = Some c -> last_char (_generate_filepath E name) = Some c.
Proof.
  intros Hc. unfold _generate_filepath.
  destruct (String.prefix "/" name) eqn:Hp.
  - by rewrite os_path_join_absolute.
  - rewrite os_path_join_relative by done. by apply last_char_append.
Qed.

Lemma token_path_is_no_working_file E :
  ~ is_working_file E (_generate_filepath E _TOKEN_FILENAME).
Proof.
  assert (last_char (_generate_filepath E _TOKEN_FILENAME) = Some "e"%char)
    as Ht by (by apply last_char_generate_filepath).
  intros [Hk|[n Hn]].
  - rewrite Hk in Ht.
    rewrite (last_char_generate_filepath E _CREDENTIALS_FILENAME "n") in Ht
      by done.
    discriminate Ht.
  - rewrite Hn in Ht. unfold staged_path in Ht.
    rewrite (last_char_generate_filepath E (n +:+ ".csv") "v") in Ht
      by (by apply last_char_append).
    discriminate Ht.
Qed.

Section WritesOnly.
Context (P : string -> Prop).

Lemma writes_only_keeps {A} (m : M A) : keeps_files m -> writes_only P m.
Proof. intros H s p _. by rewrite H. Qed.

Lemma writes_only_store_file path d :
  P path -> writes_only P (store_file path d).
Proof.
  intros HP s p Hp. cbn. apply lookup_insert_ne. by intros ->.
Qed.

Lemma writes_only_open_w E path : P path -> writes_only P (open_w E path).
Proof.
  intros HP s p Hp. unfold open_w.
  destruct (open_for_writing E (trace s) path); [|done].
  cbn. apply lookup_insert_ne. by intros ->.
Qed.

Lemma writes_only_write_text E path text :
  P path -> writes_only P (write_text E path text).
Proof.
  intros HP s p Hp. unfold write_text.
  destruct (text_written E (trace s) path text) as [[n e]|];
    cbn; apply lookup_insert_ne; by intros ->.
Qed.

Lemma writes_only_remove_file path : P path -> writes_only P (remove_file path).
Proof.
  intros HP s p Hp. cbn. apply lookup_delete_ne. by intros ->.
Qed.

Lemma writes_only_bind {A B} (m : M A) (k : A -> M B) :
  writes_only P m -> (forall a, writes_only P (k a)) ->
  writes_only P (bind m k).
Proof.
  intros Hm Hk s p Hp. specialize (Hm s p Hp). unfold bind.
  destruct (m s) as [[a|e] s1]; cbn in *; [|done].
  by rewrite Hk.
Qed.

Lemma writes_only_try_except {A} (m : M A) (h : Exn -> option (M A)) :
  writes_only P m -> (forall e k, h e = Some k -> writes_only P k) ->
  writes_only P (try_except m h).
Proof.
  intros Hm Hh s p Hp. specialize (Hm s p Hp). unfold try_except.
  destruct (m s) as [[a|e] s1]; cbn in *; [done|].
  destruct (h e) as [k|] eqn:He; [|done].
  by rewrite (Hh e k He).
Qed.

Lemma writes_only_for_each {A} (xs : list A) (body : A -> M unit) :
  (forall x, writes_only P (body x)) -> writes_only P (for_each xs body).
Proof.
  intros Hb. induction xs as [|x xs IH]; cbn [for_each].
  - by apply writes_only_keeps.
  - apply writes_only_bind; [apply Hb|]. intros _. apply IH.
Qed.


End WritesOnly.

Ltac writes_step :=
  lazymatch goal with
  | |- writes_only _ (bind _ _) => apply writes_only_bind; [|intros ?]
  | |- writes_only _ (ret _) => apply writes_only_keeps, keeps_files_ret
  | |- writes_only _ (raise _) => apply writes_only_keeps, keeps_files_raise
  | |- writes_only _ (emit _) => apply writes_only_keeps, keeps_files_emit
  | |- writes_only _ (call _ _) => apply writes_only_keeps, keeps_files_call
  | |- writes_only _ (read_file _) =>
      apply writes_only_keeps, keeps_files_read_file
  | |- writes_only _ (for_each _ _) => apply writes_only_for_each; intros ?
  | |- writes_only _ (try_except _ _) =>
      apply writes_only_try_except;
      [|let e := fresh "e" in let k := fresh "k" in let He := fresh "He" in
        intros e k He; destruct e; cbn in He; try discriminate He;
        injection He as <-]
  | |- writes_only _ (match ?x with _ => _ end) => destruct x
  end.

Lemma writes_only_obtain_creds E :
  writes_only (is_working_file E) (obtain_creds E).
Proof.
  unfold obtain_creds, _check_creds, _fetch_creds, _get_credentials_json,
    pickle_load.
  repeat first [writes_step | apply writes_only_store_file; by left].
Qed.

Lemma writes_only_fetch_and_load_data E sheet sc bq ts :
  writes_only (is_working_file E) (_fetch_and_load_data E sheet sc bq ts).
Proof.
  unfold _fetch_and_load_data, _fetch_sheet_values, _write_to_tmp,
    _get_bq_dataset, _get_bq_table, _load_data, _delete_tmp, get_dataset_id.
  repeat first
    [ writes_step
    | apply writes_only_open_w; right; eexists; reflexivity
    | apply writes_only_write_text; right; eexists; reflexivity
    | apply writes_only_remove_file; right; eexists; reflexivity ].
Qed.



Lemma writes_only_run {A} P (m : M A) s r s' p :
  writes_only P m -> m s = (r, s') -> ~ P p -> fs s' !! p = fs s !! p.
Proof. intros H Hm Hp. specialize (H s p Hp). by rewrite Hm in H. Qed.

Lemma writes_only_run_to_listing E :
  writes_only (is_working_file E)
    (creds <- obtain_creds E;;
     match creds with
     | None => ret None
     | Some creds =>
         drive_client <- _drive_client E creds;;
         sheets_client <- _sheets_client E creds;;
         bq_client <- _bq_client E creds;;
         _get_bq_dataset E bq_client _BQ_DATASET;;;
         _get_bq_dataset E bq_client (_BQ_DATASET +:+ "_history");;;
         timestamp <- call EvNow (fun tr => Ok (strftime_YmdHM (now E tr)));;
         shared_sheets <- _shared_sheet_files E drive_client _MIME_TYPE;;
         for_each shared_sheets
           (fun sheet =>
              _fetch_and_load_data E sheet sheets_client bq_client timestamp);;;
         ret (Some creds)
     end).
Proof.
  apply writes_only_bind; [apply writes_only_obtain_creds|]. intros [creds|].
  2:{ repeat writes_step. }
  unfold _drive_client, _sheets_client, _bq_client, _shared_sheet_files,
    _get_bq_dataset.
  repeat first [ apply writes_only_fetch_and_load_data | writes_step ].
Qed.

(** X13.  A run of [sheets_to_bq] that returns the completion message
    acquired a credential, and at the end the token file holds that
    credential as it is after the run if its token is non-empty; a
    credential with no token is not saved, and the token file is as before
    the run. *)
Theorem completed_run_persists_the_credential (E : Env)
    (request : option Request) (s s' : St) (msg : string) :
  sheets_to_bq E request s = (Ok (Some msg), s') ->
  exists creds,
    result_of (obtain_creds E) s = Ok (Some creds)
    /\ let now_creds := cred_now E (trace s') creds in
       fs s' !! _generate_filepath E _TOKEN_FILENAME
       = if token_truthy now_creds then Some (FPickle (Some now_creds))
         else fs s !! _generate_filepath E _TOKEN_FILENAME.
Proof.
  intros H.
  pose proof (writes_only_run_to_listing E) as Hw.
  unfold sheets_to_bq in H.
  apply bind_ok_inv in H as (creds & s1 & Hcreds & H).
  destruct creds as [creds|].
  2:{ apply bind_ok_inv in H as (? & ? & _ & H). destruct request.
      - apply bind_ok_inv in H as (? & ? & _ & H). discriminate H.
      - apply bind_ok_inv in H as (? & ? & _ & H). discriminate H. }
  exists creds. split; [unfold result_of; by rewrite Hcreds|].
  invert_binds.
  assert (fs s8 !! _generate_filepath E _TOKEN_FILENAME
          = fs s !! _generate_filepath E _TOKEN_FILENAME) as Hkeep.
  { specialize (Hw s _ (token_path_is_no_working_file E)).
    unfold bind at 1 in Hw. rewrite Hcreds in Hw.
    unfold bind at 1 in Hw. rewrite Hm in Hw.
    unfold bind at 1 in Hw. rewrite Hm0 in Hw.
    unfold bind at 1 in Hw. rewrite Hm1 in Hw.
    unfold bind at 1 in Hw. rewrite Hm2 in Hw.
    unfold bind at 1 in Hw. rewrite Hm3 in Hw.
    unfold bind at 1 in Hw. rewrite Hm4 in Hw.
    unfold bind at 1 in Hw. rewrite Hm5 in Hw.
    unfold bind at 1 in Hw. rewrite Hm6 in Hw. exact Hw. }
  revert Hm7 Hm8 H. unfold observe_cred, _save_creds.
  unfold bind, open_w, store_file, ret.
  intros [= <- <-]. cbv zeta.
  destruct (token_truthy (cred_now E (trace s8) creds)) eqn:Htok.
  - destruct (open_for_writing E (trace s8) _) as [[]|e]; [|done].
    intros [= _ <-] [= _ <-]. cbn [trace fs]. rewrite Htok.
    apply lookup_insert_eq.
  - intros Ha Hb. simplify_eq. by rewrite Htok.
Qed.

Lemma completed_run_persists_the_credential_witness :
  exists creds,
    result_of (obtain_creds (world_env one_document)) empty_state
    = Ok (Some creds)
    /\ let now_creds :=
         cred_now (world_env one_document)
           (trace (snd (sheets_to_bq (world_env one_document) None
                                     empty_state)))
           creds in
       fs (snd (sheets_to_bq (world_env one_document) None empty_state))
         !! _generate_filepath (world_env one_document) _TOKEN_FILENAME
       = if token_truthy now_creds then Some (FPickle (Some now_creds))
         else fs empty_state
              !! _generate_filepath (world_env one_document) _TOKEN_FILENAME.
Proof.
  apply (completed_run_persists_the_credential (world_env one_document) None
           empty_state _ done_message).
  vm_compute. reflexivity.
Defined.

Lemma prefix_empty s : String.prefix "" s = true.
Proof. by destruct s. Qed.

Lemma prefix_slash_csv n :
  String.prefix "/" (n +:+ ".csv") = String.prefix "/" n.
Proof.
  destruct n as [|a n]; [reflexivity|].
  change (String.prefix "/" (String a (n +:+ ".csv"))
          = String.prefix "/" (String a n)).
  cbn [String.prefix]. destruct (ascii_dec "/" a); [|done].
  by rewrite !prefix_empty.
Qed.

Lemma append_cancel_r (a b c : string) : a +:+ c = b +:+ c -> a = b.
Proof.
  intros H. apply (f_equal list_ascii_of_string) in H.
  rewrite !list_ascii_of_string_append in H. apply app_inv_tail in H.
  apply (f_equal string_of_list_ascii) in H.
  by rewrite !string_of_list_ascii_of_string in H.
Qed.

(** A document named by an absolute path is staged where its name says,
    not under the scratch directory. *)
Example absolute_name_leaves_the_scratch_directory :
  staged_path (world_env one_document) "/tmp/plan"
  = staged_path (world_env one_document) "plan".
Proof. reflexivity. Qed.

(** X14.  The staged paths of two documents whose names are both
    relative or both absolute are equal only if the names are equal.
    (A name that starts with a slash makes [os.path.join] drop the scratch
    directory, so the condition cannot be left out.) *)
Theorem staged_files_do_not_clash (E : Env) (n1 n2 : string) :
  String.prefix "/" n1 = String.prefix "/" n2 ->
  staged_path E n1 = staged_path E n2 ->
  n1 = n2.
Proof.
  unfold staged_path, _generate_filepath. intros Hp.
  destruct (String.prefix "/" n2) eqn:Hp2.
  - rewrite !os_path_join_absolute by (by rewrite prefix_slash_csv).
    apply append_cancel_r.
  - rewrite !os_path_join_relative by (by rewrite prefix_slash_csv).
    intros H. apply String.app_inj in H. by apply append_cancel_r in H.
Qed.

Lemma staged_files_do_not_clash_witness :
  staged_path (world_env one_document) (name capacity_plan)
  = "/tmp/capacity-plan.csv"
  /\ name capacity_plan = "capacity-plan".
Proof.
  split; [reflexivity|].
  apply (staged_files_do_not_clash (world_env one_document)
           (name capacity_plan) "capacity-plan").
  - reflexivity.
  - reflexivity.
Defined.

Lemma str_replace_idempotent old new s :
  old <> new ->
  str_replace old new (str_replace old new s) = str_replace old new s.
Proof.
  intros Hne. induction s as [|c s IH]; [done|].
  cbn [str_replace]. rewrite IH. f_equal.
  destruct (Ascii.eqb_spec c old) as [->|Hc].
  - destruct (Ascii.eqb_spec new old); congruence.
  - destruct (Ascii.eqb_spec c old); congruence.
Qed.

(** X15.  Normalizing a table name is idempotent for [_get_bq_table]:
    called with a name whose hyphens are replaced already, it behaves as
    when called with the name itself, in every environment and state. *)
Theorem normalized_name_is_looked_up_unchanged (E : Env) (bq_client : Client)
    (dataset_name table_name : string) (s : St) :
  _get_bq_table E bq_client dataset_name (str_replace "-" "_" table_name) s
  = _get_bq_table E bq_client dataset_name table_name s.
Proof.
  unfold _get_bq_table. by rewrite str_replace_idempotent.
Qed.

Lemma docs_events_nil ts docs : docs_events ts [] docs -> docs = [].
Proof. by inversion 1. Qed.

Lemma values_requests_app evs1 evs2 :
  values_requests (evs1 ++ evs2)
  = values_requests evs1 ++ values_requests evs2.
Proof. apply omap_app. Qed.

Lemma values_requests_skeleton evs :
  values_requests evs = values_requests (skeleton evs).
Proof.
  induction evs as [|ev evs IH]; [done|].
  rewrite skeleton_cons. unfold values_requests in *.
  destruct ev; simpl; first [exact IH | f_equal; exact IH].
Qed.

Lemma values_requests_none evs :
  count_events is_enumeration evs = 0 -> values_requests evs = [].
Proof.
  induction evs as [|ev evs IH]; [done|].
  rewrite count_events_cons. unfold values_requests in *.
  destruct ev; simpl; intros H; first [by apply IH | lia].
Qed.

Lemma values_requests_docs ts sheets docs :
  docs_events ts sheets docs ->
  values_requests docs = map (fun sheet => (id sheet, _RANGE_NAME)) sheets.
Proof.
  induction 1 as [|sheet sheets evs rest ds hist t1 t2 d1 d2 Hsk _ IH].
  - done.
  - rewrite values_requests_app, IH, values_requests_skeleton, Hsk.
    reflexivity.
Qed.

Ltac count_clients :=
  repeat match goal with
  | |- context [count_events ?p client_events] =>
      let n := eval vm_compute in (count_events p client_events) in
      change (count_events p client_events) with n
  end.

Lemma loud_signal ev : is_signal ev = true -> quiet ev = false.
Proof. by destruct ev. Qed.

Lemma loud_table_work ev : is_table_work ev = true -> quiet ev = false.
Proof. by destruct ev. Qed.

(** X16.  The two ways in which [sheets_to_bq] returns.  Either it returns
    the completion message, and then the run neither aborted nor printed;
    or it returns [None], and then the request was falsy and the run ended
    by logging that no credential could be fetched and printing Quit. *)
Theorem returning_runs (E : Env) (request : option Request) (s s' : St)
    (r : option string) :
  sheets_to_bq E request s = (Ok r, s') ->
  (r = Some done_message /\ count_events is_signal (new_events s s') = 0)
  \/ (r = None /\ request = None
      /\ exists evs,
           new_events s s'
           = evs ++ [EvLogError "Could not fetch credentials"; EvPrint "Quit"]).
Proof.
  intros Hrun. pose proof Hrun as H. unfold sheets_to_bq in H.
  apply bind_ok_inv in H as (creds & s1 & Hcreds & H).
  destruct creds as [creds|].
  - left. invert_binds. unfold ret in H. injection H as <- _.
    split; [done|].
    apply sheets_to_bq_ok in Hrun
      as (cevs & e1 & e2 & sheets & docs & Ht & Hc & He1 & He2 & _ & Hd).
    cbv zeta in *. unfold new_events. rewrite Ht, drop_app_length.
    rewrite !count_events_app, !count_events_cons, ?count_events_app.
    rewrite (count_events_forallb is_credential _ cevs)
      by (done || by intros []).
    rewrite (count_events_ensure _ _ e1) by (done || by intros []).
    rewrite (count_events_ensure _ _ e2) by (done || by intros []).
    rewrite (count_events_docs is_signal 0 _ sheets docs loud_signal
               ltac:(intros; reflexivity) Hd).
    count_clients. cbn. lia.
  - right. apply obtain_creds_trace in Hcreds as (evs & Ht & _).
    revert H. unfold bind, emit, raise, ret.
    destruct request; [done|]. intros [= <- <-].
    repeat split. exists evs. unfold new_events. cbn [trace].
    rewrite Ht, <- !app_assoc, drop_app_length. reflexivity.
Qed.

Lemma returning_runs_witness :
  (None = Some done_message
   /\ count_events is_signal
        (new_events empty_state
           (snd (sheets_to_bq (world_env no_key_blob) None empty_state))) = 0)
  \/ (None = (None : option string) /\ (None : option Request) = None
      /\ exists evs,
           new_events empty_state
             (snd (sheets_to_bq (world_env no_key_blob) None empty_state))
           = evs ++ [EvLogError "Could not fetch credentials";
                     EvPrint "Quit"]).
Proof.
  apply (returning_runs (world_env no_key_blob) None empty_state _ None).
  vm_compute. reflexivity.
Defined.

(** X17.  When the listing is empty, a completed run ends with the clock
    reading and the listing: it looks up each of the two datasets once and
    makes no values request, no table lookup and no load. *)
Theorem run_over_no_documents (E : Env) (request : option Request)
    (s s' : St) (msg : string) :
  (forall tr, drive_files_list E tr drive_query = Ok []) ->
  sheets_to_bq E request s = (Ok (Some msg), s') ->
  exists pre,
    new_events s s' = pre ++ [EvNow; EvDriveList drive_query]
    /\ count_events is_table_work pre = 0
    /\ count_events (is_dataset_lookup _BQ_DATASET) pre = 1
    /\ count_events (is_dataset_lookup history_dataset_name) pre = 1.
Proof.
  intros Hempty
    (cevs & e1 & e2 & sheets & docs & Ht & Hc & He1 & He2 & Hl & Hd)
    %sheets_to_bq_ok.
  cbv zeta in *. rewrite Hempty in Hl. injection Hl as <-.
  apply docs_events_nil in Hd as ->.
  exists (cevs ++ client_events ++ e1 ++ e2). split.
  { unfold new_events. by rewrite Ht, drop_app_length. }
  rewrite !count_events_app.
  rewrite !(count_events_forallb is_credential _ cevs)
    by (done || by intros []).
  rewrite !(count_events_ensure _ _ e1) by (done || by intros []).
  rewrite !(count_events_ensure _ _ e2) by (done || by intros []).
  count_clients. repeat split; cbn; lia.
Qed.

Lemma run_over_no_documents_witness :
  exists pre,
    new_events empty_state
      (snd (sheets_to_bq (world_env no_documents) None empty_state))
    = pre ++ [EvNow; EvDriveList drive_query]
    /\ count_events is_table_work pre = 0
    /\ count_events (is_dataset_lookup _BQ_DATASET) pre = 1
    /\ count_events (is_dataset_lookup history_dataset_name) pre = 1.
Proof.
  apply (run_over_no_documents (world_env no_documents) None empty_state _
           done_message).
  - intros tr. reflexivity.
  - vm_compute. reflexivity.
Defined.

(** X18.  In a completed run the values requests are, in order, those of
    the listed documents, one per document, each for the fixed range: no
    document is skipped, fetched twice or fetched out of order. *)
Theorem documents_are_fetched_in_listing_order (E : Env)
    (request : option Request) (s s' : St) (msg : string) :
  sheets_to_bq E request s = (Ok (Some msg), s') ->
  exists before after sheets,
    new_events s s' = before ++ EvDriveList drive_query :: after
    /\ drive_files_list E (trace s ++ before) drive_query = Ok sheets
    /\ values_requests (new_events s s')
       = map (fun sheet => (id sheet, _RANGE_NAME)) sheets.
Proof.
  intros (cevs & e1 & e2 & sheets & docs & Ht & Hc & He1 & He2 & Hl & Hd)
    %sheets_to_bq_ok.
  cbv zeta in *.
  exists ((cevs ++ client_events ++ e1 ++ e2) ++ [EvNow]), docs, sheets.
  assert (new_events s s'
          = ((cevs ++ client_events ++ e1 ++ e2) ++ [EvNow])
            ++ EvDriveList drive_query :: docs) as Hn.
  { unfold new_events. rewrite Ht, drop_app_length, <- !app_assoc. done. }
  split; [done|]. split; [exact Hl|].
  rewrite Hn, values_requests_app.
  rewrite (values_requests_none ((cevs ++ client_events ++ e1 ++ e2)
                                 ++ [EvNow])).
  2:{ rewrite !count_events_app.
      rewrite (count_events_forallb is_credential _ cevs)
        by (done || by intros []).
      rewrite (count_events_ensure _ _ e1) by (done || by intros []).
      rewrite (count_events_ensure _ _ e2) by (done || by intros []).
      reflexivity. }
  cbn [app]. change (values_requests (EvDriveList drive_query :: docs))
    with (values_requests docs).
  by eapply values_requests_docs.
Qed.

Lemma documents_are_fetched_in_listing_order_witness :
  exists before after sheets,
    new_events empty_state
      (snd (sheets_to_bq (world_env clashing_documents) None empty_state))
    = before ++ EvDriveList drive_query :: after
    /\ drive_files_list (world_env clashing_documents)
                        (trace empty_state ++ before) drive_query = Ok sheets
    /\ values_requests
         (new_events empty_state
            (snd (sheets_to_bq (world_env clashing_documents) None
                               empty_state)))
       = map (fun sheet => (id sheet, _RANGE_NAME)) sheets.
Proof.
  apply (documents_are_fetched_in_listing_order
           (world_env clashing_documents) None empty_state _ done_message).
  vm_compute. reflexivity.
Defined.

(** X19.  When the values of a document were fetched and the platform does
    not open the staged file for writing, which is what happens to a name
    with a slash when the scratch directory has no such subdirectory, the
    exception of [open] leaves the document step: the values request is
    its only event, no dataset or table is looked up, nothing is loaded,
    and the scratch directory is as before. *)
Theorem unopenable_staged_file_stops_the_document (E : Env) (sheet : Sheet)
    (sheets_client bq_client : Client) (timestamp : string) (s : St)
    (answer : option Grid) (e : Exn) :
  sheets_values_get E (trace s) (id sheet) _RANGE_NAME = Ok answer ->
  open_for_writing E (trace s ++ [EvSheetsGet (id sheet) _RANGE_NAME])
                   (staged_path E (name sheet)) = Raise e ->
  _fetch_and_load_data E sheet sheets_client bq_client timestamp s
  = (Raise e, with_events s [EvSheetsGet (id sheet) _RANGE_NAME]).
Proof.
  intros Hans Hopen. unfold _fetch_and_load_data, staged_path in *.
  unfold bind at 1. rewrite _fetch_sheet_values_run, Hans.
  unfold bind at 1.
  destruct (_write_to_tmp E (default [] answer)
              (_generate_filepath E (name sheet +:+ ".csv"))
              (with_events s [EvSheetsGet (id sheet) _RANGE_NAME]))
    as [[u|e'] s1] eqn:Hw.
  - apply _write_to_tmp_ok in Hw as [[Hok _] _].
    cbn [with_events trace] in Hok. congruence.
  - apply _write_to_tmp_raise in Hw as [Ht [[He Hfs]|[Hok _]]];
      cbn [with_events trace] in *; [|congruence].
    rewrite Hopen in He. injection He as <-.
    destruct s1 as [f1 t1]. cbn in Ht, Hfs. by subst.
Qed.

Lemma unopenable_staged_file_stops_the_document_witness :
  _fetch_and_load_data (world_env nested_name) quarterly sheets_handle
                       bq_handle noon_stamp empty_state
  = (Raise (no_such_file "/tmp/2024/Q1.csv"),
     with_events empty_state [EvSheetsGet (id quarterly) _RANGE_NAME]).
Proof.
  apply (unopenable_staged_file_stops_the_document (world_env nested_name)
           quarterly sheets_handle bq_handle noon_stamp empty_state
           (Some plan_values) (no_such_file "/tmp/2024/Q1.csv")).
  - reflexivity.
  - reflexivity.
Defined.
